(** * Verification of the data packager of jtb_2023_code

    Source: [src/jtb_2023_code/package_data.py], function [_data_packager].

    The packager builds one annotated matrix ([inf_data]) from the raw
    counts of the full data set, overlays per-experiment velocity and
    denoised layers with boolean row masks, keeps the wild-type rows,
    derives two transcription layers and trims genes without expression.

    The embedding is shallow.  A numpy array is a list of rows of binary32
    numbers together with its column count, the IEEE operations are the
    ones of [SpecFloat] at precision 24 and exponent bound 128, a pandas
    data frame is a row index with a finite map of columns, and a Python
    exception is the [Raise] case of a result type.  The library calls the
    source makes (numpy indexing and broadcasting, the AnnData shape
    checks, scanpy's [normalize_per_cell]) are written out as functions
    that follow the behaviour of those libraries.

    Conventions of the model:
    - every numeric array holds binary32 numbers: the layers the packager
      creates are [np.float32] (lines 76-86) and [X] is converted to
      [np.float32] at line 71; the arrays read from the full data set and
      from the per-experiment products are taken in the same format;
    - [X] is a scipy sparse matrix in the source (line 156 reads [.A1]
      from its column sums); it is represented by its dense contents and
      taken in canonical form, so that the entries it stores are the
      entries that are not zero.  A row total is the reduction of the
      stored entries of the row as numpy's [add.reduceat] computes it, a
      column total adds the stored entries row after row, and scanpy's
      scaling of a sparse matrix multiplies the stored entries of row
      [i] by the reciprocal of [counts_per_cell[i]];
    - the statements [print], [gc.collect], [del] and [data._unload] have
      no effect on the object that is built and are left out, as is the
      optional write of the result to [out_file].

    The last part of the definitions transcribes the constants of
    [src/jtb_2022_code/figure_constants.py] under which the figures read
    the packaged object, and its two time-order tables. *)

From Stdlib Require Import ZArith Bool List Lia.
From Stdlib Require Import Floats.SpecFloat.
From Stdlib Require QArith.
From stdpp Require Import base option list strings gmap.

Set Default Proof Using "Type".

(* ================================================================== *)
(** * 1. binary32 numbers *)
(* ================================================================== *)

Module F32.

Definition prec : Z := 24.
Definition emax : Z := 128.

Definition add : spec_float -> spec_float -> spec_float := SFadd prec emax.
Definition sub : spec_float -> spec_float -> spec_float := SFsub prec emax.
Definition mul : spec_float -> spec_float -> spec_float := SFmul prec emax.
Definition div : spec_float -> spec_float -> spec_float := SFdiv prec emax.

Definition nan : spec_float := S754_nan.
Definition zero : spec_float := S754_zero false.
Definition one : spec_float := S754_finite false 8388608 (-23).
Definition two : spec_float := S754_finite false 8388608 (-22).

(** The binary32 number nearest to an integer (used to write inputs). *)
Definition of_Z (z : Z) : spec_float := binary_normalize prec emax z 0 false.

Definition isnan (x : spec_float) : bool :=
  match x with S754_nan => true | _ => false end.

(** [numpy.isfinite]: neither NaN nor an infinity. *)
Definition isfinite (x : spec_float) : bool :=
  match x with S754_zero _ | S754_finite _ _ _ => true | _ => false end.

(** Comparisons as numpy evaluates them; every comparison with NaN is
    [false]. *)
Definition eqb (x y : spec_float) : bool := SFeqb x y.
Definition gtb (x y : spec_float) : bool := SFltb y x.
Definition geb (x y : spec_float) : bool := SFleb y x.
Definition leb (x y : spec_float) : bool := SFleb x y.

(** Non-negative members of the format: [+0], a positive number in
    canonical form, or [+inf].  Count data and its sums live here. *)
Definition nonneg (x : spec_float) : bool :=
  match x with
  | S754_zero s => negb s
  | S754_infinity s => negb s
  | S754_nan => false
  | S754_finite s m e => negb s && bounded prec emax m e
  end.

End F32.

Abbreviation float32 := spec_float.

(* ================================================================== *)
(** * 2. Python exceptions *)
(* ================================================================== *)

Inductive exn : Type :=
| KeyError (key : string)
| ValueError
| IndexError.

Inductive result (A : Type) : Type :=
| Ok (a : A)
| Raise (e : exn).
Arguments Ok {A} a.
Arguments Raise {A} e.

#[global] Instance result_ret : MRet result := fun A a => Ok a.
#[global] Instance result_bind : MBind result :=
  fun A B f m => match m with Ok a => f a | Raise e => Raise e end.

Definition raises {A : Type} (m : result A) : Prop := exists e, m = Raise e.

(** [d[key]] on a dict or a mapping. *)
Definition getitem {V : Type} (d : gmap string V) (key : string) : result V :=
  match d !! key with
  | Some v => Ok v
  | None => Raise (KeyError key)
  end.

(* ================================================================== *)
(** * 3. numpy arrays *)
(* ================================================================== *)

Record ndarray : Type := mk_ndarray {
  ncols : nat;
  rows : list (list float32)
}.

Definition nrows (a : ndarray) : nat := length (rows a).
Definition shape (a : ndarray) : nat * nat := (nrows a, ncols a).

(** Every row of a two-dimensional array has [ncols] entries. *)
Definition rectangular (a : ndarray) : Prop :=
  Forall (fun r => length r = ncols a) (rows a).

Definition rectangularb (a : ndarray) : bool :=
  forallb (fun r => Nat.eqb (length r) (ncols a)) (rows a).

Definition shape_eqb (s t : nat * nat) : bool :=
  Nat.eqb s.1 t.1 && Nat.eqb s.2 t.2.

(** [a[r, c]] *)
Definition cell (a : ndarray) (r c : nat) : option float32 :=
  rows a !! r ≫= fun row => row !! c.

(** [np.full(shape, v)] *)
Definition np_full (shp : nat * nat) (v : float32) : ndarray :=
  mk_ndarray shp.2 (replicate shp.1 (replicate shp.2 v)).

(** [a.copy()]: a fresh array with the same contents. *)
Definition np_copy (a : ndarray) : ndarray := a.

(** [a.astype(np.float32)].  Every number of the model already is a
    binary32 number, so the conversion keeps the values. *)
Definition astype_float32 (a : ndarray) : ndarray := a.

(** [l[mask]]: the entries at the positions where the mask is [True]. *)
Fixpoint compress {A : Type} (mask : list bool) (l : list A) : list A :=
  match mask, l with
  | b :: mask', x :: l' =>
      if b then x :: compress mask' l' else compress mask' l'
  | _, _ => []
  end.

(** [np.sum(mask)] *)
Fixpoint count_true (mask : list bool) : nat :=
  match mask with
  | [] => 0
  | b :: mask' => (if b then 1 else 0) + count_true mask'
  end.

(** [names.isin(ids)] *)
Definition isin (names ids : list string) : list bool :=
  map (fun n => bool_decide (n ∈ ids)) names.

(** [a[:, 0:k]] *)
Definition slice_cols (k : nat) (a : ndarray) : ndarray :=
  mk_ndarray (Nat.min k (ncols a)) (map (take k) (rows a)).

(** Column [j] of an array. *)
Definition column (j : nat) (a : ndarray) : list float32 :=
  omap (fun row => row !! j) (rows a).

(** Broadcasting of the right-hand side of an assignment to the shape
    [(n, m)] of the selected block: along each axis the value has either
    the extent of the block or extent one, otherwise numpy raises
    ValueError. *)
Definition broadcast_row (m : nat) (c : nat) (row : list float32) : list float32 :=
  if Nat.eqb c m then row
  else match row with
       | x :: _ => replicate m x
       | [] => []
       end.

Definition broadcast_to (n m : nat) (v : ndarray) : result (list (list float32)) :=
  if (Nat.eqb (nrows v) n || Nat.eqb (nrows v) 1)
     && (Nat.eqb (ncols v) m || Nat.eqb (ncols v) 1)
  then
    let rs := if Nat.eqb (nrows v) n then rows v
              else match rows v with
                   | r :: _ => replicate n r
                   | [] => []
                   end in
    Ok (map (broadcast_row m (ncols v)) rs)
  else Raise ValueError.

(** The rows of [src] written, in order, over the rows of [tgt] that the
    mask selects. *)
Fixpoint put_rows {A : Type} (mask : list bool) (tgt src : list A) : list A :=
  match mask, tgt with
  | true :: mask', t :: tgt' =>
      match src with
      | s :: src' => s :: put_rows mask' tgt' src'
      | [] => t :: tgt'
      end
  | false :: mask', t :: tgt' => t :: put_rows mask' tgt' src
  | _, _ => tgt
  end.

(** [a[mask, :] = v] *)
Definition setitem_rows (a : ndarray) (mask : list bool) (v : ndarray) : result ndarray :=
  if Nat.eqb (length mask) (nrows a) then
    src ← broadcast_to (count_true mask) (ncols a) v;
    Ok (mk_ndarray (ncols a) (put_rows mask (rows a) src))
  else Raise IndexError.

(** Element-wise binary operations on two arrays of one shape.  The
    arrays combined by the packager are layers of one AnnData object,
    which have the shape of [X]; other shapes are reported as the
    ValueError numpy raises for operands that cannot be broadcast. *)
Definition np_zip (f : float32 -> float32 -> float32) (a b : ndarray) : result ndarray :=
  if shape_eqb (shape a) (shape b)
  then Ok (mk_ndarray (ncols a) (zip_with (zip_with f) (rows a) (rows b)))
  else Raise ValueError.

Definition np_multiply : ndarray -> ndarray -> result ndarray := np_zip F32.mul.
Definition np_iadd : ndarray -> ndarray -> result ndarray := np_zip F32.add.

(** numpy's pairwise summation, the inner loop of [np.add.reduce] on a
    contiguous run of binary32 numbers.  Fewer than eight numbers are
    added one after the other.  Up to 128 numbers are added in eight
    interleaved partial sums, which are combined as a balanced tree; the
    numbers after the last full group of eight are then added one after
    the other.  A longer run is split in two at a multiple of eight, and
    the sums of the two parts are added.  (numpy starts the short loop
    at a zero; its sign plays no part in a sum of entries that are not
    zero.) *)
Definition combine8 (r : list float32) : float32 :=
  match r with
  | [r0; r1; r2; r3; r4; r5; r6; r7] =>
      F32.add (F32.add (F32.add r0 r1) (F32.add r2 r3))
              (F32.add (F32.add r4 r5) (F32.add r6 r7))
  | _ => F32.zero
  end.

Fixpoint accumulate8 (r a : list float32) : list float32 :=
  match a with
  | x0 :: x1 :: x2 :: x3 :: x4 :: x5 :: x6 :: x7 :: a' =>
      accumulate8 (zip_with F32.add r [x0; x1; x2; x3; x4; x5; x6; x7]) a'
  | _ => r
  end.

Definition unrolled_sum (a : list float32) : float32 :=
  foldl F32.add (combine8 (accumulate8 (take 8 a) (drop 8 a)))
        (drop (length a - Nat.modulo (length a) 8) a).

(** The recursion halves the run; [fuel] bounds its depth, and the
    length of the run is always enough. *)
Fixpoint pairwise_sum_rec (fuel : nat) (a : list float32) : float32 :=
  if Nat.ltb (length a) 8 then foldl F32.add F32.zero a
  else if Nat.leb (length a) 128 then unrolled_sum a
  else match fuel with
       | 0 => unrolled_sum a
       | S fuel' =>
           let n2 := Nat.div (length a) 2
                     - Nat.modulo (Nat.div (length a) 2) 8 in
           F32.add (pairwise_sum_rec fuel' (take n2 a))
                   (pairwise_sum_rec fuel' (drop n2 a))
       end.

Definition pairwise_sum (a : list float32) : float32 :=
  pairwise_sum_rec (length a) a.

(** The entries of a row that the sparse matrix stores: every entry
    that is not zero. *)
Definition stored (row : list float32) : list float32 :=
  List.filter (fun x => negb (F32.eqb x F32.zero)) row.

(** [X.sum(axis=1)] for one row of a CSR matrix: scipy reduces the
    stored entries of the row with [np.add.reduceat], which gives the
    first entry plus the pairwise sum of the others; a row without a
    stored entry has the total zero. *)
Definition row_total (row : list float32) : float32 :=
  match stored row with
  | [] => F32.zero
  | x :: rest => F32.add x (pairwise_sum rest)
  end.

Definition sum_axis1 (a : ndarray) : list float32 := map row_total (rows a).

(** [X.sum(axis=0)]: one total per column.  scipy multiplies a row of
    ones with the matrix, which adds the stored entries of a column to
    an accumulator that starts at zero, row after row; adding the zero
    of an entry that is not stored leaves such an accumulator as it
    is. *)
Definition sum_axis0 (a : ndarray) : list float32 :=
  foldl (zip_with F32.add) (replicate (ncols a) F32.zero) (rows a).

(** [np.median] of a one-dimensional array: NaN for an empty array or an
    array holding a NaN, the middle element of the sorted array, or the
    mean of the two middle elements. *)
Fixpoint insert_sorted (x : float32) (l : list float32) : list float32 :=
  match l with
  | [] => [x]
  | y :: l' => if F32.leb x y then x :: l else y :: insert_sorted x l'
  end.

Definition np_sort (l : list float32) : list float32 :=
  foldr insert_sorted [] l.

Definition np_median (l : list float32) : float32 :=
  if existsb F32.isnan l then F32.nan
  else
    let s := np_sort l in
    let n := length s in
    if Nat.odd n then default F32.nan (s !! (n / 2))
    else match s !! (n / 2 - 1), s !! (n / 2) with
         | Some a, Some b => F32.div (F32.add a b) F32.two
         | _, _ => F32.nan
         end.

(** Pure forms of row and column selection, used once the mask length has
    been checked against the axis. *)
Definition select_rows (mask : list bool) (a : ndarray) : ndarray :=
  mk_ndarray (ncols a) (compress mask (rows a)).

Definition select_cols (mask : list bool) (a : ndarray) : ndarray :=
  mk_ndarray (count_true mask) (map (compress mask) (rows a)).

(** [sparsefuncs.inplace_row_scale(X, scale)]: the stored entries of
    row [i] are multiplied by [scale[i]]; an entry that is not stored is
    not touched. *)
Definition scale_entry (s x : float32) : float32 :=
  if F32.eqb x F32.zero then x else F32.mul x s.

Definition inplace_row_scale (a : ndarray) (scale : list float32) : ndarray :=
  mk_ndarray (ncols a)
    (zip_with (fun row s => map (scale_entry s) row) (rows a) scale).

(* ================================================================== *)
(** * 4. pandas data frames *)
(* ================================================================== *)

Inductive value : Type :=
| VStr (s : string)
| VNum (x : float32).

Record DataFrame : Type := mk_DataFrame {
  index : list string;
  columns : gmap string (list value)
}.

(** [df[name]] *)
Definition df_getitem (df : DataFrame) (name : string) : result (list value) :=
  getitem (columns df) name.

(** [df[name] = col] *)
Definition df_setitem (df : DataFrame) (name : string) (col : list value)
  : result DataFrame :=
  if Nat.eqb (length col) (length (index df))
  then Ok (mk_DataFrame (index df) (<[name := col]> (columns df)))
  else Raise ValueError.

(** [df[[n1; ...; nk]]]: the frame restricted to the named columns. *)
Fixpoint df_select_columns (df : DataFrame) (names : list string)
  : result (gmap string (list value)) :=
  match names with
  | [] => Ok ∅
  | n :: names' =>
      col ← df_getitem df n;
      rest ← df_select_columns df names';
      Ok (<[n := col]> rest)
  end.

Definition df_select (df : DataFrame) (names : list string) : result DataFrame :=
  cols ← df_select_columns df names;
  Ok (mk_DataFrame (index df) cols).

(** [df[[n1; n2]] = a] for a two-dimensional array [a]: pandas raises
    ValueError unless [a] has one column per name and one row per index
    entry. *)
Definition df_setitem_array (df : DataFrame) (n1 n2 : string) (a : ndarray)
  : result DataFrame :=
  if Nat.eqb (ncols a) 2 then
    df1 ← df_setitem df n1 (VNum <$> column 0 a);
    df_setitem df1 n2 (VNum <$> column 1 a)
  else Raise ValueError.

(** [df[mask]] *)
Definition df_select_rows (mask : list bool) (df : DataFrame) : DataFrame :=
  mk_DataFrame (compress mask (index df)) (compress mask <$> columns df).

(** [col == s] *)
Definition value_eq_str (s : string) (v : value) : bool :=
  match v with
  | VStr t => bool_decide (t = s)
  | VNum _ => false
  end.

(* ================================================================== *)
(** * 5. AnnData objects *)
(* ================================================================== *)

Record AnnData : Type := mk_AnnData {
  X : ndarray;
  obs : DataFrame;
  var : DataFrame;
  layers : gmap string ndarray;
  obsm : gmap string ndarray;
  uns : gmap string (gmap string string)
}.

Definition obs_names (a : AnnData) : list string := index (obs a).
Definition var_names (a : AnnData) : list string := index (var a).

(** [ad.AnnData(x, obs=o, var=v)]; the constructor raises ValueError when
    the annotations do not have one row per observation and per variable. *)
Definition ad_AnnData (x : ndarray) (o v : DataFrame) : result AnnData :=
  if Nat.eqb (length (index o)) (nrows x) && Nat.eqb (length (index v)) (ncols x)
  then Ok (mk_AnnData x o v ∅ ∅ ∅)
  else Raise ValueError.

Definition with_X (a : AnnData) (x : ndarray) : AnnData :=
  mk_AnnData x (obs a) (var a) (layers a) (obsm a) (uns a).

Definition with_obs (a : AnnData) (o : DataFrame) : AnnData :=
  mk_AnnData (X a) o (var a) (layers a) (obsm a) (uns a).

Definition with_layers (a : AnnData) (ls : gmap string ndarray) : AnnData :=
  mk_AnnData (X a) (obs a) (var a) ls (obsm a) (uns a).

(** [a.layers[name]] *)
Definition get_layer (a : AnnData) (name : string) : result ndarray :=
  getitem (layers a) name.

(** [a.layers[name] = arr]; AnnData raises ValueError when the shape of
    the array is not the shape of [X]. *)
Definition set_layer (a : AnnData) (name : string) (arr : ndarray) : result AnnData :=
  if shape_eqb (shape arr) (shape (X a))
  then Ok (with_layers a (<[name := arr]> (layers a)))
  else Raise ValueError.

(** [a.obs[name] = col] *)
Definition set_obs (a : AnnData) (name : string) (col : list value) : result AnnData :=
  o ← df_setitem (obs a) name col;
  Ok (with_obs a o).

(** [a[mask, :].copy()] and [a._inplace_subset_obs(mask)]: the rows the
    mask selects, in [X], in [obs], in every layer and in every [obsm]
    entry. *)
Definition subset_obs (mask : list bool) (a : AnnData) : result AnnData :=
  if Nat.eqb (length mask) (nrows (X a)) then
    Ok (mk_AnnData (select_rows mask (X a))
                   (df_select_rows mask (obs a))
                   (var a)
                   (select_rows mask <$> layers a)
                   (select_rows mask <$> obsm a)
                   (uns a))
  else Raise IndexError.

(** [a[:, mask]]: the columns the mask selects, in [X], in [var] and in
    every layer. *)
Definition subset_var (mask : list bool) (a : AnnData) : result AnnData :=
  if Nat.eqb (length mask) (ncols (X a)) then
    Ok (mk_AnnData (select_cols mask (X a))
                   (obs a)
                   (df_select_rows mask (var a))
                   (select_cols mask <$> layers a)
                   (obsm a)
                   (uns a))
  else Raise IndexError.

(* ================================================================== *)
(** * 6. scanpy: [sc.pp.normalize_per_cell] *)
(* ================================================================== *)

(** [normalize_per_cell(adata, min_counts=c)] on an AnnData object with
    the default arguments otherwise:
    - [filter_cells] computes the total of every row and the mask of the
      rows whose total is at least [min_counts];
    - the totals are stored in [adata.obs["n_counts"]];
    - the object is restricted to the rows of the mask;
    - the target total is the median of the remaining totals;
    - a total of zero is replaced by one ([counts_per_cell +=
      counts_per_cell == 0]), the totals are divided by the target, and
      the stored entries of every row of [X] are multiplied by the
      reciprocal of the quotient of the row. *)
Definition guard_zero (c : float32) : float32 :=
  F32.add c (if F32.eqb c F32.zero then F32.one else F32.zero).

Definition row_scales (counts_per_cell : list float32) : list float32 :=
  let after := np_median counts_per_cell in
  map (fun c => F32.div F32.one (F32.div (guard_zero c) after)) counts_per_cell.

Definition normalize_per_cell (adata : AnnData) (min_counts : float32)
  : result AnnData :=
  let number_per_cell := sum_axis1 (X adata) in
  let cell_subset := map (fun t => F32.geb t min_counts) number_per_cell in
  adata ← set_obs adata "n_counts" (VNum <$> number_per_cell);
  adata ← subset_obs cell_subset adata;
  let counts_per_cell := compress cell_subset number_per_cell in
  Ok (with_X adata (inplace_row_scale (X adata) (row_scales counts_per_cell))).

(* ================================================================== *)
(** * 7. The packager *)
(* ================================================================== *)

(** An experiment key [(experiment, genotype)], as iterated by
    [data.expts] and unpacked into the arguments of [data.decay_data] and
    [data.denoised_data]. *)
Definition key : Type := nat * string.

(** The part of [FigureSingleCellData] the packager reads: the full data
    set, the experiment keys, and the two per-experiment loaders, which
    may raise. *)
Record FigureSingleCellData : Type := mk_FigureSingleCellData {
  all_data : AnnData;
  expts : list key;
  decay_data : key -> result AnnData;
  denoised_data : key -> result AnnData
}.

(** [f'program_{p}_time'] *)
Definition program_time_column (p : string) : string :=
  "program_" +:+ p +:+ "_time".

(** Lines 45-55: the new object from the counts, the decay constants of
    the full data set, and the first two UMAP and PCA coordinates. *)
Definition new_data_object (_all : AnnData) : result AnnData :=
  counts ← get_layer _all "counts";
  v ← df_select (var _all) ["CommonName"; "category"; "programs"];
  inf_data ← ad_AnnData (np_copy counts) (obs _all) v;
  dc ← get_layer _all "decay_constants";
  inf_data ← set_layer inf_data "decay_constants" dc;
  umap ← getitem (obsm _all) "X_umap";
  o ← df_setitem_array (obs inf_data) "UMAP_1" "UMAP_2" (slice_cols 2 umap);
  let inf_data := with_obs inf_data o in
  pca ← getitem (obsm _all) "X_pca";
  o ← df_setitem_array (obs inf_data) "PCA_1" "PCA_2" (slice_cols 2 pca);
  Ok (with_obs inf_data o).

(** Lines 57-63: the two pseudotime columns, looked up in the [obs] of
    the new object under the names the [uns["programs"]] map gives. *)
Definition copy_program_times (_all inf_data : AnnData) : result AnnData :=
  programs ← getitem (uns _all) "programs";
  rapa ← getitem programs "rapa_program";
  col ← df_getitem (obs inf_data) (program_time_column rapa);
  inf_data ← set_obs inf_data "program_rapa_time" col;
  programs ← getitem (uns _all) "programs";
  cc ← getitem programs "cell_cycle_program";
  col ← df_getitem (obs inf_data) (program_time_column cc);
  set_obs inf_data "program_cc_time" col.

(** Step 1 (lines 43-63). *)
Definition base_construction (data : FigureSingleCellData) : result AnnData :=
  let _all := all_data data in
  inf_data ← new_data_object _all;
  copy_program_times _all inf_data.

(** Step 3 (lines 70-86): the counts layer, the conversion of [X], the
    normalization with [min_counts=0], and the three layers filled with
    NaN. *)
Definition layer_setup (inf_data : AnnData) : result AnnData :=
  inf_data ← set_layer inf_data "counts" (np_copy (X inf_data));
  let inf_data := with_X inf_data (astype_float32 (X inf_data)) in
  inf_data ← normalize_per_cell inf_data F32.zero;
  inf_data ← set_layer inf_data "rapamycin_velocity"
                       (np_full (shape (X inf_data)) F32.nan);
  inf_data ← set_layer inf_data "cell_cycle_velocity"
                       (np_full (shape (X inf_data)) F32.nan);
  set_layer inf_data "denoised" (np_full (shape (X inf_data)) F32.nan).

(** [inf_data.layers[name][mask, :] = v]: the stored array is changed in
    place. *)
Definition layer_setitem_rows (inf_data : AnnData) (name : string)
    (mask : list bool) (v : ndarray) : result AnnData :=
  a ← get_layer inf_data name;
  a' ← setitem_rows a mask v;
  Ok (with_layers inf_data (<[name := a']> (layers inf_data))).

(** The body of the loop of lines 88-104 for one key. *)
Definition merge_experiment (data : FigureSingleCellData) (inf_data : AnnData)
    (k : key) : result AnnData :=
  dd ← decay_data data k;
  let _expt_idx := isin (obs_names inf_data) (obs_names dd) in
  dn ← denoised_data data k;
  inf_data ← layer_setitem_rows inf_data "denoised" _expt_idx (X dn);
  rv ← get_layer dd "rapamycin_velocity";
  inf_data ← layer_setitem_rows inf_data "rapamycin_velocity" _expt_idx rv;
  cv ← get_layer dd "cell_cycle_velocity";
  layer_setitem_rows inf_data "cell_cycle_velocity" _expt_idx cv.

(** Step 4 (lines 88-104): [for k in data.expts]. *)
Fixpoint merge_experiments (data : FigureSingleCellData) (inf_data : AnnData)
    (ks : list key) : result AnnData :=
  match ks with
  | [] => Ok inf_data
  | k :: ks' =>
      inf_data ← merge_experiment data inf_data k;
      merge_experiments data inf_data ks'
  end.

(** Step 5 (lines 106-113): the rows whose [Gene] is ["WT"]. *)
Definition wildtype_subset (inf_data : AnnData) : result AnnData :=
  gene ← df_getitem (obs inf_data) "Gene";
  let _wt_idx := map (value_eq_str "WT") gene in
  subset_obs _wt_idx inf_data.

(** Lines 133-145 for one velocity layer:
    [layers[out] = layers[velocity].copy()] followed by
    [layers[out] += np.multiply(layers["decay_constants"],
    layers["denoised"])]. *)
Definition transcription_layer (inf_data : AnnData) (velocity out : string)
  : result AnnData :=
  v ← get_layer inf_data velocity;
  inf_data ← set_layer inf_data out (np_copy v);
  t ← get_layer inf_data out;
  dc ← get_layer inf_data "decay_constants";
  dn ← get_layer inf_data "denoised";
  p ← np_multiply dc dn;
  t ← np_iadd t p;
  set_layer inf_data out t.

(** Step 6 (lines 131-145). *)
Definition transcription_layers (inf_data : AnnData) : result AnnData :=
  inf_data ← transcription_layer inf_data "rapamycin_velocity"
                                 "rapamycin_transcription";
  transcription_layer inf_data "cell_cycle_velocity" "cell_cycle_transcription".

(** Step 7 (lines 156-160): genes whose column total is positive. *)
Definition has_expression (inf_data : AnnData) : list bool :=
  map (fun s => F32.gtb s F32.zero) (sum_axis0 (X inf_data)).

Definition trim_features (inf_data : AnnData) : result AnnData :=
  let _has_expression := has_expression inf_data in
  if forallb id _has_expression then Ok inf_data
  else subset_var _has_expression inf_data.

(** The packager, without the printing and without the optional write of
    the result to [out_file]. *)
Definition _data_packager (data : FigureSingleCellData) : result AnnData :=
  inf_data ← base_construction data;
  inf_data ← layer_setup inf_data;
  inf_data ← merge_experiments data inf_data (expts data);
  inf_data ← wildtype_subset inf_data;
  inf_data ← transcription_layers inf_data;
  trim_features inf_data.

(* ================================================================== *)
(** * 8. Well-formed objects *)
(* ================================================================== *)

(** Every column of a data frame has one entry per index entry. *)
Definition frame_wf (df : DataFrame) : Prop :=
  map_Forall (fun _ col => length col = length (index df)) (columns df).

(** The shape invariant of an AnnData object: [X] is a genuine matrix,
    every layer is a matrix of the shape of [X], [obs] has one row per
    row of [X] and [var] one row per column of [X]. *)
Record store_wf (a : AnnData) : Prop := mk_store_wf {
  wf_X : rectangular (X a);
  wf_layers :
    map_Forall (fun _ l => shape l = shape (X a) /\ rectangular l) (layers a);
  wf_obs_index : length (index (obs a)) = nrows (X a);
  wf_obs : frame_wf (obs a);
  wf_var_index : length (index (var a)) = ncols (X a);
  wf_var : frame_wf (var a)
}.

(** What is assumed of the objects handed to the packager: the frames of
    the full data set have columns as long as their index, and the arrays
    read from the full data set and from the per-experiment products are
    genuine matrices. *)
Record input_wf (data : FigureSingleCellData) : Prop := mk_input_wf {
  in_obs : frame_wf (obs (all_data data));
  in_var : frame_wf (var (all_data data));
  in_layers :
    map_Forall (fun _ l => rectangular l) (layers (all_data data));
  in_decay : forall k dd,
    k ∈ expts data -> decay_data data k = Ok dd ->
    map_Forall (fun _ l => rectangular l) (layers dd);
  in_denoised : forall k dn,
    k ∈ expts data -> denoised_data data k = Ok dn -> rectangular (X dn)
}.

(* ================================================================== *)
(** * 9. Statements about the transcription layers *)
(* ================================================================== *)

(** The six layers Step 6 reads and writes. *)
Record transcription_view (s : AnnData) : Type := mk_transcription_view {
  tv_rapamycin_transcription : ndarray;
  tv_cell_cycle_transcription : ndarray;
  tv_rapamycin_velocity : ndarray;
  tv_cell_cycle_velocity : ndarray;
  tv_decay_constants : ndarray;
  tv_denoised : ndarray
}.
Arguments mk_transcription_view {s}.
Arguments tv_rapamycin_transcription {s}.
Arguments tv_cell_cycle_transcription {s}.
Arguments tv_rapamycin_velocity {s}.
Arguments tv_cell_cycle_velocity {s}.
Arguments tv_decay_constants {s}.
Arguments tv_denoised {s}.

Definition views (s : AnnData) (w : transcription_view s) : Prop :=
  layers s !! "rapamycin_transcription" = Some (tv_rapamycin_transcription w)
  /\ layers s !! "cell_cycle_transcription" = Some (tv_cell_cycle_transcription w)
  /\ layers s !! "rapamycin_velocity" = Some (tv_rapamycin_velocity w)
  /\ layers s !! "cell_cycle_velocity" = Some (tv_cell_cycle_velocity w)
  /\ layers s !! "decay_constants" = Some (tv_decay_constants w)
  /\ layers s !! "denoised" = Some (tv_denoised w).

(** [t] holds [v + dc * dn], entry by entry. *)
Definition derived_rows (t v dc dn : ndarray) : Prop :=
  rows t = zip_with (zip_with F32.add) (rows v)
                    (zip_with (zip_with F32.mul) (rows dc) (rows dn)).

Definition cellwise_transcription (t v dc dn : ndarray) : Prop :=
  forall r c,
    cell t r c = (a ← cell v r c; k ← cell dc r c; d ← cell dn r c;
                  Some (F32.add a (F32.mul k d))).

(** The two transcription layers are [velocity + decay * denoised] with
    one shared pair of decay and denoised layers. *)
Definition transcription_derived (s : AnnData) (w : transcription_view s) : Prop :=
  views s w
  /\ derived_rows (tv_rapamycin_transcription w) (tv_rapamycin_velocity w)
                  (tv_decay_constants w) (tv_denoised w)
  /\ derived_rows (tv_cell_cycle_transcription w) (tv_cell_cycle_velocity w)
                  (tv_decay_constants w) (tv_denoised w).

(** The reading of "both transcription layers differ from their velocity
    by the same amount" as an equation between the two differences,
    compared the way numpy compares numbers. *)
Definition equal_differences (s : AnnData) : Prop :=
  forall (w : transcription_view s) r c rt ct rv cv k d,
    views s w ->
    cell (tv_rapamycin_transcription w) r c = Some rt ->
    cell (tv_cell_cycle_transcription w) r c = Some ct ->
    cell (tv_rapamycin_velocity w) r c = Some rv ->
    cell (tv_cell_cycle_velocity w) r c = Some cv ->
    cell (tv_decay_constants w) r c = Some k ->
    cell (tv_denoised w) r c = Some d ->
    F32.isnan rv = false -> F32.isnan cv = false ->
    F32.isnan k = false -> F32.isnan d = false ->
    F32.eqb (F32.sub rt rv) (F32.sub ct cv) = true.

(* ================================================================== *)
(** * 10. Statements about the merge of Step 4 *)
(* ================================================================== *)

(** The packager up to the end of the loop of Step 4. *)
Definition run_to_merge (data : FigureSingleCellData) : result AnnData :=
  inf_data ← base_construction data;
  inf_data ← layer_setup inf_data;
  merge_experiments data inf_data (expts data).

(** The number of selected rows before row [r]: the position, among the
    rows of the right-hand side, of the row written to row [r]. *)
Definition rank (mask : list bool) (r : nat) : nat := count_true (take r mask).

(** The position of an identifier in a list of identifiers, and the row
    of a per-experiment array that belongs to an identifier. *)
Definition index_of (id : string) (ids : list string) : option nat :=
  fst <$> list_find (fun x => x = id) ids.

Definition row_of (ids : list string) (a : ndarray) (id : string)
  : option (list float32) :=
  j ← index_of id ids; rows a !! j.

(** The three layers the loop writes, and the array of the products of
    one experiment each of them is written from. *)
Definition merged_layers : list string :=
  ["denoised"; "rapamycin_velocity"; "cell_cycle_velocity"].

Definition product_layer (dd dn : AnnData) (name : string) : option ndarray :=
  if bool_decide (name = "denoised") then Some (X dn) else layers dd !! name.

(** The identifiers [ids] are identifiers of [names], listed in the order
    in which they occur in [names]. *)
Definition aligned (names ids : list string) : Prop :=
  compress (isin names ids) names = ids.

(** The products of one experiment fit the object they are merged into:
    the decay product lists identifiers of the object in the order of the
    object, the denoised product lists the same identifiers in the same
    order, and the three arrays have one row per identifier and the
    column count [m] of the object. *)
Record experiment_aligned (names : list string) (m : nat) (dd dn : AnnData)
  : Prop := mk_experiment_aligned {
  ea_order : aligned names (obs_names dd);
  ea_denoised_ids : obs_names dn = obs_names dd;
  ea_shapes : forall name, name ∈ merged_layers ->
    exists v, product_layer dd dn name = Some v
              /\ shape v = (length (obs_names dd), m)
}.

(** Row-merge correctness read by identifier: in each of the three
    layers, the row of an observation covered by an experiment is the row
    of that observation in the product of the experiment, and the row of
    an observation no experiment covers is still filled with NaN. *)
Definition row_merge_claim (data : FigureSingleCellData) (s4 : AnnData) : Prop :=
  forall name out_layer,
    name ∈ merged_layers -> layers s4 !! name = Some out_layer ->
    (forall k dd dn v r id,
        k ∈ expts data -> decay_data data k = Ok dd ->
        denoised_data data k = Ok dn -> product_layer dd dn name = Some v ->
        obs_names s4 !! r = Some id -> id ∈ obs_names dd ->
        rows out_layer !! r = row_of (obs_names dd) v id
        /\ is_Some (rows out_layer !! r))
    /\ (forall r id,
        obs_names s4 !! r = Some id ->
        (forall k dd, k ∈ expts data -> decay_data data k = Ok dd ->
                      id ∉ obs_names dd) ->
        rows out_layer !! r = Some (replicate (ncols (X s4)) F32.nan)).

(** The reading of "the decay constants of every experiment are merged
    inside the loop": after the loop the rows of [decay_constants] that
    the mask of an experiment selects hold the rows of the
    [decay_constants] layer of the decay product of that experiment. *)
Definition decay_constants_merged (data : FigureSingleCellData) (s4 : AnnData)
  : Prop :=
  forall k dd dc out_dc r,
    k ∈ expts data -> decay_data data k = Ok dd ->
    layers dd !! "decay_constants" = Some dc ->
    layers s4 !! "decay_constants" = Some out_dc ->
    isin (obs_names s4) (obs_names dd) !! r = Some true ->
    rows out_dc !! r = rows dc !! rank (isin (obs_names s4) (obs_names dd)) r.

(** The reading of "the merge fails when the row count of the denoised
    product differs from the number of selected rows". *)
Definition denoised_mismatch_fails (data : FigureSingleCellData)
    (inf_data : AnnData) (k : key) : Prop :=
  forall dd dn,
    decay_data data k = Ok dd -> denoised_data data k = Ok dn ->
    nrows (X dn) <> count_true (isin (obs_names inf_data) (obs_names dd)) ->
    raises (merge_experiment data inf_data k).

(** The object is ready for the loop: it has the three layers, each with
    one row per name and [m] columns. *)
Definition layers_ready (names : list string) (m : nat) (inf_data : AnnData)
  : Prop :=
  obs_names inf_data = names
  /\ forall name, name ∈ merged_layers ->
       exists a, layers inf_data !! name = Some a
                 /\ shape a = (length names, m).

(** Every experiment of [ks] loads, and its products fit the object. *)
Definition experiments_aligned (data : FigureSingleCellData)
    (names : list string) (m : nat) (ks : list key) : Prop :=
  forall k, k ∈ ks ->
    exists dd dn, decay_data data k = Ok dd /\ denoised_data data k = Ok dn
                  /\ experiment_aligned names m dd dn.

(** No identifier belongs to the decay products of two experiments. *)
Definition experiments_disjoint (data : FigureSingleCellData) (ks : list key)
  : Prop :=
  forall k1 k2 dd1 dd2 id,
    k1 ∈ ks -> k2 ∈ ks -> k1 <> k2 ->
    decay_data data k1 = Ok dd1 -> decay_data data k2 = Ok dd2 ->
    id ∈ obs_names dd1 -> id ∉ obs_names dd2.

(* ================================================================== *)
(** * 11. Statements about Step 1 and Step 3 *)
(* ================================================================== *)

(** The reading of "a configured program id without a pseudotime column
    in the source makes Step 1 fail". *)
Definition missing_program_column_fails (data : FigureSingleCellData) : Prop :=
  forall programs p,
    uns (all_data data) !! "programs" = Some programs ->
    (programs !! "rapa_program" = Some p
     \/ programs !! "cell_cycle_program" = Some p) ->
    columns (obs (all_data data)) !! program_time_column p = None ->
    raises (base_construction data).

(** The reading of "the normalization changes the values of [X] and
    nothing else". *)
Definition normalization_only_changes_X (adata : AnnData) : Prop :=
  forall out,
    normalize_per_cell adata F32.zero = Ok out ->
    nrows (X out) = nrows (X adata)
    /\ obs out = obs adata
    /\ var out = var adata
    /\ layers out = layers adata.

(* ================================================================== *)
(** * 12. Predicates on binary32 numbers *)
(* ================================================================== *)

(** The invariant of the two shifts of [binary_round_aux]: a positive
    mantissa whose number is at least the least positive binary32
    number. *)
Definition above_emin (m e : Z) : Prop :=
  (0 < m /\ -149 < Z.log2 m + 1 + e)%Z.

(** A zero of either sign. *)
Definition is_zero (x : float32) : bool :=
  match x with S754_zero _ => true | _ => false end.

(** Above zero: [+inf], or a positive number whose exponent is not below
    the least exponent of the format.  Every sum of such numbers is one
    of them. *)
Definition above_zero (x : float32) : bool :=
  match x with
  | S754_infinity s => negb s
  | S754_finite s _ e => negb s && Z.leb (-149) e
  | _ => false
  end.

(** Within the range of the format: a finite number is below [2^128].
    Every number an operation of the format returns is. *)
Definition in_range (x : float32) : bool :=
  match x with
  | S754_finite _ m e => Z.leb (Zpos (digits2_pos m) + e) 128
  | _ => true
  end.

(** A positive number of the format, or [+inf]. *)
Definition positive_number (x : float32) : Prop :=
  above_zero x = true /\ in_range x = true.

(** Not NaN and not negative. *)
Definition signless (x : float32) : bool :=
  match x with
  | S754_zero s | S754_infinity s | S754_finite s _ _ => negb s
  | S754_nan => false
  end.

(* ================================================================== *)
(** * 13. Statements about the returned object *)
(* ================================================================== *)

(** The mask of line 108: [inf_data.obs["Gene"] == "WT"]. *)
Definition wild_type (gene : list value) : list bool :=
  map (value_eq_str "WT") gene.

(** The mask of scanpy's [filter_cells] for [min_counts=0]. *)
Definition counted (totals : list float32) : list bool :=
  map (fun t => F32.geb t F32.zero) totals.

(** The columns lines 54-55 add to the [obs] columns [src]. *)
Definition embedding_columns (umap pca : ndarray)
    (src : gmap string (list value)) : gmap string (list value) :=
  <["PCA_2" := VNum <$> column 1 (slice_cols 2 pca)]>
    (<["PCA_1" := VNum <$> column 0 (slice_cols 2 pca)]>
       (<["UMAP_2" := VNum <$> column 1 (slice_cols 2 umap)]>
          (<["UMAP_1" := VNum <$> column 0 (slice_cols 2 umap)]> src))).

(** The names the packager writes: the columns of [var] it selects, the
    columns it adds to [obs] (scanpy's [n_counts] included), and the
    layers of the object it returns. *)
Definition var_columns : list string := ["CommonName"; "category"; "programs"].

Definition written_obs_columns : list string :=
  ["UMAP_1"; "UMAP_2"; "PCA_1"; "PCA_2";
   "program_rapa_time"; "program_cc_time"; "n_counts"].

Definition output_layers : list string :=
  ["counts"; "decay_constants"; "rapamycin_velocity"; "cell_cycle_velocity";
   "denoised"; "rapamycin_transcription"; "cell_cycle_transcription"].

(** The three layers of Step 3 are in place, filled with NaN. *)
Definition layer_setup_done (s3 : AnnData) : Prop :=
  forall name, name ∈ merged_layers ->
    layers s3 !! name = Some (np_full (shape (X s3)) F32.nan).

(** The layers that hold the products of the experiments and what is
    derived from them. *)
Definition experiment_layers : list string :=
  merged_layers ++ ["rapamycin_transcription"; "cell_cycle_transcription"].

(** The products of an experiment cannot be merged: a loader raises, or
    the decay product lacks one of the two velocity layers. *)
Definition unusable (data : FigureSingleCellData) (k : key) : Prop :=
  raises (decay_data data k)
  \/ raises (denoised_data data k)
  \/ exists dd, decay_data data k = Ok dd
                /\ (layers dd !! "rapamycin_velocity" = None
                    \/ layers dd !! "cell_cycle_velocity" = None).

(** What the packager reads from the full data set. *)
Record inputs_present (_all : AnnData) : Prop := mk_inputs_present {
  ip_counts : is_Some (layers _all !! "counts");
  ip_decay_constants : is_Some (layers _all !! "decay_constants");
  ip_var : forall name, name ∈ var_columns ->
             is_Some (columns (var _all) !! name);
  ip_umap : exists umap, obsm _all !! "X_umap" = Some umap /\ 2 <= ncols umap;
  ip_pca : exists pca, obsm _all !! "X_pca" = Some pca /\ 2 <= ncols pca;
  ip_programs : exists programs,
      uns _all !! "programs" = Some programs
      /\ is_Some (programs !! "rapa_program")
      /\ is_Some (programs !! "cell_cycle_program");
  ip_gene : is_Some (columns (obs _all) !! "Gene");
  ip_shapes : forall counts, layers _all !! "counts" = Some counts ->
      length (index (obs _all)) = nrows counts
      /\ length (index (var _all)) = ncols counts
      /\ forall dc, layers _all !! "decay_constants" = Some dc ->
           shape dc = shape counts
}.

(** Inputs on which the packager is shown to return: the full data set
    has what Step 1 reads, in matching shapes, its counts are
    non-negative, and the products of every experiment load and fit the
    observations and the genes of the full data set. *)
Record inputs_consistent (data : FigureSingleCellData) (counts : ndarray)
  : Prop := mk_inputs_consistent {
  ic_wf : input_wf data;
  ic_counts : layers (all_data data) !! "counts" = Some counts;
  ic_nonneg : Forall (Forall (fun x => F32.nonneg x = true)) (rows counts);
  ic_obs : length (index (obs (all_data data))) = nrows counts;
  ic_var : length (index (var (all_data data))) = ncols counts;
  ic_var_columns : forall name, name ∈ var_columns ->
      is_Some (columns (var (all_data data)) !! name);
  ic_decay_constants : exists dc,
      layers (all_data data) !! "decay_constants" = Some dc
      /\ shape dc = shape counts;
  ic_embeddings : forall name, name ∈ ["X_umap"; "X_pca"] ->
      exists e, obsm (all_data data) !! name = Some e
                /\ rectangular e /\ nrows e = nrows counts /\ 2 <= ncols e;
  ic_programs : exists programs rapa cc,
      uns (all_data data) !! "programs" = Some programs
      /\ programs !! "rapa_program" = Some rapa
      /\ programs !! "cell_cycle_program" = Some cc
      /\ is_Some (columns (obs (all_data data)) !! program_time_column rapa)
      /\ is_Some (columns (obs (all_data data)) !! program_time_column cc);
  ic_gene : is_Some (columns (obs (all_data data)) !! "Gene");
  ic_experiments :
    experiments_aligned data (obs_names (all_data data)) (ncols counts)
      (expts data)
}.

(** Two results of a loader agree on what the packager reads from the
    object: both raise the same exception, or both return and the
    objects are related by [R]. *)
Definition agree {A : Type} (R : A -> A -> Prop) (r1 r2 : result A) : Prop :=
  match r1, r2 with
  | Ok a, Ok b => R a b
  | Raise e1, Raise e2 => e1 = e2
  | _, _ => False
  end.

(** Two inputs that agree on everything the packager reads: of the full
    data set the layers [counts] and [decay_constants], [obs], the index
    of [var] with the three selected columns, the two embeddings and the
    program names; the experiment keys; of a decay product its
    observation names and its two velocity layers; of a denoised product
    its matrix. *)
Record same_inputs (d1 d2 : FigureSingleCellData) : Prop := mk_same_inputs {
  si_counts :
    layers (all_data d1) !! "counts" = layers (all_data d2) !! "counts";
  si_decay_constants :
    layers (all_data d1) !! "decay_constants"
    = layers (all_data d2) !! "decay_constants";
  si_obs : obs (all_data d1) = obs (all_data d2);
  si_var_index : index (var (all_data d1)) = index (var (all_data d2));
  si_var : forall name, name ∈ var_columns ->
      columns (var (all_data d1)) !! name = columns (var (all_data d2)) !! name;
  si_umap : obsm (all_data d1) !! "X_umap" = obsm (all_data d2) !! "X_umap";
  si_pca : obsm (all_data d1) !! "X_pca" = obsm (all_data d2) !! "X_pca";
  si_programs :
    uns (all_data d1) !! "programs" = uns (all_data d2) !! "programs";
  si_expts : expts d1 = expts d2;
  si_decay : forall k, k ∈ expts d1 ->
      agree (fun a b =>
               obs_names a = obs_names b
               /\ layers a !! "rapamycin_velocity"
                  = layers b !! "rapamycin_velocity"
               /\ layers a !! "cell_cycle_velocity"
                  = layers b !! "cell_cycle_velocity")
            (decay_data d1 k) (decay_data d2 k);
  si_denoised : forall k, k ∈ expts d1 ->
      agree (fun a b => X a = X b) (denoised_data d1 k) (denoised_data d2 k)
}.

(* ================================================================== *)
(** * 14. The constants of [figure_constants.py] *)
(* ================================================================== *)

(** Source: [src/jtb_2022_code/figure_constants.py].  The module holds
    configuration only.  The names under which the figures read the
    packaged object and the two time-order tables are transcribed; the
    times of the tables are minutes, written as exact rationals (the
    literals [49.5] and [78.5] are dyadic). *)
Module figure_constants.

Definition RAPA_TIME_COL : string := "program_rapa_time".
Definition CC_TIME_COL : string := "program_cc_time".
Definition RAPA_VELO_LAYER : string := "rapamycin_velocity".
Definition CC_VELO_LAYER : string := "cell_cycle_velocity".

Definition CC_COLS : list string := ["M-G1"; "G1"; "S"; "G2"; "M"].

Definition CC_LENGTH : QArith_base.Q := QArith_base.Qmake 88 1.

(** A time-order table: a dict from a group to the next group and the
    first and the last time of the group, in the order of the source. *)
Definition time_order : Type :=
  list (string * (string * QArith_base.Q * QArith_base.Q)).

Definition CC_TIME_ORDER : time_order :=
  [ ("M-G1", ("G1", QArith_base.Qmake 5 1, QArith_base.Qmake 25 1));
    ("G1", ("S", QArith_base.Qmake 25 1, QArith_base.Qmake 99 2));
    ("S", ("G2", QArith_base.Qmake 99 2, QArith_base.Qmake 64 1));
    ("G2", ("M", QArith_base.Qmake 64 1, QArith_base.Qmake 157 2));
    ("M", ("M-G1", QArith_base.Qmake 157 2, QArith_base.Qmake 93 1)) ].

Definition RAPA_TIME_ORDER : time_order :=
  [ ("12", ("3", QArith_base.Qmake (-5) 1, QArith_base.Qmake 5 1));
    ("3", ("4", QArith_base.Qmake 5 1, QArith_base.Qmake 15 1));
    ("4", ("5", QArith_base.Qmake 15 1, QArith_base.Qmake 25 1));
    ("5", ("6", QArith_base.Qmake 25 1, QArith_base.Qmake 35 1));
    ("6", ("7", QArith_base.Qmake 35 1, QArith_base.Qmake 45 1));
    ("7", ("8", QArith_base.Qmake 45 1, QArith_base.Qmake 55 1)) ].

(** [table[k]] *)
Fixpoint order_getitem (table : time_order) (k : string)
  : result (string * QArith_base.Q * QArith_base.Q) :=
  match table with
  | [] => Raise (KeyError k)
  | (k', v) :: table' =>
      if bool_decide (k' = k) then Ok v else order_getitem table' k
  end.

(** The groups reached from [k] by following the table [n] times. *)
Fixpoint follow (table : time_order) (n : nat) (k : string) : result string :=
  match n with
  | 0 => Ok k
  | S n' => v ← order_getitem table k; follow table n' v.1.1
  end.

(** The interval of every group is not empty, and the interval of the
    group that follows begins where the interval of the group ends,
    either directly or one period [len] earlier. *)
Definition chained (len : QArith_base.Q) (table : time_order) : Prop :=
  forall k next lo hi,
    order_getitem table k = Ok (next, lo, hi) ->
    QArith_base.Qlt lo hi
    /\ forall next' lo' hi',
         order_getitem table next = Ok (next', lo', hi') ->
         QArith_base.Qeq lo' hi
         \/ QArith_base.Qeq (QArith_base.Qplus lo' len) hi.

(** The total length of the intervals of a table. *)
Definition total_length (table : time_order) : QArith_base.Q :=
  foldr (fun e acc => QArith_base.Qplus (QArith_base.Qminus e.2.2 e.2.1.2) acc)
        (QArith_base.Qmake 0 1) table.

End figure_constants.

(* ================================================================== *)
(** * 15. Concrete inputs *)
(* ================================================================== *)

Module Examples.

Definition half : float32 := S754_finite false 8388608 (-24).
Definition quarter : float32 := S754_finite false 8388608 (-25).

(** A matrix of small whole numbers. *)
Definition matrix (m : nat) (l : list (list Z)) : ndarray :=
  mk_ndarray m (map (map F32.of_Z) l).

Definition numbers (l : list Z) : list value :=
  map (fun z => VNum (F32.of_Z z)) l.

Definition strings (l : list string) : list value := map VStr l.

Definition programs_map (rapa cc : string) : gmap string (gmap string string) :=
  {[ "programs" := {[ "rapa_program" := rapa; "cell_cycle_program" := cc ]} ]}.

(** The end-to-end scenario: four observations, three genes, one
    experiment covering observations 0, 2 and 3, decay constants 1.0,
    rapamycin velocity 0.5, denoised equal to the counts. *)
Definition scenario_counts : ndarray :=
  matrix 3 [[1; 0; 2]; [0; 0; 0]; [3; 1; 0]; [0; 2; 1]]%Z.

Definition scenario_obs : DataFrame :=
  mk_DataFrame ["cell0"; "cell1"; "cell2"; "cell3"]
    {[ "Gene" := strings ["WT"; "MUT"; "WT"; "WT"];
       "program_0_time" := numbers [10; 20; 30; 40]%Z;
       "program_1_time" := numbers [1; 2; 3; 4]%Z ]}.

Definition scenario_var : DataFrame :=
  mk_DataFrame ["gene0"; "gene1"; "gene2"]
    {[ "CommonName" := strings ["A"; "B"; "C"];
       "category" := strings ["RP"; "RiBi"; "Other"];
       "programs" := strings ["0"; "1"; "0"];
       "n_cells" := numbers [2; 2; 2]%Z ]}.

Definition scenario_all : AnnData :=
  mk_AnnData scenario_counts scenario_obs scenario_var
    {[ "counts" := scenario_counts;
       "decay_constants" := np_full (4, 3) F32.one ]}
    {[ "X_umap" := matrix 2 [[1; 2]; [3; 4]; [5; 6]; [7; 8]]%Z;
       "X_pca" := matrix 3 [[1; 2; 0]; [3; 4; 0]; [5; 6; 0]; [7; 8; 0]]%Z ]}
    (programs_map "0" "1").

Definition scenario_rows : ndarray :=
  matrix 3 [[1; 0; 2]; [3; 1; 0]; [0; 2; 1]]%Z.

Definition product (ids : list string) (x : ndarray)
    (ls : gmap string ndarray) : AnnData :=
  mk_AnnData x (mk_DataFrame ids ∅)
    (mk_DataFrame ["gene0"; "gene1"; "gene2"] ∅) ls ∅ ∅.

Definition scenario_decay : AnnData :=
  product ["cell0"; "cell2"; "cell3"] scenario_rows
    {[ "rapamycin_velocity" := np_full (3, 3) half;
       "cell_cycle_velocity" := np_full (3, 3) quarter;
       "decay_constants" := np_full (3, 3) F32.one ]}.

Definition scenario_denoised : AnnData :=
  product ["cell0"; "cell2"; "cell3"] scenario_rows ∅.

Definition scenario : FigureSingleCellData :=
  mk_FigureSingleCellData scenario_all [(1, "WT")]
    (fun _ => Ok scenario_decay) (fun _ => Ok scenario_denoised).

(** The value of a computation that is known to succeed. *)
Definition value_of (fallback : AnnData) (r : result AnnData) : AnnData :=
  match r with Ok a => a | Raise _ => fallback end.

Definition scenario_s1 : AnnData :=
  Eval vm_compute in value_of scenario_all (base_construction scenario).
Definition scenario_s3 : AnnData :=
  Eval vm_compute in value_of scenario_all (layer_setup scenario_s1).
Definition scenario_s4 : AnnData :=
  Eval vm_compute in value_of scenario_all (merge_experiments scenario scenario_s3 (expts scenario)).
Definition scenario_s5 : AnnData :=
  Eval vm_compute in value_of scenario_all (wildtype_subset scenario_s4).
Definition scenario_s6 : AnnData :=
  Eval vm_compute in value_of scenario_all (transcription_layers scenario_s5).
Definition scenario_out : AnnData :=
  Eval vm_compute in value_of scenario_all (_data_packager scenario).

(** One observation, one gene: rapamycin velocity 1, cell cycle
    velocity 0, decay constant 2^-30, denoised 1.  In binary32,
    1 + 2^-30 rounds to 1. *)
Definition tiny : float32 := S754_finite false 8388608 (-53).

Definition rounding_all : AnnData :=
  mk_AnnData (matrix 1 [[1]]%Z)
    (mk_DataFrame ["cell0"]
       {[ "Gene" := strings ["WT"];
          "program_0_time" := numbers [0]%Z;
          "program_1_time" := numbers [0]%Z ]})
    (mk_DataFrame ["gene0"]
       {[ "CommonName" := strings ["A"];
          "category" := strings ["RP"];
          "programs" := strings ["0"] ]})
    {[ "counts" := matrix 1 [[1]]%Z;
       "decay_constants" := np_full (1, 1) tiny ]}
    {[ "X_umap" := matrix 2 [[1; 2]]%Z; "X_pca" := matrix 2 [[1; 2]]%Z ]}
    (programs_map "0" "1").

Definition rounding_decay : AnnData :=
  mk_AnnData (matrix 1 [[1]]%Z) (mk_DataFrame ["cell0"] ∅)
    (mk_DataFrame ["gene0"] ∅)
    {[ "rapamycin_velocity" := np_full (1, 1) F32.one;
       "cell_cycle_velocity" := np_full (1, 1) F32.zero ]} ∅ ∅.

Definition rounding_denoised : AnnData :=
  mk_AnnData (matrix 1 [[1]]%Z) (mk_DataFrame ["cell0"] ∅)
    (mk_DataFrame ["gene0"] ∅) ∅ ∅ ∅.

Definition rounding : FigureSingleCellData :=
  mk_FigureSingleCellData rounding_all [(1, "WT")]
    (fun _ => Ok rounding_decay) (fun _ => Ok rounding_denoised).

Definition rounding_out : AnnData :=
  Eval vm_compute in value_of rounding_all (_data_packager rounding).

(** Two observations and one gene.  The decay product lists the two
    observations in the opposite order: its first row (1) belongs to
    cell1 and its second row (2) to cell0. *)
Definition pair_all (dc : ndarray) : AnnData :=
  mk_AnnData (matrix 1 [[1]; [2]]%Z)
    (mk_DataFrame ["cell0"; "cell1"]
       {[ "Gene" := strings ["WT"; "WT"];
          "program_0_time" := numbers [0; 1]%Z;
          "program_1_time" := numbers [0; 1]%Z ]})
    (mk_DataFrame ["gene0"]
       {[ "CommonName" := strings ["A"];
          "category" := strings ["RP"];
          "programs" := strings ["0"] ]})
    {[ "counts" := matrix 1 [[1]; [2]]%Z; "decay_constants" := dc ]}
    {[ "X_umap" := matrix 2 [[1; 2]; [3; 4]]%Z;
       "X_pca" := matrix 2 [[1; 2]; [3; 4]]%Z ]}
    (programs_map "0" "1").

Definition pair_product (ids : list string) (x : ndarray)
    (ls : gmap string ndarray) : AnnData :=
  mk_AnnData x (mk_DataFrame ids ∅) (mk_DataFrame ["gene0"] ∅) ls ∅ ∅.

Definition permuted : FigureSingleCellData :=
  mk_FigureSingleCellData (pair_all (np_full (2, 1) F32.one)) [(1, "WT")]
    (fun _ => Ok (pair_product ["cell1"; "cell0"] (matrix 1 [[1]; [2]]%Z)
                    {[ "rapamycin_velocity" := matrix 1 [[1]; [2]]%Z;
                       "cell_cycle_velocity" := matrix 1 [[1]; [2]]%Z ]}))
    (fun _ => Ok (pair_product ["cell1"; "cell0"] (matrix 1 [[1]; [2]]%Z) ∅)).

Definition permuted_merged : AnnData :=
  Eval vm_compute in value_of scenario_all (run_to_merge permuted).

(** The same two observations, in order, with a decay product whose
    own [decay_constants] layer holds 2 where the full data set
    holds 1. *)
Definition own_decay : FigureSingleCellData :=
  mk_FigureSingleCellData (pair_all (np_full (2, 1) F32.one)) [(1, "WT")]
    (fun _ => Ok (pair_product ["cell0"; "cell1"] (matrix 1 [[1]; [2]]%Z)
                    {[ "rapamycin_velocity" := matrix 1 [[1]; [2]]%Z;
                       "cell_cycle_velocity" := matrix 1 [[1]; [2]]%Z;
                       "decay_constants" := np_full (2, 1) F32.two ]}))
    (fun _ => Ok (pair_product ["cell0"; "cell1"] (matrix 1 [[1]; [2]]%Z) ∅)).

Definition own_decay_s1 : AnnData :=
  Eval vm_compute in value_of scenario_all (base_construction own_decay).
Definition own_decay_s3 : AnnData :=
  Eval vm_compute in value_of scenario_all (layer_setup own_decay_s1).
Definition own_decay_merged : AnnData :=
  Eval vm_compute in value_of scenario_all (run_to_merge own_decay).

(** The same two observations with a denoised product of a single row
    [7]: the mask selects two rows, the denoised matrix has one. *)
Definition single_row : FigureSingleCellData :=
  mk_FigureSingleCellData (pair_all (np_full (2, 1) F32.one)) [(1, "WT")]
    (fun _ => Ok (pair_product ["cell0"; "cell1"] (matrix 1 [[1]; [2]]%Z)
                    {[ "rapamycin_velocity" := matrix 1 [[1]; [2]]%Z;
                       "cell_cycle_velocity" := matrix 1 [[1]; [2]]%Z ]}))
    (fun _ => Ok (pair_product ["cell0"] (matrix 1 [[7]]%Z) ∅)).

Definition single_row_s3 : AnnData :=
  Eval vm_compute in
    value_of scenario_all (s1 ← base_construction single_row; layer_setup s1).

Definition single_row_merged : AnnData :=
  Eval vm_compute in
    value_of scenario_all (merge_experiment single_row single_row_s3 (1, "WT")).

(** The cell cycle program is called "rapa".  The source has the column
    [program_0_time] for the rapamycin program and no column
    [program_rapa_time]. *)
Definition rapa_named : FigureSingleCellData :=
  mk_FigureSingleCellData
    (mk_AnnData (matrix 1 [[1]; [2]]%Z)
       (mk_DataFrame ["cell0"; "cell1"]
          {[ "Gene" := strings ["WT"; "WT"];
             "program_0_time" := numbers [5; 6]%Z ]})
       (mk_DataFrame ["gene0"]
          {[ "CommonName" := strings ["A"];
             "category" := strings ["RP"];
             "programs" := strings ["0"] ]})
       {[ "counts" := matrix 1 [[1]; [2]]%Z;
          "decay_constants" := np_full (2, 1) F32.one ]}
       {[ "X_umap" := matrix 2 [[1; 2]; [3; 4]]%Z;
          "X_pca" := matrix 2 [[1; 2]; [3; 4]]%Z ]}
       (programs_map "0" "rapa"))
    [] (fun _ => Raise (KeyError "decay")) (fun _ => Raise (KeyError "denoised")).

Definition rapa_named_s1 : AnnData :=
  Eval vm_compute in value_of scenario_all (base_construction rapa_named).

(** The scenario after line 71, before the normalization. *)
Definition scenario_counts_set : AnnData :=
  Eval vm_compute in
    value_of scenario_all
      (inf_data ← set_layer scenario_s1 "counts" (np_copy (X scenario_s1));
       Ok (with_X inf_data (astype_float32 (X inf_data)))).

Definition scenario_normalized : AnnData :=
  Eval vm_compute in
    value_of scenario_all (normalize_per_cell scenario_counts_set F32.zero).

(** The scenario with an experiment that covers observations 0 and 2
    only: observation 3 is wild type and belongs to no experiment. *)
Definition uncovered_rows : ndarray := matrix 3 [[1; 0; 2]; [3; 1; 0]]%Z.

Definition uncovered : FigureSingleCellData :=
  mk_FigureSingleCellData scenario_all [(1, "WT")]
    (fun _ => Ok (product ["cell0"; "cell2"] uncovered_rows
                    {[ "rapamycin_velocity" := np_full (2, 3) half;
                       "cell_cycle_velocity" := np_full (2, 3) quarter ]}))
    (fun _ => Ok (product ["cell0"; "cell2"] uncovered_rows ∅)).

Definition uncovered_out : AnnData :=
  Eval vm_compute in value_of scenario_all (_data_packager uncovered).

(** The scenario split into two experiments: experiment 1 covers
    observation 0, experiment 2 covers observations 2 and 3. *)
Definition split_decay (k : key) : AnnData :=
  if Nat.eqb k.1 1
  then product ["cell0"] (matrix 3 [[1; 0; 2]]%Z)
         {[ "rapamycin_velocity" := np_full (1, 3) half;
            "cell_cycle_velocity" := np_full (1, 3) quarter ]}
  else product ["cell2"; "cell3"] (matrix 3 [[3; 1; 0]; [0; 2; 1]]%Z)
         {[ "rapamycin_velocity" := np_full (2, 3) F32.one;
            "cell_cycle_velocity" := np_full (2, 3) F32.two ]}.

Definition split_denoised (k : key) : AnnData :=
  if Nat.eqb k.1 1
  then product ["cell0"] (matrix 3 [[1; 0; 2]]%Z) ∅
  else product ["cell2"; "cell3"] (matrix 3 [[3; 1; 0]; [0; 2; 1]]%Z) ∅.

Definition split : FigureSingleCellData :=
  mk_FigureSingleCellData scenario_all [(1, "WT"); (2, "WT")]
    (fun k => Ok (split_decay k)) (fun k => Ok (split_denoised k)).

Definition split_merged : AnnData :=
  Eval vm_compute in
    value_of scenario_all
      (merge_experiments split scenario_s3 [(1, "WT"); (2, "WT")]).

(** The scenario with a second experiment whose decay product cannot be
    loaded. *)
Definition broken : FigureSingleCellData :=
  mk_FigureSingleCellData scenario_all [(1, "WT"); (2, "WT")]
    (fun k => if Nat.eqb k.1 1 then Ok scenario_decay
              else Raise (KeyError "decay"))
    (fun _ => Ok scenario_denoised).

(** The scenario without a wild-type observation and without
    experiments. *)
Definition mutants : FigureSingleCellData :=
  mk_FigureSingleCellData
    (mk_AnnData scenario_counts
       (mk_DataFrame ["cell0"; "cell1"; "cell2"; "cell3"]
          {[ "Gene" := strings ["MUT"; "MUT"; "MUT"; "MUT"];
             "program_0_time" := numbers [10; 20; 30; 40]%Z;
             "program_1_time" := numbers [1; 2; 3; 4]%Z ]})
       scenario_var (layers scenario_all) (obsm scenario_all)
       (uns scenario_all))
    [] (fun _ => Raise (KeyError "decay")) (fun _ => Raise (KeyError "denoised")).

Definition mutants_out : AnnData :=
  Eval vm_compute in value_of scenario_all (_data_packager mutants).

(** The scenario without the column [Gene]. *)
Definition no_gene : FigureSingleCellData :=
  mk_FigureSingleCellData
    (mk_AnnData scenario_counts
       (mk_DataFrame ["cell0"; "cell1"; "cell2"; "cell3"]
          {[ "program_0_time" := numbers [10; 20; 30; 40]%Z;
             "program_1_time" := numbers [1; 2; 3; 4]%Z ]})
       scenario_var (layers scenario_all) (obsm scenario_all)
       (uns scenario_all))
    [(1, "WT")] (fun _ => Ok scenario_decay) (fun _ => Ok scenario_denoised).

Definition no_gene_merged : AnnData :=
  Eval vm_compute in value_of scenario_all (run_to_merge no_gene).

(** Two observations and two genes; the second gene has no counts. *)
Definition silent_gene : AnnData :=
  mk_AnnData (matrix 2 [[1; 0]; [2; 0]]%Z)
    (mk_DataFrame ["cell0"; "cell1"] ∅) (mk_DataFrame ["gene0"; "gene1"] ∅)
    {[ "counts" := matrix 2 [[1; 0]; [2; 0]]%Z ]} ∅ ∅.

Definition silent_gene_trimmed : AnnData :=
  Eval vm_compute in value_of scenario_all (trim_features silent_gene).

(** The scenario with other values wherever the packager does not look:
    another matrix [X] and a further layer in the full data set, a
    further column in [var], other observation names in the denoised
    product, other contents in the matrix of the decay product. *)
Definition scenario_unread : FigureSingleCellData :=
  mk_FigureSingleCellData
    (mk_AnnData (np_full (4, 3) F32.two) scenario_obs
       (mk_DataFrame ["gene0"; "gene1"; "gene2"]
          (<["n_cells" := numbers [7; 7; 7]%Z]> (columns scenario_var)))
       (<["spliced" := np_full (4, 3) F32.two]> (layers scenario_all))
       (obsm scenario_all) (uns scenario_all))
    [(1, "WT")]
    (fun _ => Ok (product ["cell0"; "cell2"; "cell3"] (np_full (3, 3) F32.two)
                    (layers scenario_decay)))
    (fun _ => Ok (product ["a"; "b"; "c"] scenario_rows ∅)).

End Examples.

(* ================================================================== *)
(** * 16. Masks, selections and assignments *)
(* ================================================================== *)

Section masks.
Context {A : Type}.
Implicit Types (mask : list bool) (l : list A).

Lemma compress_nil_r mask : compress mask (@nil A) = [].
Proof. by destruct mask. Qed.

Lemma length_compress mask l :
  length mask = length l -> length (compress mask l) = count_true mask.
Proof.
  revert l; induction mask as [|b mask IH]; intros [|x l] Hlen;
    simplify_eq/=; [done|].
  destruct b; simpl; by rewrite IH.
Qed.

Lemma compress_replicate mask n (x : A) :
  length mask = n -> compress mask (replicate n x) = replicate (count_true mask) x.
Proof.
  revert n; induction mask as [|b mask IH]; intros [|n] Hlen;
    simplify_eq/=; [done|].
  destruct b; simpl; by rewrite IH.
Qed.

Lemma compress_all_true mask l :
  length mask = length l -> Forall (fun b => b = true) mask -> compress mask l = l.
Proof.
  revert l; induction mask as [|b mask IH]; intros [|x l] Hlen Hall;
    simplify_eq/=; [done|].
  inversion Hall; subst. by rewrite IH.
Qed.

Lemma count_true_all_true mask :
  Forall (fun b => b = true) mask -> count_true mask = length mask.
Proof. induction 1; subst; simpl; lia. Qed.

Lemma count_true_le mask : count_true mask <= length mask.
Proof. induction mask as [|[] mask IH]; simpl; lia. Qed.

Lemma elem_of_compress mask l x : x ∈ compress mask l -> x ∈ l.
Proof.
  revert l; induction mask as [|b mask IH]; intros [|y l]; simpl;
    try by rewrite ?elem_of_nil.
  destruct b; rewrite ?elem_of_cons.
  - intros [->|Hx]; [by left|right; by apply IH].
  - intros Hx; right; by apply IH.
Qed.

Lemma Forall_compress (P : A -> Prop) mask l :
  Forall P l -> Forall P (compress mask l).
Proof.
  rewrite !Forall_forall. intros H x Hx. by apply H, (elem_of_compress mask).
Qed.

Lemma NoDup_compress mask l : NoDup l -> NoDup (compress mask l).
Proof.
  revert l; induction mask as [|b mask IH]; intros [|y l] Hnd; simpl;
    try constructor.
  inversion Hnd; subst. destruct b; [|by apply IH].
  constructor; [|by apply IH].
  intros Hin. by apply elem_of_compress in Hin.
Qed.

(** The entries kept by the test that built the mask all pass it. *)
Lemma compress_map_test (p : A -> bool) l :
  Forall (fun x => p x = true) (compress (map p l) l).
Proof.
  induction l as [|x l IH]; simpl; [constructor|].
  destruct (p x) eqn:Hp; [constructor|]; done.
Qed.

Lemma length_put_rows mask (tgt src : list A) :
  length (put_rows mask tgt src) = length tgt.
Proof.
  revert tgt src; induction mask as [|[] mask IH]; intros [|t tgt] src;
    simpl; try done.
  - destruct src; simpl; by rewrite ?IH.
  - by rewrite IH.
Qed.

Lemma Forall_put_rows (P : A -> Prop) mask (tgt src : list A) :
  Forall P tgt -> Forall P src -> Forall P (put_rows mask tgt src).
Proof.
  revert tgt src; induction mask as [|[] mask IH]; intros [|t tgt] src Ht Hs;
    simpl; try done; inversion Ht; subst.
  - destruct src as [|s src]; [done|].
    inversion Hs; subst. constructor; [done|by apply IH].
  - constructor; [done|by apply IH].
Qed.
End masks.

Lemma compress_zip_with {A B C : Type} (f : A -> B -> C) mask (l : list A) (k : list B) :
  compress mask (zip_with f l k) = zip_with f (compress mask l) (compress mask k).
Proof.
  revert l k; induction mask as [|b mask IH]; intros [|x l] [|y k]; simpl;
    try done.
  - by rewrite zip_with_nil_r.
  - destruct b; simpl; by rewrite IH.
Qed.

Lemma compress_fmap {A B : Type} (f : A -> B) mask (l : list A) :
  compress mask (f <$> l) = f <$> compress mask l.
Proof.
  revert l; induction mask as [|b mask IH]; intros [|x l]; simpl; try done.
  destruct b; simpl; by rewrite IH.
Qed.

Lemma map_compress_zip_with {A : Type} (f : A -> A -> A) mask (r1 r2 : list (list A)) :
  map (compress mask) (zip_with (zip_with f) r1 r2)
  = zip_with (zip_with f) (map (compress mask) r1) (map (compress mask) r2).
Proof.
  revert r2; induction r1 as [|x r1 IH]; intros [|y r2]; simpl; try done.
  by rewrite compress_zip_with, IH.
Qed.

Lemma count_true_map_true {A : Type} (p : A -> bool) (l : list A) :
  Forall (fun x => p x = true) l -> forallb id (map p l) = true.
Proof. induction 1 as [|x l Hx _ IH]; simpl; [done|]. by rewrite Hx. Qed.

(* ================================================================== *)
(** * 17. Step 7: the feature trim *)
(* ================================================================== *)

Lemma length_sum_axis0_aux (rs : list (list float32)) (acc : list float32) n :
  length acc = n -> Forall (fun r => length r = n) rs ->
  length (foldl (zip_with F32.add) acc rs) = n.
Proof.
  revert acc; induction rs as [|r rs IH]; intros acc Hacc Hrs; simpl; [done|].
  inversion Hrs; subst. apply IH; [|done].
  rewrite length_zip_with. lia.
Qed.

Lemma length_sum_axis0 (a : ndarray) :
  rectangular a -> length (sum_axis0 a) = ncols a.
Proof.
  intros Hr. unfold sum_axis0. apply length_sum_axis0_aux; [|done].
  by rewrite length_replicate.
Qed.

Lemma foldl_zip_with_compress mask (rs : list (list float32)) (acc : list float32) :
  foldl (zip_with F32.add) (compress mask acc) (map (compress mask) rs)
  = compress mask (foldl (zip_with F32.add) acc rs).
Proof.
  revert acc; induction rs as [|r rs IH]; intros acc; simpl; [done|].
  by rewrite <- compress_zip_with, IH.
Qed.

(** The column totals of a column selection are the selected column
    totals. *)
Lemma sum_axis0_select_cols mask (a : ndarray) :
  length mask = ncols a ->
  sum_axis0 (select_cols mask a) = compress mask (sum_axis0 a).
Proof.
  intros Hlen. unfold sum_axis0, select_cols; simpl.
  rewrite <- foldl_zip_with_compress. by rewrite compress_replicate.
Qed.

Lemma gtb_zero_not_eqb (s : float32) :
  F32.gtb s F32.zero = true -> F32.eqb s F32.zero = false /\ F32.isnan s = false.
Proof. destruct s as [[]|[]| |[] m e]; by cbv. Qed.

Lemma trim_features_total (inf_data : AnnData) :
  rectangular (X inf_data) ->
  exists out, trim_features inf_data = Ok out.
Proof.
  intros Hr. unfold trim_features.
  destruct (forallb id (has_expression inf_data)); [by eexists|].
  unfold subset_var, has_expression.
  rewrite length_map, length_sum_axis0 by done.
  rewrite Nat.eqb_refl. by eexists.
Qed.

Lemma trim_features_sums (inf_data out : AnnData) :
  trim_features inf_data = Ok out ->
  Forall (fun s => F32.gtb s F32.zero = true) (sum_axis0 (X out)).
Proof.
  unfold trim_features.
  destruct (forallb id (has_expression inf_data)) eqn:Hall.
  - intros [= <-]. unfold has_expression in Hall.
    rewrite forallb_forall in Hall. rewrite Forall_forall. intros s Hs.
    apply (Hall (F32.gtb s F32.zero)).
    apply (in_map (fun s => F32.gtb s F32.zero)). by apply list_elem_of_In.
  - unfold subset_var.
    destruct (Nat.eqb_spec (length (has_expression inf_data)) (ncols (X inf_data)))
      as [Hlen|]; [|done].
    intros [= <-]; simpl. rewrite sum_axis0_select_cols by done.
    apply (compress_map_test (fun s => F32.gtb s F32.zero)).
Qed.

(** C6.  After the feature trim every retained gene has a column total
    over the retained rows that is positive, hence neither zero nor NaN,
    and trimming the trimmed object again returns it unchanged.  The trim
    itself always succeeds on a rectangular matrix. *)
Theorem C6_trim_features_retained_and_idempotent (inf_data : AnnData) :
  rectangular (X inf_data) ->
  exists out,
    trim_features inf_data = Ok out
    /\ Forall (fun s => F32.gtb s F32.zero = true
                        /\ F32.eqb s F32.zero = false
                        /\ F32.isnan s = false) (sum_axis0 (X out))
    /\ trim_features out = Ok out.
Proof.
  intros Hr. destruct (trim_features_total inf_data Hr) as [out Hout].
  exists out. split; [done|].
  pose proof (trim_features_sums _ _ Hout) as Hs.
  split.
  - eapply Forall_impl; [exact Hs|]. intros s Hgt; simpl in Hgt.
    split; [done|]. by apply gtb_zero_not_eqb.
  - unfold trim_features. unfold has_expression.
    by rewrite (count_true_map_true (fun s => F32.gtb s F32.zero)).
Qed.

(* ================================================================== *)
(** * 18. Reasoning about results *)
(* ================================================================== *)

Lemma bind_Ok {A B : Type} (m : result A) (f : A -> result B) (b : B) :
  m ≫= f = Ok b <-> exists a, m = Ok a /\ f a = Ok b.
Proof.
  destruct m as [a|e]; simpl; split.
  - intros H. by exists a.
  - by intros (a' & [= <-] & H).
  - done.
  - by intros (a' & [=] & _).
Qed.

Lemma bind_Raise {A B : Type} (m : result A) (f : A -> result B) :
  raises m -> raises (m ≫= f).
Proof. intros [e ->]. by exists e. Qed.

Lemma getitem_Ok {V : Type} (d : gmap string V) (k : string) (v : V) :
  getitem d k = Ok v <-> d !! k = Some v.
Proof. unfold getitem. destruct (d !! k); split; congruence. Qed.

Lemma getitem_None {V : Type} (d : gmap string V) (k : string) :
  d !! k = None -> getitem d k = Raise (KeyError k).
Proof. unfold getitem. by intros ->. Qed.

(** Splits a hypothesis [m ≫= f = Ok b] into the successful steps. *)
Ltac ok_step H :=
  lazymatch type of H with
  | mbind _ _ = Ok _ =>
      let a := fresh "a" in
      let H1 := fresh "H" in
      apply bind_Ok in H; destruct H as (a & H1 & H)
  end.

Ltac ok_steps H := repeat ok_step H.

Lemma shape_eqb_eq (s t : nat * nat) : shape_eqb s t = true <-> s = t.
Proof.
  destruct s as [s1 s2], t as [t1 t2]. unfold shape_eqb; simpl.
  rewrite andb_true_iff, !Nat.eqb_eq. split; [intros []|intros [=]]; by subst.
Qed.

Lemma set_layer_Ok (a a' : AnnData) (name : string) (arr : ndarray) :
  set_layer a name arr = Ok a' <->
  shape arr = shape (X a) /\ a' = with_layers a (<[name := arr]> (layers a)).
Proof.
  unfold set_layer. destruct (shape_eqb _ _) eqn:Hs.
  - apply shape_eqb_eq in Hs. split; [intros [= <-]|intros [_ ->]]; done.
  - split; [done|]. intros [Hs' _]. apply shape_eqb_eq in Hs'. congruence.
Qed.

Lemma np_zip_Ok f (a b c : ndarray) :
  np_zip f a b = Ok c <->
  shape a = shape b
  /\ c = mk_ndarray (ncols a) (zip_with (zip_with f) (rows a) (rows b)).
Proof.
  unfold np_zip. destruct (shape_eqb _ _) eqn:Hs.
  - apply shape_eqb_eq in Hs. split; [intros [= <-]|intros [_ ->]]; done.
  - split; [done|]. intros [Hs' _]. apply shape_eqb_eq in Hs'. congruence.
Qed.

(* ================================================================== *)
(** * 19. binary32: NaN *)
(* ================================================================== *)

Lemma add_nan_l (y : float32) : F32.add F32.nan y = F32.nan.
Proof. done. Qed.

Lemma add_nan_r (x : float32) : F32.add x F32.nan = F32.nan.
Proof. by destruct x. Qed.

Lemma mul_nan_l (y : float32) : F32.mul F32.nan y = F32.nan.
Proof. done. Qed.

Lemma mul_nan_r (x : float32) : F32.mul x F32.nan = F32.nan.
Proof. by destruct x. Qed.

Lemma isnan_eq (x : float32) : F32.isnan x = true <-> x = F32.nan.
Proof. destruct x; simpl; split; done. Qed.

(** A NaN in any of the three operands of [v + k * d] makes the result
    NaN. *)
Lemma add_mul_nan (v k d : float32) :
  F32.isnan v || F32.isnan k || F32.isnan d = true ->
  F32.add v (F32.mul k d) = F32.nan.
Proof.
  rewrite !orb_true_iff, !isnan_eq. intros [[->| ->]| ->].
  - done.
  - by rewrite mul_nan_l, add_nan_r.
  - by rewrite mul_nan_r, add_nan_r.
Qed.

(* ================================================================== *)
(** * 20. Step 6: the transcription layers *)
(* ================================================================== *)

Lemma cell_zip_with f (r1 r2 : list (list float32)) n1 n2 n3 r c :
  cell (mk_ndarray n1 (zip_with (zip_with f) r1 r2)) r c
  = (a ← cell (mk_ndarray n2 r1) r c; b ← cell (mk_ndarray n3 r2) r c; Some (f a b)).
Proof.
  unfold cell; simpl. rewrite lookup_zip_with.
  destruct (r1 !! r) as [x|]; simpl; [|done].
  destruct (r2 !! r) as [y|]; simpl.
  - rewrite lookup_zip_with. by destruct (x !! c).
  - by destruct (x !! c).
Qed.

Lemma cell_rows (a : ndarray) n r c : cell (mk_ndarray n (rows a)) r c = cell a r c.
Proof. done. Qed.

Lemma derived_rows_cellwise (t v dc dn : ndarray) :
  derived_rows t v dc dn -> cellwise_transcription t v dc dn.
Proof.
  intros Hd r c. rewrite <- (cell_rows t 0), Hd.
  rewrite (cell_zip_with _ _ _ _ 0 0), cell_rows.
  destruct (cell v r c) as [a|]; simpl; [|done].
  rewrite (cell_zip_with _ _ _ _ 0 0), !cell_rows.
  destruct (cell dc r c) as [k|]; simpl; [|done].
  by destruct (cell dn r c).
Qed.

Lemma derived_rows_select_cols mask (t v dc dn : ndarray) :
  derived_rows t v dc dn ->
  derived_rows (select_cols mask t) (select_cols mask v)
               (select_cols mask dc) (select_cols mask dn).
Proof.
  unfold derived_rows; simpl. intros ->.
  by rewrite !map_compress_zip_with.
Qed.

(** What one run of lines 133-138 (or 140-145) leaves behind. *)
Lemma transcription_layer_spec (inf_data out_data : AnnData) (velocity out : string) :
  out <> "decay_constants" -> out <> "denoised" ->
  transcription_layer inf_data velocity out = Ok out_data ->
  exists t v dc dn,
    layers inf_data !! velocity = Some v
    /\ layers inf_data !! "decay_constants" = Some dc
    /\ layers inf_data !! "denoised" = Some dn
    /\ derived_rows t v dc dn
    /\ shape t = shape (X inf_data)
    /\ shape v = shape (X inf_data)
    /\ shape dc = shape dn
    /\ shape v = shape dc
    /\ out_data = with_layers inf_data (<[out := t]> (layers inf_data)).
Proof.
  intros Hne1 Hne2 H. unfold transcription_layer in H. ok_steps H.
  unfold get_layer in *.
  repeat match goal with
         | H : getitem _ _ = Ok _ |- _ => apply getitem_Ok in H
         | H : set_layer _ _ _ = Ok _ |- _ => apply set_layer_Ok in H; destruct H
         | H : np_multiply _ _ = Ok _ |- _ => apply np_zip_Ok in H; destruct H
         | H : np_iadd _ _ = Ok _ |- _ => apply np_zip_Ok in H; destruct H
         end.
  subst; simpl in *.
  rewrite lookup_insert_eq in *. simplify_eq.
  rewrite lookup_insert_ne in * by done.
  match goal with
  | Hv : layers inf_data !! velocity = Some ?v,
    Hc : layers inf_data !! "decay_constants" = Some ?dc,
    Hn : layers inf_data !! "denoised" = Some ?dn |- _ =>
      exists (mk_ndarray (ncols v)
                (zip_with (zip_with F32.add) (rows v)
                   (zip_with (zip_with F32.mul) (rows dc) (rows dn)))), v, dc, dn
  end.
  unfold shape, np_copy, nrows in *; simpl in *.
  rewrite !length_zip_with in *.
  split_and!; try done; try congruence.
  - f_equal; lia.
  - unfold with_layers; simpl. by rewrite insert_insert_eq.
Qed.

(* ================================================================== *)
(** * 21. The shape invariant, step by step *)
(* ================================================================== *)

Lemma rectangularb_spec (a : ndarray) : rectangularb a = true <-> rectangular a.
Proof.
  unfold rectangularb, rectangular. rewrite forallb_forall, Forall_forall.
  split; intros H r Hr.
  - apply Nat.eqb_eq, H. by apply list_elem_of_In.
  - apply Nat.eqb_eq, H. by apply list_elem_of_In.
Qed.

Lemma rectangular_np_full shp v : rectangular (np_full shp v).
Proof.
  unfold rectangular, np_full; simpl. apply Forall_replicate.
  by rewrite length_replicate.
Qed.

Lemma shape_np_full shp v : shape (np_full shp v) = shp.
Proof.
  destruct shp as [n m]. unfold shape, nrows, np_full; simpl.
  by rewrite length_replicate.
Qed.

Lemma rectangular_zip_with f (r1 r2 : list (list float32)) n1 n2 :
  Forall (fun r => length r = n1) r1 -> Forall (fun r => length r = n1) r2 ->
  n2 = n1 ->
  rectangular (mk_ndarray n2 (zip_with (zip_with f) r1 r2)).
Proof.
  unfold rectangular; simpl. intros H1 H2 ->. revert r2 H2.
  induction H1 as [|x r1 Hx _ IH]; intros [|y r2] H2; simpl; try constructor.
  - inversion H2; subst. rewrite length_zip_with. lia.
  - inversion H2; subst. by apply IH.
Qed.

Lemma rectangular_select_rows mask (a : ndarray) :
  rectangular a -> rectangular (select_rows mask a).
Proof. apply Forall_compress. Qed.

Lemma shape_select_rows mask (a : ndarray) :
  length mask = nrows a -> shape (select_rows mask a) = (count_true mask, ncols a).
Proof.
  intros Hlen. unfold shape, nrows, select_rows; simpl.
  by rewrite length_compress.
Qed.

Lemma rectangular_select_cols mask (a : ndarray) :
  rectangular a -> length mask = ncols a -> rectangular (select_cols mask a).
Proof.
  unfold rectangular, select_cols; simpl. intros Hr Hlen.
  apply Forall_fmap. eapply Forall_impl; [exact Hr|].
  intros r Hlr; simpl. apply length_compress. congruence.
Qed.

Lemma shape_select_cols mask (a : ndarray) :
  shape (select_cols mask a) = (nrows a, count_true mask).
Proof. unfold shape, nrows, select_cols; simpl. by rewrite length_map. Qed.

Lemma frame_wf_select_rows mask (df : DataFrame) :
  frame_wf df -> length mask = length (index df) -> frame_wf (df_select_rows mask df).
Proof.
  unfold frame_wf, df_select_rows; simpl. intros Hwf Hlen.
  apply map_Forall_fmap. eapply map_Forall_impl; [exact Hwf|].
  intros n col Hcol; simpl. rewrite !length_compress; congruence.
Qed.

Lemma df_setitem_Ok (df df' : DataFrame) (name : string) (col : list value) :
  df_setitem df name col = Ok df' <->
  length col = length (index df)
  /\ df' = mk_DataFrame (index df) (<[name := col]> (columns df)).
Proof.
  unfold df_setitem.
  destruct (Nat.eqb_spec (length col) (length (index df))); split;
    try done; [by intros [= <-]|by intros [_ ->]|by intros []].
Qed.

Lemma df_setitem_wf (df df' : DataFrame) (name : string) (col : list value) :
  frame_wf df -> df_setitem df name col = Ok df' ->
  frame_wf df' /\ index df' = index df.
Proof.
  intros Hwf [Hlen ->]%df_setitem_Ok. split; [|done].
  unfold frame_wf; simpl. by apply map_Forall_insert_2.
Qed.

Lemma df_setitem_array_wf (df df' : DataFrame) (n1 n2 : string) (a : ndarray) :
  frame_wf df -> df_setitem_array df n1 n2 a = Ok df' ->
  frame_wf df' /\ index df' = index df.
Proof.
  intros Hwf H. unfold df_setitem_array in H.
  destruct (Nat.eqb (ncols a) 2); [|done]. ok_steps H.
  destruct (df_setitem_wf _ _ _ _ Hwf H0) as [Hwf1 Hi1].
  destruct (df_setitem_wf _ _ _ _ Hwf1 H) as [Hwf2 Hi2].
  split; [done|congruence].
Qed.

Lemma df_select_columns_wf (df : DataFrame) (names : list string) cols :
  frame_wf df -> df_select_columns df names = Ok cols ->
  map_Forall (fun _ col => length col = length (index df)) cols.
Proof.
  intros Hwf. revert cols; induction names as [|n names IH]; intros cols H;
    simpl in H.
  - injection H as <-. apply map_Forall_empty.
  - ok_steps H. injection H as <-.
    apply map_Forall_insert_2; [|by apply IH].
    apply getitem_Ok in H0. by apply (Hwf n).
Qed.

Lemma df_select_wf (df df' : DataFrame) (names : list string) :
  frame_wf df -> df_select df names = Ok df' ->
  frame_wf df' /\ index df' = index df.
Proof.
  intros Hwf H. unfold df_select in H. ok_steps H. injection H as <-.
  split; [|done]. by apply (df_select_columns_wf df names).
Qed.

Lemma store_wf_with_obs (a : AnnData) (o : DataFrame) :
  store_wf a -> frame_wf o -> length (index o) = length (index (obs a)) ->
  store_wf (with_obs a o).
Proof.
  intros [] Hwf Hlen. constructor; simpl; try done. congruence.
Qed.

Lemma store_wf_with_X (a : AnnData) (x : ndarray) :
  store_wf a -> rectangular x -> shape x = shape (X a) -> store_wf (with_X a x).
Proof.
  intros [] Hr Hs. pose proof Hs as [= Hn Hm].
  constructor; simpl; try done; try congruence.
  eapply map_Forall_impl; [eassumption|]. intros n l [Hl ?]; simpl.
  split; [congruence|done].
Qed.

Lemma store_wf_insert_layer (a : AnnData) (name : string) (arr : ndarray) :
  store_wf a -> rectangular arr -> shape arr = shape (X a) ->
  store_wf (with_layers a (<[name := arr]> (layers a))).
Proof.
  intros [] Hr Hs. constructor; simpl; try done.
  by apply map_Forall_insert_2.
Qed.

Lemma set_layer_wf (a a' : AnnData) (name : string) (arr : ndarray) :
  store_wf a -> rectangular arr -> set_layer a name arr = Ok a' -> store_wf a'.
Proof.
  intros Hwf Hr [Hs ->]%set_layer_Ok. by apply store_wf_insert_layer.
Qed.

Lemma set_obs_wf (a a' : AnnData) (name : string) (col : list value) :
  store_wf a -> set_obs a name col = Ok a' -> store_wf a'.
Proof.
  intros Hwf H. unfold set_obs in H. ok_steps H. injection H as <-.
  destruct (df_setitem_wf _ _ _ _ (wf_obs _ Hwf) H0) as [Hf Hi].
  apply store_wf_with_obs; [done|done|by rewrite Hi].
Qed.

Lemma subset_obs_Ok mask (a a' : AnnData) :
  subset_obs mask a = Ok a' <->
  length mask = nrows (X a)
  /\ a' = mk_AnnData (select_rows mask (X a)) (df_select_rows mask (obs a))
            (var a) (select_rows mask <$> layers a)
            (select_rows mask <$> obsm a) (uns a).
Proof.
  unfold subset_obs.
  destruct (Nat.eqb_spec (length mask) (nrows (X a))); split;
    try done; [by intros [= <-]|by intros [_ ->]|by intros []].
Qed.

Lemma subset_var_Ok mask (a a' : AnnData) :
  subset_var mask a = Ok a' <->
  length mask = ncols (X a)
  /\ a' = mk_AnnData (select_cols mask (X a)) (obs a)
            (df_select_rows mask (var a)) (select_cols mask <$> layers a)
            (obsm a) (uns a).
Proof.
  unfold subset_var.
  destruct (Nat.eqb_spec (length mask) (ncols (X a))); split;
    try done; [by intros [= <-]|by intros [_ ->]|by intros []].
Qed.

Lemma subset_obs_wf mask (a a' : AnnData) :
  store_wf a -> subset_obs mask a = Ok a' -> store_wf a'.
Proof.
  intros [] [Hlen ->]%subset_obs_Ok. constructor; simpl.
  - by apply rectangular_select_rows.
  - apply map_Forall_fmap. eapply map_Forall_impl; [eassumption|].
    intros n l [[= Hn Hm] Hr]; simpl. split.
    + rewrite !shape_select_rows by congruence. congruence.
    + by apply rectangular_select_rows.
  - unfold nrows in *; simpl. rewrite !length_compress; congruence.
  - apply frame_wf_select_rows; [done|]. unfold nrows in *. congruence.
  - done.
  - done.
Qed.

Lemma subset_var_wf mask (a a' : AnnData) :
  store_wf a -> subset_var mask a = Ok a' -> store_wf a'.
Proof.
  intros [] [Hlen ->]%subset_var_Ok. constructor; simpl.
  - by apply rectangular_select_cols.
  - apply map_Forall_fmap. eapply map_Forall_impl; [eassumption|].
    intros n l [[= Hn Hm] Hr]; simpl. split.
    + rewrite !shape_select_cols. congruence.
    + apply rectangular_select_cols; congruence.
  - unfold nrows; simpl. by rewrite length_map.
  - done.
  - rewrite length_compress; congruence.
  - apply frame_wf_select_rows; [done|congruence].
Qed.

Lemma ad_AnnData_Ok (x : ndarray) (o v : DataFrame) (a : AnnData) :
  ad_AnnData x o v = Ok a <->
  length (index o) = nrows x /\ length (index v) = ncols x
  /\ a = mk_AnnData x o v ∅ ∅ ∅.
Proof.
  unfold ad_AnnData.
  destruct (Nat.eqb_spec (length (index o)) (nrows x));
    destruct (Nat.eqb_spec (length (index v)) (ncols x)); simpl; split;
    try done; try (by intros [= <-]); try (by intros (_ & _ & ->));
    by intros (? & ? & _).
Qed.

(** Lines 45-55 build a well-formed object. *)
Lemma new_data_object_wf (_all inf_data : AnnData) :
  frame_wf (obs _all) -> frame_wf (var _all) ->
  map_Forall (fun _ l => rectangular l) (layers _all) ->
  new_data_object _all = Ok inf_data -> store_wf inf_data.
Proof.
  intros Hobs Hvar Hlay H. unfold new_data_object, get_layer in H. ok_steps H.
  injection H as <-.
  apply getitem_Ok in H0, H3.
  apply ad_AnnData_Ok in H2 as (Hn & Hm & ->).
  destruct (df_select_wf _ _ _ Hvar H1) as [Hvar' Hvi].
  assert (store_wf (mk_AnnData (np_copy a) (obs _all) a0 ∅ ∅ ∅)) as Hwf0.
  { constructor; simpl; try done;
      first [by apply (Hlay "counts") | apply map_Forall_empty]. }
  pose proof (set_layer_wf _ _ _ _ Hwf0 (Hlay _ _ H3) H4) as Hwf1.
  destruct (df_setitem_array_wf _ _ _ _ _ (wf_obs _ Hwf1) H6) as [Hf1 Hi1].
  assert (store_wf (with_obs a3 a5)) as Hwf2.
  { apply store_wf_with_obs; [done|done|by rewrite Hi1]. }
  destruct (df_setitem_array_wf _ _ _ _ _ (wf_obs _ Hwf2) H8) as [Hf2 Hi2].
  apply store_wf_with_obs; [done|done|by rewrite Hi2].
Qed.

Lemma copy_program_times_wf (_all inf_data out : AnnData) :
  store_wf inf_data -> copy_program_times _all inf_data = Ok out -> store_wf out.
Proof.
  intros Hwf H. unfold copy_program_times in H. ok_steps H.
  eapply set_obs_wf; [|exact H]. by eapply set_obs_wf.
Qed.

(** Step 1 builds a well-formed object. *)
Lemma base_construction_wf (data : FigureSingleCellData) (inf_data : AnnData) :
  input_wf data -> base_construction data = Ok inf_data -> store_wf inf_data.
Proof.
  intros [] H. unfold base_construction in H. ok_steps H.
  eapply copy_program_times_wf; [|exact H]. by eapply new_data_object_wf.
Qed.

Lemma length_sum_axis1 (a : ndarray) : length (sum_axis1 a) = nrows a.
Proof. unfold sum_axis1. by rewrite length_map. Qed.

Lemma length_row_scales (l : list float32) : length (row_scales l) = length l.
Proof. unfold row_scales. by rewrite length_map. Qed.

Lemma rectangular_inplace_row_scale (a : ndarray) (scale : list float32) :
  rectangular a -> rectangular (inplace_row_scale a scale).
Proof.
  unfold rectangular, inplace_row_scale; simpl. intros Hr. revert scale.
  induction Hr as [|r rs Hlen _ IH]; intros [|s scale]; simpl;
    constructor; [by rewrite length_map|by apply IH].
Qed.

Lemma shape_inplace_row_scale (a : ndarray) (scale : list float32) :
  length scale = nrows a -> shape (inplace_row_scale a scale) = shape a.
Proof.
  intros Hlen. unfold shape, nrows, inplace_row_scale in *; simpl.
  rewrite length_zip_with. f_equal. lia.
Qed.

(** The normalization keeps the object well-formed. *)
Lemma normalize_per_cell_wf (adata out : AnnData) (min_counts : float32) :
  store_wf adata -> normalize_per_cell adata min_counts = Ok out -> store_wf out.
Proof.
  intros Hwf H. unfold normalize_per_cell in H. ok_steps H. injection H as <-.
  pose proof (set_obs_wf _ _ _ _ Hwf H0) as Hwf1.
  pose proof (subset_obs_wf _ _ _ Hwf1 H1) as Hwf2.
  apply subset_obs_Ok in H1 as [Hlen ->]. simpl in *.
  apply store_wf_with_X; [done| |]; simpl.
  - apply rectangular_inplace_row_scale. apply (wf_X _ Hwf2).
  - apply shape_inplace_row_scale. unfold nrows; simpl.
    rewrite length_row_scales, !length_compress; [done|done|].
    by rewrite !length_map.
Qed.

(** Step 3 keeps the object well-formed. *)
Lemma layer_setup_wf (inf_data out : AnnData) :
  store_wf inf_data -> layer_setup inf_data = Ok out -> store_wf out.
Proof.
  intros Hwf H. unfold layer_setup in H. ok_steps H.
  pose proof (set_layer_wf _ _ _ _ Hwf (wf_X _ Hwf) H0) as Hwf1.
  assert (store_wf (with_X a (astype_float32 (X a)))) as Hwf2.
  { destruct a; apply Hwf1. }
  pose proof (normalize_per_cell_wf _ _ _ Hwf2 H1) as Hwf3.
  pose proof (set_layer_wf _ _ _ _ Hwf3 (rectangular_np_full _ _) H2) as Hwf4.
  pose proof (set_layer_wf _ _ _ _ Hwf4 (rectangular_np_full _ _) H3) as Hwf5.
  exact (set_layer_wf _ _ _ _ Hwf5 (rectangular_np_full _ _) H).
Qed.

Lemma broadcast_row_length m c (row : list float32) :
  length row = c -> c = m \/ c = 1 -> length (broadcast_row m c row) = m.
Proof.
  intros Hlen Hc. unfold broadcast_row.
  destruct (Nat.eqb_spec c m) as [->|Hne]; [done|].
  destruct Hc as [->| ->]; [done|].
  destruct row as [|x [|]]; simplify_eq/=. by rewrite length_replicate.
Qed.

Lemma broadcast_to_Forall n m (v : ndarray) src :
  rectangular v -> broadcast_to n m v = Ok src ->
  Forall (fun r => length r = m) src /\ length src = n.
Proof.
  intros Hr H. unfold broadcast_to in H.
  destruct (_ && _) eqn:Hc; [|done]. injection H as <-.
  apply andb_true_iff in Hc as [Hrows Hcols].
  apply orb_true_iff in Hrows, Hcols. rewrite !Nat.eqb_eq in Hrows, Hcols.
  assert (Forall (fun r => length r = ncols v)
            (if Nat.eqb (nrows v) n then rows v
             else match rows v with r :: _ => replicate n r | [] => [] end)
          /\ length (if Nat.eqb (nrows v) n then rows v
                     else match rows v with r :: _ => replicate n r | [] => [] end)
             = n) as [Hall Hlen].
  { destruct (Nat.eqb_spec (nrows v) n) as [<-|Hne]; [done|].
    destruct Hrows as [?|H1]; [done|]. unfold nrows in H1.
    destruct (rows v) as [|r rs] eqn:Hrs; [done|].
    split; [|by rewrite length_replicate].
    apply Forall_replicate. unfold rectangular in Hr. rewrite Hrs in Hr.
    by inversion Hr. }
  split; [|by rewrite length_map].
  apply Forall_fmap. eapply Forall_impl; [exact Hall|].
  intros r Hlr; simpl. by apply broadcast_row_length.
Qed.

Lemma setitem_rows_Ok (a a' : ndarray) mask (v : ndarray) :
  setitem_rows a mask v = Ok a' <->
  length mask = nrows a
  /\ exists src, broadcast_to (count_true mask) (ncols a) v = Ok src
                 /\ a' = mk_ndarray (ncols a) (put_rows mask (rows a) src).
Proof.
  unfold setitem_rows.
  destruct (Nat.eqb_spec (length mask) (nrows a)); split.
  - intros H. ok_steps H. injection H as <-. eauto.
  - intros (_ & src & -> & ->). done.
  - done.
  - by intros [? _].
Qed.

(** An assignment through a row mask keeps the shape of the array. *)
Lemma setitem_rows_shape (a a' : ndarray) mask (v : ndarray) :
  setitem_rows a mask v = Ok a' -> shape a' = shape a.
Proof.
  intros (_ & src & _ & ->)%setitem_rows_Ok.
  unfold shape, nrows; simpl. by rewrite length_put_rows.
Qed.

Lemma setitem_rows_rectangular (a a' : ndarray) mask (v : ndarray) :
  rectangular a -> rectangular v -> setitem_rows a mask v = Ok a' ->
  rectangular a'.
Proof.
  intros Ha Hv (_ & src & Hsrc & ->)%setitem_rows_Ok.
  unfold rectangular; simpl. apply Forall_put_rows; [done|].
  by destruct (broadcast_to_Forall _ _ _ _ Hv Hsrc).
Qed.

Lemma layer_setitem_rows_wf (inf_data out : AnnData) name mask (v : ndarray) :
  store_wf inf_data -> rectangular v ->
  layer_setitem_rows inf_data name mask v = Ok out -> store_wf out.
Proof.
  intros Hwf Hv H. unfold layer_setitem_rows, get_layer in H. ok_steps H.
  injection H as <-. apply getitem_Ok in H0.
  destruct (wf_layers _ Hwf _ _ H0) as [Hs Hr].
  apply store_wf_insert_layer; [done| |].
  - exact (setitem_rows_rectangular _ _ _ _ Hr Hv H1).
  - rewrite <- Hs. exact (setitem_rows_shape _ _ _ _ H1).
Qed.

(** One turn of the loop of Step 4 keeps the object well-formed. *)
Lemma merge_experiment_wf (data : FigureSingleCellData) (inf_data out : AnnData) k :
  input_wf data -> k ∈ expts data -> store_wf inf_data ->
  merge_experiment data inf_data k = Ok out -> store_wf out.
Proof.
  intros Hin Hk Hwf H. unfold merge_experiment, get_layer in H. ok_steps H.
  apply getitem_Ok in H3, H5.
  pose proof (in_decay _ Hin _ _ Hk H0) as Hdd.
  pose proof (in_denoised _ Hin _ _ Hk H1) as Hdn.
  eapply layer_setitem_rows_wf; [| |exact H]; [|by apply (Hdd _ _ H5)].
  eapply layer_setitem_rows_wf; [| |exact H4]; [|by apply (Hdd _ _ H3)].
  by eapply layer_setitem_rows_wf.
Qed.

Lemma merge_experiments_wf_aux (data : FigureSingleCellData) ks :
  input_wf data -> (forall k, k ∈ ks -> k ∈ expts data) ->
  forall inf_data out,
    store_wf inf_data -> merge_experiments data inf_data ks = Ok out ->
    store_wf out.
Proof.
  intros Hin. induction ks as [|k ks IH]; intros Hks inf_data out Hwf H;
    simpl in H.
  - by injection H as <-.
  - ok_steps H. eapply IH; [|eapply merge_experiment_wf|]; eauto.
    + intros k' Hk'. apply Hks. by right.
    + apply Hks. by left.
Qed.

(** Step 4 keeps the object well-formed. *)
Lemma merge_experiments_wf (data : FigureSingleCellData) (inf_data out : AnnData) :
  input_wf data -> store_wf inf_data ->
  merge_experiments data inf_data (expts data) = Ok out -> store_wf out.
Proof. intros Hin Hwf H. by eapply merge_experiments_wf_aux. Qed.

(** Step 5 keeps the object well-formed. *)
Lemma wildtype_subset_wf (inf_data out : AnnData) :
  store_wf inf_data -> wildtype_subset inf_data = Ok out -> store_wf out.
Proof.
  intros Hwf H. unfold wildtype_subset in H. ok_steps H.
  by eapply subset_obs_wf.
Qed.

Lemma transcription_layer_wf (inf_data out_data : AnnData) (velocity out : string) :
  out <> "decay_constants" -> out <> "denoised" ->
  store_wf inf_data ->
  transcription_layer inf_data velocity out = Ok out_data -> store_wf out_data.
Proof.
  intros Hne1 Hne2 Hwf H.
  apply transcription_layer_spec in H
    as (t & v & dc & dn & Hv & Hdc & Hdn & Hd & Ht & Hvs & Hcn & Hvc & ->);
    [|done..].
  destruct (wf_layers _ Hwf _ _ Hv) as [[= Hv1 Hv2] Hvr].
  destruct (wf_layers _ Hwf _ _ Hdc) as [[= Hc1 Hc2] Hcr].
  destruct (wf_layers _ Hwf _ _ Hdn) as [[= Hn1 Hn2] Hnr].
  apply store_wf_insert_layer; [done| |done].
  injection Ht as Ht1 Ht2.
  destruct t as [tc tr]. unfold derived_rows in Hd; simpl in *. subst tr.
  apply (rectangular_zip_with _ _ _ (ncols (X inf_data))); [| |done].
  - unfold rectangular in Hvr. by rewrite Hv2 in Hvr.
  - apply (rectangular_zip_with _ _ _ (ncols (X inf_data)) (ncols (X inf_data)));
      [| |done].
    + unfold rectangular in Hcr. by rewrite Hc2 in Hcr.
    + unfold rectangular in Hnr. by rewrite Hn2 in Hnr.
Qed.

(** Step 6 keeps the object well-formed. *)
Lemma transcription_layers_wf (inf_data out : AnnData) :
  store_wf inf_data -> transcription_layers inf_data = Ok out -> store_wf out.
Proof.
  intros Hwf H. unfold transcription_layers in H. ok_steps H.
  apply (transcription_layer_wf a out "cell_cycle_velocity"
           "cell_cycle_transcription"); [done|done| |exact H].
  by apply (transcription_layer_wf inf_data a "rapamycin_velocity"
              "rapamycin_transcription").
Qed.

(** Step 7 keeps the object well-formed. *)
Lemma trim_features_wf (inf_data out : AnnData) :
  store_wf inf_data -> trim_features inf_data = Ok out -> store_wf out.
Proof.
  intros Hwf H. unfold trim_features in H.
  destruct (forallb id (has_expression inf_data)).
  - by injection H as <-.
  - by eapply subset_var_wf.
Qed.

(** C4.  Whenever the packager gets as far as a stage, the object it
    holds after that stage is well-formed: [X] and every layer are
    matrices of one shape, and [obs] (index and every column) has one
    entry per row of [X], [var] one per column.  The same holds after
    every turn of the loop of Step 4. *)
Theorem C4_shape_invariant_at_every_stage (data : FigureSingleCellData)
    (s1 s3 s4 s5 s6 s7 : AnnData) :
  input_wf data ->
  base_construction data = Ok s1 ->
  layer_setup s1 = Ok s3 ->
  merge_experiments data s3 (expts data) = Ok s4 ->
  wildtype_subset s4 = Ok s5 ->
  transcription_layers s5 = Ok s6 ->
  trim_features s6 = Ok s7 ->
  Forall store_wf [s1; s3; s4; s5; s6; s7]
  /\ (forall k s s', k ∈ expts data -> store_wf s ->
        merge_experiment data s k = Ok s' -> store_wf s')
  /\ Forall (fun s => forall name l, layers s !! name = Some l ->
               shape l = shape (X s))
            [s1; s3; s4; s5; s6; s7]
  /\ Forall (fun s => length (index (obs s)) = nrows (X s))
            [s1; s3; s4; s5; s6; s7].
Proof.
  intros Hin H1 H3 H4 H5 H6 H7.
  pose proof (base_construction_wf _ _ Hin H1) as W1.
  pose proof (layer_setup_wf _ _ W1 H3) as W3.
  pose proof (merge_experiments_wf _ _ _ Hin W3 H4) as W4.
  pose proof (wildtype_subset_wf _ _ W4 H5) as W5.
  pose proof (transcription_layers_wf _ _ W5 H6) as W6.
  pose proof (trim_features_wf _ _ W6 H7) as W7.
  assert (Forall store_wf [s1; s3; s4; s5; s6; s7]) as Hall.
  { repeat (apply Forall_cons_2; [done|]). apply Forall_nil_2. }
  split_and!; [done| | |].
  - intros k s s' Hk Hs Hm. by eapply merge_experiment_wf.
  - eapply Forall_impl; [exact Hall|]. intros s Hs name l Hl.
    by destruct (wf_layers _ Hs _ _ Hl).
  - eapply Forall_impl; [exact Hall|]. intros s Hs. apply (wf_obs_index _ Hs).
Qed.

(* ================================================================== *)
(** * 22. The packager as a sequence of stages *)
(* ================================================================== *)

Lemma data_packager_stages (data : FigureSingleCellData) (out : AnnData) :
  _data_packager data = Ok out <->
  exists s1 s3 s4 s5 s6,
    base_construction data = Ok s1
    /\ layer_setup s1 = Ok s3
    /\ merge_experiments data s3 (expts data) = Ok s4
    /\ wildtype_subset s4 = Ok s5
    /\ transcription_layers s5 = Ok s6
    /\ trim_features s6 = Ok out.
Proof.
  unfold _data_packager. split.
  - intros H. ok_steps H. by eexists _, _, _, _, _.
  - intros (s1 & s3 & s4 & s5 & s6 & -> & H3 & H4 & H5 & H6 & H7); simpl.
    rewrite H3; simpl. rewrite H4; simpl. rewrite H5; simpl. by rewrite H6.
Qed.

(** The object the packager returns is well-formed. *)
Lemma data_packager_wf (data : FigureSingleCellData) (out : AnnData) :
  input_wf data -> _data_packager data = Ok out -> store_wf out.
Proof.
  intros Hin (s1 & s3 & s4 & s5 & s6 & H1 & H3 & H4 & H5 & H6 & H7)%data_packager_stages.
  eapply trim_features_wf; [|exact H7].
  eapply transcription_layers_wf; [|exact H6].
  eapply wildtype_subset_wf; [|exact H5].
  eapply merge_experiments_wf; [done| |exact H4].
  eapply layer_setup_wf; [|exact H3].
  by eapply base_construction_wf.
Qed.

Lemma cell_in_range (a : ndarray) r c :
  rectangular a -> r < nrows a -> c < ncols a -> is_Some (cell a r c).
Proof.
  intros Hr Hrow Hcol. unfold cell, nrows in *.
  destruct (lookup_lt_is_Some_2 (rows a) r Hrow) as [row Hrow'].
  rewrite Hrow'; simpl. apply lookup_lt_is_Some_2.
  unfold rectangular in Hr. rewrite Forall_forall in Hr.
  rewrite (Hr row); [done|]. by eapply list_elem_of_lookup_2.
Qed.

(* ================================================================== *)
(** * 23. Step 6 seen from the returned object *)
(* ================================================================== *)

Lemma transcription_layers_derived (inf_data out : AnnData) :
  transcription_layers inf_data = Ok out ->
  exists w : transcription_view out, transcription_derived out w.
Proof.
  intros H. unfold transcription_layers in H. ok_steps H.
  apply transcription_layer_spec in H0
    as (t1 & v1 & dc1 & dn1 & Hv1 & Hdc1 & Hdn1 & Hd1 & _ & _ & _ & _ & ->);
    [|done..].
  apply transcription_layer_spec in H
    as (t2 & v2 & dc2 & dn2 & Hv2 & Hdc2 & Hdn2 & Hd2 & _ & _ & _ & _ & ->);
    [|done..].
  simpl in *. rewrite lookup_insert_ne in Hv2, Hdc2, Hdn2 by done.
  simplify_eq.
  exists (mk_transcription_view t1 t2 v1 v2 dc1 dn1).
  unfold transcription_derived, views; simpl.
  split_and!; try done.
  - rewrite lookup_insert_ne by done. by rewrite lookup_insert_eq.
  - by rewrite lookup_insert_eq.
  - by rewrite !lookup_insert_ne by done.
  - by rewrite !lookup_insert_ne by done.
  - by rewrite !lookup_insert_ne by done.
  - by rewrite !lookup_insert_ne by done.
Qed.

Lemma trim_features_derived (inf_data out : AnnData) (w : transcription_view inf_data) :
  transcription_derived inf_data w -> trim_features inf_data = Ok out ->
  exists w' : transcription_view out, transcription_derived out w'.
Proof.
  intros (Hw & Hd1 & Hd2) H. unfold trim_features in H.
  destruct (forallb id (has_expression inf_data)).
  - injection H as <-. by exists w.
  - apply subset_var_Ok in H as [_ ->].
    set (m := has_expression inf_data).
    exists (mk_transcription_view
              (select_cols m (tv_rapamycin_transcription w))
              (select_cols m (tv_cell_cycle_transcription w))
              (select_cols m (tv_rapamycin_velocity w))
              (select_cols m (tv_cell_cycle_velocity w))
              (select_cols m (tv_decay_constants w))
              (select_cols m (tv_denoised w))).
    destruct Hw as (L1 & L2 & L3 & L4 & L5 & L6).
    unfold transcription_derived, views; simpl.
    rewrite !lookup_fmap, L1, L2, L3, L4, L5, L6; simpl.
    split_and!; try done; by apply derived_rows_select_cols.
Qed.

Lemma data_packager_derived (data : FigureSingleCellData) (out : AnnData) :
  _data_packager data = Ok out ->
  exists w : transcription_view out, transcription_derived out w.
Proof.
  intros (s1 & s3 & s4 & s5 & s6 & _ & _ & _ & _ & H6 & H7)%data_packager_stages.
  destruct (transcription_layers_derived _ _ H6) as [w Hw].
  by eapply trim_features_derived.
Qed.

(** C2.  In the object the packager returns, every cell [(r, c)] of the
    matrix has an entry in each of the six layers; the rapamycin
    transcription entry is the binary32 sum of the rapamycin velocity
    entry and the binary32 product of the decay constant and the denoised
    entry, the cell cycle transcription entry likewise from the cell
    cycle velocity; and when one of the three operands is NaN the
    transcription entry is NaN (and so not a zero). *)
Theorem C2_transcription_is_velocity_plus_decay_times_denoised
    (data : FigureSingleCellData) (out : AnnData) :
  input_wf data ->
  _data_packager data = Ok out ->
  exists w : transcription_view out,
    views out w
    /\ forall r c, r < nrows (X out) -> c < ncols (X out) ->
       exists rv cv k d,
         cell (tv_rapamycin_velocity w) r c = Some rv
         /\ cell (tv_cell_cycle_velocity w) r c = Some cv
         /\ cell (tv_decay_constants w) r c = Some k
         /\ cell (tv_denoised w) r c = Some d
         /\ cell (tv_rapamycin_transcription w) r c
            = Some (F32.add rv (F32.mul k d))
         /\ cell (tv_cell_cycle_transcription w) r c
            = Some (F32.add cv (F32.mul k d))
         /\ (F32.isnan rv || F32.isnan k || F32.isnan d = true ->
             cell (tv_rapamycin_transcription w) r c = Some F32.nan
             /\ F32.nan <> F32.zero)
         /\ (F32.isnan cv || F32.isnan k || F32.isnan d = true ->
             cell (tv_cell_cycle_transcription w) r c = Some F32.nan
             /\ F32.nan <> F32.zero).
Proof.
  intros Hin Hout.
  pose proof (data_packager_wf _ _ Hin Hout) as Hwf.
  destruct (data_packager_derived _ _ Hout) as (w & Hw & Hd1 & Hd2).
  exists w. split; [done|]. intros r c Hr Hc.
  destruct Hw as (L1 & L2 & L3 & L4 & L5 & L6).
  assert (forall name l, layers out !! name = Some l -> is_Some (cell l r c))
    as Hcell.
  { intros name l Hl. destruct (wf_layers _ Hwf _ _ Hl) as [[= Hn Hm] Hrect].
    apply cell_in_range; [done|lia|lia]. }
  destruct (Hcell _ _ L3) as [rv Hrv], (Hcell _ _ L4) as [cv Hcv],
    (Hcell _ _ L5) as [k Hk], (Hcell _ _ L6) as [d Hd].
  exists rv, cv, k, d.
  pose proof (derived_rows_cellwise _ _ _ _ Hd1 r c) as E1.
  pose proof (derived_rows_cellwise _ _ _ _ Hd2 r c) as E2.
  rewrite Hrv, Hk, Hd in E1. rewrite Hcv, Hk, Hd in E2. simpl in E1, E2.
  split_and!; try done.
  - intros Hnan. by rewrite E1, add_mul_nan.
  - intros Hnan. by rewrite E2, add_mul_nan.
Qed.

(** C8, as amended.  In the object the packager returns, every cell of
    the two transcription layers is the binary32 sum of its own velocity
    entry and one shared term, the binary32 product of the decay constant
    and the denoised entry of that cell; in particular the two
    transcription entries agree wherever the two velocity entries do. *)
Theorem C8_shared_decay_denoised_term
    (data : FigureSingleCellData) (out : AnnData) :
  input_wf data ->
  _data_packager data = Ok out ->
  exists w : transcription_view out,
    views out w
    /\ forall r c, r < nrows (X out) -> c < ncols (X out) ->
       exists rv cv k d t,
         cell (tv_rapamycin_velocity w) r c = Some rv
         /\ cell (tv_cell_cycle_velocity w) r c = Some cv
         /\ cell (tv_decay_constants w) r c = Some k
         /\ cell (tv_denoised w) r c = Some d
         /\ t = F32.mul k d
         /\ cell (tv_rapamycin_transcription w) r c = Some (F32.add rv t)
         /\ cell (tv_cell_cycle_transcription w) r c = Some (F32.add cv t)
         /\ (rv = cv ->
             cell (tv_rapamycin_transcription w) r c
             = cell (tv_cell_cycle_transcription w) r c).
Proof.
  intros Hin Hout.
  pose proof (data_packager_wf _ _ Hin Hout) as Hwf.
  destruct (data_packager_derived _ _ Hout) as (w & Hw & Hd1 & Hd2).
  exists w. split; [done|]. intros r c Hr Hc.
  destruct Hw as (L1 & L2 & L3 & L4 & L5 & L6).
  assert (forall name l, layers out !! name = Some l -> is_Some (cell l r c))
    as Hcell.
  { intros name l Hl. destruct (wf_layers _ Hwf _ _ Hl) as [[= Hn Hm] Hrect].
    apply cell_in_range; [done|lia|lia]. }
  destruct (Hcell _ _ L3) as [rv Hrv], (Hcell _ _ L4) as [cv Hcv],
    (Hcell _ _ L5) as [k Hk], (Hcell _ _ L6) as [d Hd].
  exists rv, cv, k, d, (F32.mul k d).
  pose proof (derived_rows_cellwise _ _ _ _ Hd1 r c) as E1.
  pose proof (derived_rows_cellwise _ _ _ _ Hd2 r c) as E2.
  rewrite Hrv, Hk, Hd in E1. rewrite Hcv, Hk, Hd in E2. simpl in E1, E2.
  split_and!; try done.
  intros ->. by rewrite E1, E2.
Qed.

(* ================================================================== *)
(** * 24. The scenario *)
(* ================================================================== *)

(** Closes a decidable statement about concrete data by evaluation. *)
Ltac by_evaluation :=
  first [ apply rectangularb_spec; vm_compute; reflexivity
        | unfold frame_wf, rectangular;
          apply (bool_decide_eq_true_1 _); vm_compute; reflexivity
        | vm_compute; reflexivity ].

Lemma scenario_stages :
  base_construction Examples.scenario = Ok Examples.scenario_s1
  /\ layer_setup Examples.scenario_s1 = Ok Examples.scenario_s3
  /\ merge_experiments Examples.scenario Examples.scenario_s3
       (expts Examples.scenario) = Ok Examples.scenario_s4
  /\ wildtype_subset Examples.scenario_s4 = Ok Examples.scenario_s5
  /\ transcription_layers Examples.scenario_s5 = Ok Examples.scenario_s6
  /\ trim_features Examples.scenario_s6 = Ok Examples.scenario_out.
Proof. split_and!; vm_compute; reflexivity. Qed.

Lemma scenario_runs : _data_packager Examples.scenario = Ok Examples.scenario_out.
Proof. vm_compute; reflexivity. Qed.

Lemma scenario_input_wf : input_wf Examples.scenario.
Proof.
  constructor.
  - by_evaluation.
  - by_evaluation.
  - by_evaluation.
  - intros k dd _ [= <-]. by_evaluation.
  - intros k dn _ [= <-]. by_evaluation.
Qed.

Lemma C2_witness :
  exists w : transcription_view Examples.scenario_out,
    views Examples.scenario_out w
    /\ forall r c, r < nrows (X Examples.scenario_out) ->
                   c < ncols (X Examples.scenario_out) ->
       exists rv cv k d,
         cell (tv_rapamycin_velocity w) r c = Some rv
         /\ cell (tv_cell_cycle_velocity w) r c = Some cv
         /\ cell (tv_decay_constants w) r c = Some k
         /\ cell (tv_denoised w) r c = Some d
         /\ cell (tv_rapamycin_transcription w) r c
            = Some (F32.add rv (F32.mul k d))
         /\ cell (tv_cell_cycle_transcription w) r c
            = Some (F32.add cv (F32.mul k d))
         /\ (F32.isnan rv || F32.isnan k || F32.isnan d = true ->
             cell (tv_rapamycin_transcription w) r c = Some F32.nan
             /\ F32.nan <> F32.zero)
         /\ (F32.isnan cv || F32.isnan k || F32.isnan d = true ->
             cell (tv_cell_cycle_transcription w) r c = Some F32.nan
             /\ F32.nan <> F32.zero).
Proof.
  apply (C2_transcription_is_velocity_plus_decay_times_denoised Examples.scenario).
  - exact scenario_input_wf.
  - vm_compute; reflexivity.
Defined.

Lemma C4_witness :
  Forall store_wf [Examples.scenario_s1; Examples.scenario_s3;
                   Examples.scenario_s4; Examples.scenario_s5;
                   Examples.scenario_s6; Examples.scenario_out].
Proof.
  refine (proj1 (C4_shape_invariant_at_every_stage Examples.scenario
                   _ _ _ _ _ _ scenario_input_wf _ _ _ _ _ _));
    vm_compute; reflexivity.
Defined.

Lemma C6_witness :
  exists out,
    trim_features Examples.scenario_s6 = Ok out
    /\ Forall (fun s => F32.gtb s F32.zero = true
                        /\ F32.eqb s F32.zero = false
                        /\ F32.isnan s = false) (sum_axis0 (X out))
    /\ trim_features out = Ok out.
Proof.
  apply (C6_trim_features_retained_and_idempotent Examples.scenario_s6).
  apply rectangularb_spec. vm_compute; reflexivity.
Defined.

Lemma C8_witness :
  exists w : transcription_view Examples.scenario_out,
    views Examples.scenario_out w
    /\ forall r c, r < nrows (X Examples.scenario_out) ->
                   c < ncols (X Examples.scenario_out) ->
       exists rv cv k d t,
         cell (tv_rapamycin_velocity w) r c = Some rv
         /\ cell (tv_cell_cycle_velocity w) r c = Some cv
         /\ cell (tv_decay_constants w) r c = Some k
         /\ cell (tv_denoised w) r c = Some d
         /\ t = F32.mul k d
         /\ cell (tv_rapamycin_transcription w) r c = Some (F32.add rv t)
         /\ cell (tv_cell_cycle_transcription w) r c = Some (F32.add cv t)
         /\ (rv = cv ->
             cell (tv_rapamycin_transcription w) r c
             = cell (tv_cell_cycle_transcription w) r c).
Proof.
  apply (C8_shared_decay_denoised_term Examples.scenario).
  - exact scenario_input_wf.
  - vm_compute; reflexivity.
Defined.

(** On the one-cell input the packager returns a rapamycin transcription
    of 1 over a velocity of 1 and a cell cycle transcription of 2^-30
    over a velocity of 0: the two differences are 0 and 2^-30. *)
Lemma C8_counterexample :
  _data_packager Examples.rounding = Ok Examples.rounding_out
  /\ ~ equal_differences Examples.rounding_out.
Proof.
  split; [vm_compute; reflexivity|].
  intros Hclaim.
  enough (F32.eqb (F32.sub F32.one F32.one) (F32.sub Examples.tiny F32.zero)
          = true) as H by (vm_compute in H; discriminate).
  apply (Hclaim
    (mk_transcription_view
       (np_full (1, 1) F32.one) (np_full (1, 1) Examples.tiny)
       (np_full (1, 1) F32.one) (np_full (1, 1) F32.zero)
       (np_full (1, 1) Examples.tiny) (np_full (1, 1) F32.one))
    0 0 F32.one Examples.tiny F32.one F32.zero Examples.tiny F32.one);
    try (vm_compute; reflexivity).
  unfold views. split_and!; vm_compute; reflexivity.
Qed.

(* ================================================================== *)
(** * 25. Step 4: assignments through a row mask *)
(* ================================================================== *)

(** After [tgt[mask] = src] a selected row holds the row of [src] at its
    rank, every other row is unchanged. *)
Lemma put_rows_lookup {A : Type} mask (tgt src : list A) r :
  length mask = length tgt -> length src = count_true mask ->
  put_rows mask tgt src !! r
  = match mask !! r with
    | Some true => src !! rank mask r
    | _ => tgt !! r
    end.
Proof.
  revert tgt src r; induction mask as [|[] mask IH];
    intros [|t tgt] [|s src] r Hlen Hsrc; simplify_eq/=; try done.
  - destruct r as [|r]; [done|]. by apply (IH tgt src r).
  - destruct r as [|r]; [done|]. by apply (IH tgt [] r).
  - destruct r as [|r]; [done|]. by apply (IH tgt (s :: src) r).
Qed.

Lemma compress_lookup_rank {A : Type} mask (l : list A) r :
  mask !! r = Some true -> compress mask l !! rank mask r = l !! r.
Proof.
  revert l r; induction mask as [|b mask IH]; intros l r Hr; [done|].
  destruct l as [|x l].
  { by rewrite compress_nil_r, !lookup_nil. }
  destruct r as [|r].
  - by injection Hr as ->.
  - destruct b; by apply (IH l r).
Qed.

Lemma length_isin names ids : length (isin names ids) = length names.
Proof. unfold isin. by rewrite length_map. Qed.

Lemma isin_lookup_true names ids r :
  isin names ids !! r = Some true <->
  exists id, names !! r = Some id /\ id ∈ ids.
Proof.
  unfold isin. rewrite list_lookup_fmap.
  destruct (names !! r) as [id|]; simpl; split.
  - intros [= H]. apply bool_decide_eq_true in H. eauto.
  - intros (id' & [= <-] & Hin). by rewrite bool_decide_eq_true_2.
  - done.
  - by intros (id' & [=] & _).
Qed.

Lemma isin_lookup_false names ids r id :
  names !! r = Some id -> id ∉ ids -> isin names ids !! r = Some false.
Proof.
  intros Hr Hid. unfold isin. rewrite list_lookup_fmap, Hr; simpl.
  by rewrite bool_decide_eq_false_2.
Qed.

Lemma index_of_NoDup id ids j :
  NoDup ids -> ids !! j = Some id -> index_of id ids = Some j.
Proof.
  intros Hnd Hj. unfold index_of.
  destruct (list_find (fun x => x = id) ids) as [[i x]|] eqn:Hfind; simpl.
  - apply list_find_Some in Hfind as (Hi & -> & _).
    f_equal. by eapply NoDup_lookup.
  - apply list_find_None in Hfind. rewrite Forall_forall in Hfind.
    exfalso. apply (Hfind id); [|done]. by eapply list_elem_of_lookup_2.
Qed.

Lemma aligned_count names ids :
  aligned names ids -> count_true (isin names ids) = length ids.
Proof.
  unfold aligned. intros H.
  rewrite <- (length_compress (isin names ids) names) by apply length_isin.
  by rewrite H.
Qed.

(** For aligned identifiers the rank of a selected row is the position of
    its identifier in the product. *)
Lemma aligned_row_of names ids (v : ndarray) r id :
  NoDup names -> aligned names ids -> nrows v = length ids ->
  names !! r = Some id -> id ∈ ids ->
  row_of ids v id = rows v !! rank (isin names ids) r
  /\ is_Some (rows v !! rank (isin names ids) r).
Proof.
  intros Hnd Hal Hv Hr Hid.
  assert (isin names ids !! r = Some true) as Hm.
  { apply isin_lookup_true. eauto. }
  pose proof (compress_lookup_rank _ names _ Hm) as Hc.
  rewrite Hal, Hr in Hc.
  assert (NoDup ids) as Hnd'.
  { unfold aligned in Hal. rewrite <- Hal. by apply NoDup_compress. }
  unfold row_of. rewrite (index_of_NoDup _ _ _ Hnd' Hc); simpl.
  split; [done|]. apply lookup_lt_is_Some_2. unfold nrows in Hv.
  rewrite Hv. by eapply lookup_lt_Some.
Qed.

Lemma broadcast_to_exact n m (v : ndarray) :
  shape v = (n, m) -> broadcast_to n m v = Ok (rows v).
Proof.
  intros [= Hn Hm]. unfold broadcast_to.
  rewrite Hn, Hm, !Nat.eqb_refl; simpl. f_equal.
  induction (rows v) as [|r rs IH]; simpl; [done|].
  unfold broadcast_row at 1. by rewrite Nat.eqb_refl, IH.
Qed.

Lemma setitem_rows_exact (a : ndarray) mask (v : ndarray) :
  length mask = nrows a -> shape v = (count_true mask, ncols a) ->
  setitem_rows a mask v
  = Ok (mk_ndarray (ncols a) (put_rows mask (rows a) (rows v))).
Proof.
  intros Hlen Hv. unfold setitem_rows.
  rewrite Hlen, Nat.eqb_refl. by rewrite broadcast_to_exact.
Qed.

Lemma layer_setitem_rows_exact (inf_data : AnnData) name mask (v a : ndarray) :
  layers inf_data !! name = Some a ->
  length mask = nrows a -> shape v = (count_true mask, ncols a) ->
  layer_setitem_rows inf_data name mask v
  = Ok (with_layers inf_data
          (<[name := mk_ndarray (ncols a) (put_rows mask (rows a) (rows v))]>
             (layers inf_data))).
Proof.
  intros Ha Hlen Hv. unfold layer_setitem_rows, get_layer, getitem.
  rewrite Ha; simpl. by rewrite setitem_rows_exact.
Qed.

Lemma layer_setitem_rows_Ok (inf_data out : AnnData) name mask (v : ndarray) :
  layer_setitem_rows inf_data name mask v = Ok out ->
  exists a a', layers inf_data !! name = Some a
               /\ setitem_rows a mask v = Ok a'
               /\ out = with_layers inf_data (<[name := a']> (layers inf_data)).
Proof.
  intros H. unfold layer_setitem_rows, get_layer in H. ok_steps H.
  injection H as <-. apply getitem_Ok in H0. eauto.
Qed.

Lemma elem_of_merged_layers name :
  name ∈ merged_layers <->
  name = "denoised" \/ name = "rapamycin_velocity" \/ name = "cell_cycle_velocity".
Proof. unfold merged_layers. rewrite !elem_of_cons, elem_of_nil. tauto. Qed.

(** One turn of the loop on aligned products succeeds and writes each of
    the three layers row by row. *)
Lemma merge_experiment_step (data : FigureSingleCellData) (inf_data : AnnData)
    (k : key) (dd dn : AnnData) names m :
  layers_ready names m inf_data ->
  decay_data data k = Ok dd -> denoised_data data k = Ok dn ->
  experiment_aligned names m dd dn ->
  exists out,
    merge_experiment data inf_data k = Ok out
    /\ layers_ready names m out
    /\ X out = X inf_data
    /\ forall name a, name ∈ merged_layers ->
         layers inf_data !! name = Some a ->
         exists v a',
           product_layer dd dn name = Some v
           /\ shape v = (length (obs_names dd), m)
           /\ layers out !! name = Some a'
           /\ forall r,
                rows a' !! r
                = match isin names (obs_names dd) !! r with
                  | Some true => rows v !! rank (isin names (obs_names dd)) r
                  | _ => rows a !! r
                  end.
Proof.
  intros [Hnames Hready] Hdd Hdn [Hal Hids Hsh].
  destruct (Hready "denoised") as (a1 & La1 & Sa1);
    [apply elem_of_merged_layers; tauto|].
  destruct (Hready "rapamycin_velocity") as (a2 & La2 & Sa2);
    [apply elem_of_merged_layers; tauto|].
  destruct (Hready "cell_cycle_velocity") as (a3 & La3 & Sa3);
    [apply elem_of_merged_layers; tauto|].
  destruct (Hsh "denoised") as (v1 & P1 & S1);
    [apply elem_of_merged_layers; tauto|].
  destruct (Hsh "rapamycin_velocity") as (v2 & P2 & S2);
    [apply elem_of_merged_layers; tauto|].
  destruct (Hsh "cell_cycle_velocity") as (v3 & P3 & S3);
    [apply elem_of_merged_layers; tauto|].
  unfold product_layer in P1, P2, P3; simpl in P1, P2, P3.
  injection P1 as <-.
  set (mask := isin names (obs_names dd)).
  assert (count_true mask = length (obs_names dd)) as Hcount
    by (by apply aligned_count).
  assert (length mask = length names) as Hmask by apply length_isin.
  injection Sa1 as Sa1r Sa1c. injection Sa2 as Sa2r Sa2c.
  injection Sa3 as Sa3r Sa3c.
  set (b1 := mk_ndarray (ncols a1) (put_rows mask (rows a1) (rows (X dn)))).
  set (b2 := mk_ndarray (ncols a2) (put_rows mask (rows a2) (rows v2))).
  set (b3 := mk_ndarray (ncols a3) (put_rows mask (rows a3) (rows v3))).
  exists (with_layers inf_data
            (<["cell_cycle_velocity" := b3]>
               (<["rapamycin_velocity" := b2]>
                  (<["denoised" := b1]> (layers inf_data))))).
  split_and!.
  - unfold merge_experiment. rewrite Hdd; simpl. rewrite Hdn; simpl.
    rewrite Hnames. fold mask.
    rewrite (layer_setitem_rows_exact _ _ _ _ a1); [|done|congruence|];
      [|rewrite S1; f_equal; congruence].
    simpl. unfold get_layer, getitem. rewrite P2; simpl.
    rewrite (layer_setitem_rows_exact _ _ _ _ a2);
      [|simpl; by rewrite lookup_insert_ne|congruence|];
      [|rewrite S2; f_equal; congruence].
    simpl. rewrite P3; simpl.
    rewrite (layer_setitem_rows_exact _ _ _ _ a3);
      [|simpl; by rewrite !lookup_insert_ne|congruence|];
      [|rewrite S3; f_equal; congruence].
    done.
  - split; [done|]. intros name Hname.
    apply elem_of_merged_layers in Hname as [->|[->| ->]]; simpl.
    + exists b1. rewrite !lookup_insert_ne, lookup_insert_eq by done.
      split; [done|]. unfold shape, nrows, b1; simpl.
      rewrite length_put_rows. f_equal; done.
    + exists b2. rewrite lookup_insert_ne, lookup_insert_eq by done.
      split; [done|]. unfold shape, nrows, b2; simpl.
      rewrite length_put_rows. f_equal; done.
    + exists b3. rewrite lookup_insert_eq.
      split; [done|]. unfold shape, nrows, b3; simpl.
      rewrite length_put_rows. f_equal; done.
  - done.
  - intros name a Hname Ha.
    apply elem_of_merged_layers in Hname as [->|[->| ->]]; simpl;
      simplify_eq.
    + exists (X dn), b1. unfold product_layer; simpl.
      rewrite !lookup_insert_ne, lookup_insert_eq by done.
      split_and!; try done. intros r. unfold b1; simpl.
      apply put_rows_lookup; [unfold nrows in *; congruence|].
      injection S1 as S1r _. unfold nrows in *. congruence.
    + exists v2, b2. unfold product_layer; simpl.
      rewrite lookup_insert_ne, lookup_insert_eq by done.
      split_and!; try done. intros r. unfold b2; simpl.
      apply put_rows_lookup; [unfold nrows in *; congruence|].
      injection S2 as S2r _. unfold nrows in *. congruence.
    + exists v3, b3. unfold product_layer; simpl.
      rewrite lookup_insert_eq.
      split_and!; try done. intros r. unfold b3; simpl.
      apply put_rows_lookup; [unfold nrows in *; congruence|].
      injection S3 as S3r _. unfold nrows in *. congruence.
Qed.

(* ================================================================== *)
(** * 26. Step 4: the loop *)
(* ================================================================== *)

(** The loop over aligned, pairwise disjoint experiments succeeds; in
    each of the three layers the row of a covered observation is the row
    of that observation in the product that covers it, and the other rows
    are the rows the loop started from. *)
Lemma merge_experiments_rows (data : FigureSingleCellData) names m :
  NoDup names ->
  forall ks inf_data,
    NoDup ks ->
    experiments_aligned data names m ks ->
    experiments_disjoint data ks ->
    layers_ready names m inf_data ->
    exists out,
      merge_experiments data inf_data ks = Ok out
      /\ layers_ready names m out
      /\ X out = X inf_data
      /\ forall name a, name ∈ merged_layers ->
           layers inf_data !! name = Some a ->
           exists a',
             layers out !! name = Some a'
             /\ forall r id, names !! r = Some id ->
                  (forall k dd dn v,
                      k ∈ ks -> decay_data data k = Ok dd ->
                      denoised_data data k = Ok dn ->
                      product_layer dd dn name = Some v ->
                      id ∈ obs_names dd ->
                      rows a' !! r = row_of (obs_names dd) v id
                      /\ is_Some (rows a' !! r))
                  /\ ((forall k dd, k ∈ ks -> decay_data data k = Ok dd ->
                                    id ∉ obs_names dd) ->
                      rows a' !! r = rows a !! r).
Proof.
  intros Hnd. induction ks as [|k ks IH];
    intros inf_data Hks Hal Hdis Hready.
  - exists inf_data. split_and!; try done.
    intros name a Hname Ha. exists a. split; [done|].
    intros r id Hr. split; [|done].
    intros k dd dn v Hk. by apply elem_of_nil in Hk.
  - apply NoDup_cons in Hks as [Hk Hks].
    destruct (Hal k) as (dd & dn & Hdd & Hdn & Hea); [by left|].
    destruct (merge_experiment_step _ _ _ _ _ _ _ Hready Hdd Hdn Hea)
      as (inf1 & Hstep & Hready1 & HX1 & Hrows1).
    destruct (IH inf1) as (out & Hout & Hready' & HX' & Hrows'); try done.
    { intros k' Hk'. apply Hal. by right. }
    { intros k1 k2 dd1 dd2 id H1 H2. apply Hdis; by right. }
    exists out. split_and!.
    + simpl. by rewrite Hstep.
    + done.
    + congruence.
    + intros name a Hname Ha.
      destruct (Hrows1 name a Hname Ha) as (v & a1 & Hv & Hvs & Ha1 & Hr1).
      destruct (Hrows' name a1 Hname Ha1) as (a' & Ha' & Hr').
      exists a'. split; [done|]. intros r id Hr.
      destruct (Hr' r id Hr) as [Hin Hout'].
      assert (forall k' dd', k' ∈ ks -> decay_data data k' = Ok dd' ->
                id ∈ obs_names dd -> id ∉ obs_names dd') as Hother.
      { intros k' dd' Hk' Hdd' Hid.
        apply (Hdis k k' dd dd' id); try done; [by left|by right|].
        intros ->. done. }
      split.
      * intros k0 dd0 dn0 v0 Hk0 Hdd0 Hdn0 Hv0 Hid.
        apply elem_of_cons in Hk0 as [->|Hk0]; [|by eapply Hin].
        rewrite Hdd in Hdd0. injection Hdd0 as <-.
        rewrite Hdn in Hdn0. injection Hdn0 as <-.
        rewrite Hv in Hv0. injection Hv0 as <-.
        assert (rows a' !! r = rows a1 !! r) as ->.
        { apply Hout'. intros k' dd' Hk' Hdd'. by apply (Hother k' dd'). }
        rewrite Hr1.
        assert (isin names (obs_names dd) !! r = Some true) as ->.
        { apply isin_lookup_true. eauto. }
        destruct Hea as [Hord _ _].
        injection Hvs as Hvr _.
        destruct (aligned_row_of names (obs_names dd) v r id) as [-> ?];
          done.
      * intros Hnone.
        assert (rows a' !! r = rows a1 !! r) as ->.
        { apply Hout'. intros k' dd' Hk' Hdd'. apply (Hnone k'); [by right|done]. }
        rewrite Hr1.
        rewrite (isin_lookup_false _ _ _ id); [done|done|].
        apply (Hnone k); [by left|done].
Qed.

(** The three layers Step 3 creates are filled with NaN. *)
Lemma layer_setup_layers (s1 s3 : AnnData) :
  layer_setup s1 = Ok s3 ->
  forall name, name ∈ merged_layers ->
    layers s3 !! name = Some (np_full (shape (X s3)) F32.nan).
Proof.
  intros H. unfold layer_setup in H. ok_steps H.
  apply set_layer_Ok in H2 as [_ ->], H3 as [_ ->], H as [_ ->]. simpl.
  clear. intros name [->|[->| ->]]%elem_of_merged_layers.
  - by rewrite lookup_insert_eq.
  - by rewrite lookup_insert_ne, lookup_insert_ne, lookup_insert_eq.
  - by rewrite lookup_insert_ne, lookup_insert_eq.
Qed.

Lemma set_obs_index (a a' : AnnData) name col :
  set_obs a name col = Ok a' -> obs_names a' = obs_names a /\ X a' = X a.
Proof.
  intros H. unfold set_obs in H. ok_steps H. injection H as <-.
  by apply df_setitem_Ok in H0 as [_ ->].
Qed.

Lemma layer_setup_obs_names (s1 s3 : AnnData) :
  layer_setup s1 = Ok s3 ->
  exists mask, obs_names s3 = compress mask (obs_names s1).
Proof.
  intros H. unfold layer_setup in H. ok_steps H.
  repeat match goal with
         | H : set_layer _ _ _ = Ok _ |- _ =>
             apply set_layer_Ok in H as [_ ->]
         end.
  match goal with
  | H : normalize_per_cell _ _ = Ok _ |- _ =>
      unfold normalize_per_cell in H; ok_steps H; injection H as <-
  end.
  match goal with
  | H : set_obs _ _ _ = Ok _ |- _ => apply set_obs_index in H as [Hn _]
  end.
  match goal with
  | H : subset_obs _ _ = Ok _ |- _ => apply subset_obs_Ok in H as [_ ->]
  end.
  eexists. unfold obs_names in *; simpl in *. by rewrite Hn.
Qed.

Lemma df_setitem_array_index (df df' : DataFrame) n1 n2 (a : ndarray) :
  df_setitem_array df n1 n2 a = Ok df' -> index df' = index df.
Proof.
  intros H. unfold df_setitem_array in H.
  destruct (Nat.eqb (ncols a) 2); [|done]. ok_steps H.
  apply df_setitem_Ok in H0 as [_ ->], H as [_ ->]. done.
Qed.

Lemma base_construction_obs_names (data : FigureSingleCellData) (s1 : AnnData) :
  base_construction data = Ok s1 -> obs_names s1 = obs_names (all_data data).
Proof.
  intros H. unfold base_construction in H. ok_steps H.
  unfold copy_program_times in H. ok_steps H.
  repeat match goal with
         | H : set_obs _ _ _ = Ok _ |- _ =>
             apply set_obs_index in H as [? _]
         end.
  unfold new_data_object in H0. ok_steps H0. injection H0 as <-.
  repeat match goal with
         | H : ad_AnnData _ _ _ = Ok _ |- _ =>
             apply ad_AnnData_Ok in H as (_ & _ & ->)
         | H : set_layer _ _ _ = Ok _ |- _ =>
             apply set_layer_Ok in H as [_ ->]
         | H : df_setitem_array _ _ _ _ = Ok _ |- _ =>
             apply df_setitem_array_index in H
         end.
  unfold obs_names in *; simpl in *. congruence.
Qed.

(** C1, as amended.  Let the observation identifiers of the full data set
    be unique, the experiment keys distinct, the decay products of
    different experiments disjoint, and let the products of every
    experiment be aligned with the object: identifiers of the object in
    the order of the object, one row per identifier, the column count of
    the object, the denoised product listing the identifiers of the decay
    product.  Then the loop of Step 4 succeeds, and in each of the layers
    [denoised], [rapamycin_velocity] and [cell_cycle_velocity] the row of
    an observation covered by an experiment is the row that observation
    has in the product of the experiment, while the row of an observation
    no experiment covers is still filled with NaN. *)
Theorem C1_row_merge_for_aligned_products
    (data : FigureSingleCellData) (s1 s3 : AnnData) :
  input_wf data ->
  NoDup (obs_names (all_data data)) ->
  base_construction data = Ok s1 ->
  layer_setup s1 = Ok s3 ->
  NoDup (expts data) ->
  experiments_aligned data (obs_names s3) (ncols (X s3)) (expts data) ->
  experiments_disjoint data (expts data) ->
  exists s4,
    merge_experiments data s3 (expts data) = Ok s4
    /\ obs_names s4 = obs_names s3
    /\ (forall name, name ∈ merged_layers -> is_Some (layers s4 !! name))
    /\ row_merge_claim data s4.
Proof.
  intros Hin Hnd H1 H3 Hks Hal Hdis.
  pose proof (base_construction_wf _ _ Hin H1) as W1.
  pose proof (layer_setup_wf _ _ W1 H3) as W3.
  assert (NoDup (obs_names s3)) as Hnd3.
  { destruct (layer_setup_obs_names _ _ H3) as [mask ->].
    apply NoDup_compress. by rewrite (base_construction_obs_names _ _ H1). }
  pose proof (layer_setup_layers _ _ H3) as Hnan.
  assert (layers_ready (obs_names s3) (ncols (X s3)) s3) as Hready.
  { split; [done|]. intros name Hname. eexists. split; [by apply Hnan|].
    rewrite shape_np_full. unfold shape. f_equal.
    symmetry. apply (wf_obs_index _ W3). }
  destruct (merge_experiments_rows data _ _ Hnd3 _ _ Hks Hal Hdis Hready)
    as (s4 & H4 & [Hnames Hready4] & HX & Hrows).
  exists s4. split_and!; try done.
  - intros name Hname. destruct (Hready4 name Hname) as (a & -> & _). by eexists.
  - intros name out_layer Hname Hout.
    destruct (Hrows name _ Hname (Hnan name Hname)) as (a' & Ha' & Hr).
    rewrite Hout in Ha'. injection Ha' as <-. rewrite Hnames. split.
    + intros k dd dn v r id Hk Hdd Hdn Hv Hid Hcov.
      destruct (Hr r id Hid) as [Hcovered _]. by eapply Hcovered.
    + intros r id Hid Hnone.
      destruct (Hr r id Hid) as [_ Hkeep]. rewrite (Hkeep Hnone), HX.
      unfold np_full; simpl. apply lookup_replicate_2.
      rewrite <- (wf_obs_index _ W3). by eapply lookup_lt_Some.
Qed.

Lemma scenario_aligned :
  experiments_aligned Examples.scenario (obs_names Examples.scenario_s3)
    (ncols (X Examples.scenario_s3)) (expts Examples.scenario).
Proof.
  intros k _. exists Examples.scenario_decay, Examples.scenario_denoised.
  split_and!; try done. constructor.
  - vm_compute; reflexivity.
  - done.
  - intros name [->|[->| ->]]%elem_of_merged_layers;
      eexists; (split; [vm_compute; reflexivity|vm_compute; reflexivity]).
Qed.

Lemma singleton_disjoint (data : FigureSingleCellData) (k : key) :
  experiments_disjoint data [k].
Proof.
  intros k1 k2 dd1 dd2 id ->%list_elem_of_singleton ->%list_elem_of_singleton.
  done.
Qed.

Lemma C1_witness :
  exists s4,
    merge_experiments Examples.scenario Examples.scenario_s3
      (expts Examples.scenario) = Ok s4
    /\ obs_names s4 = obs_names Examples.scenario_s3
    /\ (forall name, name ∈ merged_layers -> is_Some (layers s4 !! name))
    /\ row_merge_claim Examples.scenario s4.
Proof.
  apply (C1_row_merge_for_aligned_products Examples.scenario
           Examples.scenario_s1 Examples.scenario_s3).
  - exact scenario_input_wf.
  - apply (bool_decide_eq_true_1 _). vm_compute; reflexivity.
  - vm_compute; reflexivity.
  - vm_compute; reflexivity.
  - apply (bool_decide_eq_true_1 _). vm_compute; reflexivity.
  - exact scenario_aligned.
  - apply singleton_disjoint.
Defined.

(** The decay product lists cell1 before cell0; the mask selects both
    rows of the object and the rows are written in the order of the
    product, so the row of cell0 receives the row of cell1. *)
Lemma C1_counterexample :
  run_to_merge Examples.permuted = Ok Examples.permuted_merged
  /\ ~ row_merge_claim Examples.permuted Examples.permuted_merged.
Proof.
  split; [vm_compute; reflexivity|].
  intros Hclaim.
  destruct (Hclaim "rapamycin_velocity"
              (Examples.matrix 1 [[1]; [2]]%Z)) as [Hrow _].
  { apply elem_of_merged_layers. tauto. }
  { vm_compute; reflexivity. }
  destruct (Hrow (1, "WT")
              (Examples.pair_product ["cell1"; "cell0"]
                 (Examples.matrix 1 [[1]; [2]]%Z)
                 {[ "rapamycin_velocity" := Examples.matrix 1 [[1]; [2]]%Z;
                    "cell_cycle_velocity" := Examples.matrix 1 [[1]; [2]]%Z ]})
              (Examples.pair_product ["cell1"; "cell0"]
                 (Examples.matrix 1 [[1]; [2]]%Z) ∅)
              (Examples.matrix 1 [[1]; [2]]%Z) 0 "cell0") as [Heq _];
    try (vm_compute; reflexivity).
  - by left.
  - apply (bool_decide_eq_true_1 _). vm_compute; reflexivity.
  - vm_compute in Heq. discriminate.
Qed.

(* ================================================================== *)
(** * 27. Step 4: what the loop leaves alone *)
(* ================================================================== *)

Lemma layer_setitem_rows_frame (inf_data out : AnnData) name mask (v : ndarray) :
  layer_setitem_rows inf_data name mask v = Ok out ->
  X out = X inf_data /\ obs out = obs inf_data /\ var out = var inf_data
  /\ forall other, other <> name ->
       layers out !! other = layers inf_data !! other.
Proof.
  intros (a & a' & _ & _ & ->)%layer_setitem_rows_Ok. simpl.
  split_and!; try done. intros other Hne. by rewrite lookup_insert_ne.
Qed.

(** One turn of the loop changes the three merged layers only. *)
Lemma merge_experiment_frame (data : FigureSingleCellData)
    (inf_data out : AnnData) (k : key) :
  merge_experiment data inf_data k = Ok out ->
  X out = X inf_data /\ obs out = obs inf_data /\ var out = var inf_data
  /\ forall other, other ∉ merged_layers ->
       layers out !! other = layers inf_data !! other.
Proof.
  intros H. unfold merge_experiment in H. ok_steps H.
  match goal with
  | H1 : layer_setitem_rows inf_data _ _ _ = Ok ?a,
    H2 : layer_setitem_rows ?a _ _ _ = Ok ?b |- _ =>
      apply layer_setitem_rows_frame in H1 as (X1 & O1 & V1 & L1);
      apply layer_setitem_rows_frame in H2 as (X2 & O2 & V2 & L2)
  end.
  apply layer_setitem_rows_frame in H as (X3 & O3 & V3 & L3).
  split_and!; try congruence.
  intros other Hother. rewrite elem_of_merged_layers in Hother.
  rewrite L3, L2, L1; [done|intros ->; tauto..].
Qed.

Lemma merge_experiments_frame (data : FigureSingleCellData) ks :
  forall inf_data out,
    merge_experiments data inf_data ks = Ok out ->
    X out = X inf_data /\ obs out = obs inf_data /\ var out = var inf_data
    /\ forall other, other ∉ merged_layers ->
         layers out !! other = layers inf_data !! other.
Proof.
  induction ks as [|k ks IH]; intros inf_data out H; simpl in H.
  - by injection H as <-.
  - ok_steps H.
    apply merge_experiment_frame in H0 as (E1 & E2 & E3 & E4).
    apply IH in H as (F1 & F2 & F3 & F4).
    split_and!; try congruence.
    intros other Hother. by rewrite F4, E4.
Qed.

Lemma base_construction_decay_constants (data : FigureSingleCellData) (s1 : AnnData) :
  base_construction data = Ok s1 ->
  exists dc,
    layers (all_data data) !! "decay_constants" = Some dc
    /\ layers s1 !! "decay_constants" = Some dc.
Proof.
  intros H. unfold base_construction in H. ok_steps H.
  unfold copy_program_times in H. ok_steps H.
  unfold set_obs in *.
  repeat match goal with
         | H : mbind _ _ = Ok _ |- _ => ok_steps H; injection H as <-
         end.
  unfold new_data_object, get_layer in H0. ok_steps H0. injection H0 as <-.
  repeat match goal with
         | H : ad_AnnData _ _ _ = Ok _ |- _ =>
             apply ad_AnnData_Ok in H as (_ & _ & ->)
         | H : set_layer _ _ _ = Ok _ |- _ =>
             apply set_layer_Ok in H as [_ ->]
         | H : getitem (layers _) "decay_constants" = Ok _ |- _ =>
             apply getitem_Ok in H
         end.
  simpl. eexists. split; [eassumption|]. by rewrite lookup_insert_eq.
Qed.

Lemma not_merged_decay_constants : "decay_constants" ∉ merged_layers.
Proof. rewrite elem_of_merged_layers. intros [|[|]]; done. Qed.

(** C3, as amended.  The [decay_constants] layer of the object is the
    [decay_constants] layer of the full data set, installed once in
    Step 1 (line 52).  No turn of the loop of Step 4 assigns it, whatever
    decay constants the decay product of the experiment carries: it is
    the same before and after every turn and before and after the whole
    loop. *)
Theorem C3_decay_constants_installed_once_and_kept
    (data : FigureSingleCellData) (s1 s3 s4 : AnnData) :
  base_construction data = Ok s1 ->
  layer_setup s1 = Ok s3 ->
  merge_experiments data s3 (expts data) = Ok s4 ->
  (exists dc,
      layers (all_data data) !! "decay_constants" = Some dc
      /\ layers s1 !! "decay_constants" = Some dc)
  /\ layers s4 !! "decay_constants" = layers s3 !! "decay_constants"
  /\ (forall k inf_data out,
        merge_experiment data inf_data k = Ok out ->
        layers out !! "decay_constants" = layers inf_data !! "decay_constants").
Proof.
  intros H1 H3 H4. split_and!.
  - by apply base_construction_decay_constants.
  - apply merge_experiments_frame in H4 as (_ & _ & _ & Hl).
    apply Hl, not_merged_decay_constants.
  - intros k inf_data out Hm.
    apply merge_experiment_frame in Hm as (_ & _ & _ & Hl).
    apply Hl, not_merged_decay_constants.
Qed.

Lemma C3_witness :
  (exists dc,
      layers (all_data Examples.scenario) !! "decay_constants" = Some dc
      /\ layers Examples.scenario_s1 !! "decay_constants" = Some dc)
  /\ layers Examples.scenario_s4 !! "decay_constants"
     = layers Examples.scenario_s3 !! "decay_constants"
  /\ (forall k inf_data out,
        merge_experiment Examples.scenario inf_data k = Ok out ->
        layers out !! "decay_constants" = layers inf_data !! "decay_constants").
Proof.
  apply (C3_decay_constants_installed_once_and_kept Examples.scenario
           Examples.scenario_s1 Examples.scenario_s3 Examples.scenario_s4);
    vm_compute; reflexivity.
Defined.

(** The decay product carries decay constants of 2 for both observations;
    after the loop the layer of the object still holds 1 in both rows. *)
Lemma C3_counterexample :
  run_to_merge Examples.own_decay = Ok Examples.own_decay_merged
  /\ ~ decay_constants_merged Examples.own_decay Examples.own_decay_merged.
Proof.
  split; [vm_compute; reflexivity|].
  intros Hclaim.
  specialize (Hclaim (1, "WT")
    (Examples.pair_product ["cell0"; "cell1"] (Examples.matrix 1 [[1]; [2]]%Z)
       {[ "rapamycin_velocity" := Examples.matrix 1 [[1]; [2]]%Z;
          "cell_cycle_velocity" := Examples.matrix 1 [[1]; [2]]%Z;
          "decay_constants" := np_full (2, 1) F32.two ]})
    (np_full (2, 1) F32.two) (np_full (2, 1) F32.one) 0).
  assert (rows (np_full (2, 1) F32.one) !! 0
          <> rows (np_full (2, 1) F32.two)
               !! rank (isin (obs_names Examples.own_decay_merged)
                          ["cell0"; "cell1"]) 0) as Hne.
  { vm_compute. discriminate. }
  apply Hne, Hclaim; try (vm_compute; reflexivity). by left.
Qed.

(* ================================================================== *)
(** * 28. Step 4: the denoised rows *)
(* ================================================================== *)

Lemma merge_experiment_denoised (data : FigureSingleCellData)
    (inf_data out : AnnData) (k : key) (dd dn : AnnData) (den : ndarray) :
  decay_data data k = Ok dd -> denoised_data data k = Ok dn ->
  layers inf_data !! "denoised" = Some den ->
  merge_experiment data inf_data k = Ok out ->
  exists den',
    setitem_rows den (isin (obs_names inf_data) (obs_names dd)) (X dn) = Ok den'
    /\ layers out !! "denoised" = Some den'.
Proof.
  intros Hdd Hdn Hden H. unfold merge_experiment in H. ok_steps H.
  repeat match goal with
         | H1 : decay_data data k = Ok ?a |- _ =>
             rewrite Hdd in H1; injection H1 as <-
         | H1 : denoised_data data k = Ok ?a |- _ =>
             rewrite Hdn in H1; injection H1 as <-
         end.
  match goal with
  | H1 : layer_setitem_rows inf_data _ _ _ = Ok ?a,
    H2 : layer_setitem_rows ?a _ _ _ = Ok ?b |- _ =>
      apply layer_setitem_rows_Ok in H1 as (den0 & den1 & L1 & S1 & ->);
      apply layer_setitem_rows_frame in H2 as (_ & _ & _ & L2)
  end.
  apply layer_setitem_rows_frame in H as (_ & _ & _ & L3).
  rewrite Hden in L1. injection L1 as <-.
  exists den1. split; [done|].
  rewrite L3, L2 by done. simpl. by rewrite lookup_insert_eq.
Qed.

Lemma map_broadcast_row_id m (l : list (list float32)) :
  map (broadcast_row m m) l = l.
Proof.
  induction l as [|r l IH]; simpl; [done|].
  unfold broadcast_row at 1. by rewrite Nat.eqb_refl, IH.
Qed.

Lemma broadcast_to_Raise n m (v : ndarray) :
  nrows v <> n -> nrows v <> 1 -> broadcast_to n m v = Raise ValueError.
Proof.
  intros Hn H1. unfold broadcast_to.
  destruct (Nat.eqb_spec (nrows v) n); [done|].
  destruct (Nat.eqb_spec (nrows v) 1); [done|]. done.
Qed.

(** C10, as amended.  In one turn of the loop the denoised matrix of the
    experiment is written to the rows of the [denoised] layer that the
    identifiers of the decay product select, in the row order of the
    object: when it has one row per selected row, its row of rank [j]
    goes to the selected row of rank [j].  When the decay product is
    aligned with the object and the denoised product lists the same
    identifiers, every covered observation receives its own denoised row.
    The turn fails when the row count of the denoised matrix is neither
    the number of selected rows nor one; a denoised matrix of one row is
    broadcast to every selected row. *)
Theorem C10_denoised_written_through_the_decay_mask
    (data : FigureSingleCellData) (inf_data : AnnData) (k : key)
    (dd dn : AnnData) (den : ndarray) :
  decay_data data k = Ok dd ->
  denoised_data data k = Ok dn ->
  layers inf_data !! "denoised" = Some den ->
  let mask := isin (obs_names inf_data) (obs_names dd) in
  (forall out,
      merge_experiment data inf_data k = Ok out ->
      exists src,
        broadcast_to (count_true mask) (ncols den) (X dn) = Ok src
        /\ layers out !! "denoised"
           = Some (mk_ndarray (ncols den) (put_rows mask (rows den) src))
        /\ (shape (X dn) = (count_true mask, ncols den) ->
            forall r,
              put_rows mask (rows den) src !! r
              = match mask !! r with
                | Some true => rows (X dn) !! rank mask r
                | _ => rows den !! r
                end))
  /\ (forall out,
        merge_experiment data inf_data k = Ok out ->
        NoDup (obs_names inf_data) ->
        aligned (obs_names inf_data) (obs_names dd) ->
        obs_names dn = obs_names dd ->
        shape (X dn) = (length (obs_names dd), ncols den) ->
        exists den',
          layers out !! "denoised" = Some den'
          /\ forall r id,
               obs_names inf_data !! r = Some id -> id ∈ obs_names dn ->
               rows den' !! r = row_of (obs_names dn) (X dn) id
               /\ is_Some (rows den' !! r))
  /\ (nrows (X dn) <> count_true mask -> nrows (X dn) <> 1 ->
      raises (merge_experiment data inf_data k))
  /\ (nrows (X dn) = 1 -> ncols (X dn) = ncols den ->
      length (obs_names inf_data) = nrows den ->
      forall out row,
        merge_experiment data inf_data k = Ok out ->
        rows (X dn) !! 0 = Some row ->
        exists den',
          layers out !! "denoised" = Some den'
          /\ forall r, mask !! r = Some true -> rows den' !! r = Some row).
Proof.
  intros Hdd Hdn Hden mask. split_and!.
  - intros out Hout.
    destruct (merge_experiment_denoised _ _ _ _ _ _ _ Hdd Hdn Hden Hout)
      as (den' & Hset & Hlay).
    apply setitem_rows_Ok in Hset as (Hlen & src & Hsrc & ->).
    exists src. split_and!; try done.
    intros Hshape r. rewrite broadcast_to_exact in Hsrc by done.
    injection Hsrc as <-. apply put_rows_lookup; [done|].
    by injection Hshape as Hn _.
  - intros out Hout Hnd Hal Hids Hshape.
    destruct (merge_experiment_denoised _ _ _ _ _ _ _ Hdd Hdn Hden Hout)
      as (den' & Hset & Hlay).
    exists den'. split; [done|]. intros r id Hr Hid.
    apply setitem_rows_Ok in Hset as (Hlen & src & Hsrc & ->).
    subst mask. simpl.
    assert (count_true (isin (obs_names inf_data) (obs_names dd))
            = length (obs_names dd)) as Hcount
      by (by apply aligned_count).
    rewrite broadcast_to_exact in Hsrc by (by rewrite Hcount).
    injection Hsrc as <-.
    rewrite put_rows_lookup; [|done|].
    2:{ injection Hshape as Hn _. unfold nrows in Hn. congruence. }
    rewrite Hids in Hid |- *.
    assert (isin (obs_names inf_data) (obs_names dd) !! r = Some true) as ->.
    { apply isin_lookup_true. eauto. }
    destruct (aligned_row_of (obs_names inf_data) (obs_names dd) (X dn) r id)
      as [-> ?]; try done.
    by injection Hshape as Hn _.
  - intros Hn H1. unfold merge_experiment.
    rewrite Hdd; simpl. rewrite Hdn; simpl.
    unfold layer_setitem_rows, get_layer, getitem. rewrite Hden; simpl.
    unfold setitem_rows. fold mask.
    destruct (Nat.eqb (length mask) (nrows den)); simpl.
    + rewrite broadcast_to_Raise by done. simpl. by eexists.
    + by eexists.
  - intros H1 Hc Hnames out row Hout Hrow.
    destruct (merge_experiment_denoised _ _ _ _ _ _ _ Hdd Hdn Hden Hout)
      as (den' & Hset & Hlay).
    exists den'. split; [done|]. intros r Hr.
    apply setitem_rows_Ok in Hset as (Hlen & src & Hsrc & ->).
    fold mask in Hsrc, Hlen. simpl.
    assert (src = replicate (count_true mask) row) as ->.
    { unfold broadcast_to in Hsrc.
      rewrite H1, Hc, !Nat.eqb_refl, orb_true_r in Hsrc.
      cbn [andb] in Hsrc. injection Hsrc as <-.
      rewrite map_broadcast_row_id.
      unfold nrows in H1. destruct (rows (X dn)) as [|row' [|]] eqn:E;
        try done.
      simpl in Hrow. injection Hrow as ->.
      by destruct (count_true mask) as [|[|n]]. }
    subst mask.
    rewrite put_rows_lookup, Hr; [|done|by rewrite length_replicate].
    apply lookup_replicate_2.
    unfold rank. clear -Hr. revert r Hr.
    induction (isin (obs_names inf_data) (obs_names dd)) as [|b mask IH];
      intros [|r] Hr; simplify_eq/=; [lia|].
    specialize (IH r Hr). destruct b; simpl; lia.
Qed.

Lemma C10_witness :
  let data := Examples.scenario in
  let inf_data := Examples.scenario_s3 in
  let k : key := (1, "WT") in
  let dd := Examples.scenario_decay in
  let dn := Examples.scenario_denoised in
  let den := np_full (4, 3) F32.nan in
  let mask := isin (obs_names inf_data) (obs_names dd) in
  (forall out,
      merge_experiment data inf_data k = Ok out ->
      exists src,
        broadcast_to (count_true mask) (ncols den) (X dn) = Ok src
        /\ layers out !! "denoised"
           = Some (mk_ndarray (ncols den) (put_rows mask (rows den) src))
        /\ (shape (X dn) = (count_true mask, ncols den) ->
            forall r,
              put_rows mask (rows den) src !! r
              = match mask !! r with
                | Some true => rows (X dn) !! rank mask r
                | _ => rows den !! r
                end))
  /\ (forall out,
        merge_experiment data inf_data k = Ok out ->
        NoDup (obs_names inf_data) ->
        aligned (obs_names inf_data) (obs_names dd) ->
        obs_names dn = obs_names dd ->
        shape (X dn) = (length (obs_names dd), ncols den) ->
        exists den',
          layers out !! "denoised" = Some den'
          /\ forall r id,
               obs_names inf_data !! r = Some id -> id ∈ obs_names dn ->
               rows den' !! r = row_of (obs_names dn) (X dn) id
               /\ is_Some (rows den' !! r))
  /\ (nrows (X dn) <> count_true mask -> nrows (X dn) <> 1 ->
      raises (merge_experiment data inf_data k))
  /\ (nrows (X dn) = 1 -> ncols (X dn) = ncols den ->
      length (obs_names inf_data) = nrows den ->
      forall out row,
        merge_experiment data inf_data k = Ok out ->
        rows (X dn) !! 0 = Some row ->
        exists den',
          layers out !! "denoised" = Some den'
          /\ forall r, mask !! r = Some true -> rows den' !! r = Some row).
Proof.
  apply (C10_denoised_written_through_the_decay_mask Examples.scenario
           Examples.scenario_s3 (1, "WT") Examples.scenario_decay
           Examples.scenario_denoised (np_full (4, 3) F32.nan)).
  - reflexivity.
  - reflexivity.
  - vm_compute; reflexivity.
Defined.

(** The mask selects two rows and the denoised matrix has one row: the
    turn of the loop succeeds and writes that row to both rows. *)
Lemma C10_counterexample :
  merge_experiment Examples.single_row Examples.single_row_s3 (1, "WT")
  = Ok Examples.single_row_merged
  /\ ~ denoised_mismatch_fails Examples.single_row Examples.single_row_s3
         (1, "WT").
Proof.
  split; [vm_compute; reflexivity|].
  intros Hclaim.
  destruct (Hclaim _ _ eq_refl eq_refl) as [e He].
  - vm_compute. discriminate.
  - vm_compute in He. discriminate.
Qed.

(* ================================================================== *)
(** * 29. Step 1: the pseudotime columns *)
(* ================================================================== *)

Lemma program_time_column_fresh p :
  program_time_column p <> "UMAP_1" /\ program_time_column p <> "UMAP_2"
  /\ program_time_column p <> "PCA_1" /\ program_time_column p <> "PCA_2".
Proof. unfold program_time_column; simpl. split_and!; discriminate. Qed.

Lemma df_setitem_array_columns (df df' : DataFrame) n1 n2 (a : ndarray) other :
  df_setitem_array df n1 n2 a = Ok df' -> other <> n1 -> other <> n2 ->
  columns df' !! other = columns df !! other.
Proof.
  intros H Hn1 Hn2. unfold df_setitem_array in H.
  destruct (Nat.eqb (ncols a) 2); [|done]. ok_steps H.
  apply df_setitem_Ok in H0 as [_ ->], H as [_ ->]. simpl.
  by rewrite !lookup_insert_ne.
Qed.

(** The object of lines 45-55 has the pseudotime columns of the source
    and the index of the source. *)
Lemma new_data_object_obs (_all inf_data : AnnData) :
  new_data_object _all = Ok inf_data ->
  index (obs inf_data) = index (obs _all)
  /\ forall p, columns (obs inf_data) !! program_time_column p
               = columns (obs _all) !! program_time_column p.
Proof.
  intros H. unfold new_data_object in H. ok_steps H. injection H as <-.
  repeat match goal with
         | H : ad_AnnData _ _ _ = Ok _ |- _ =>
             apply ad_AnnData_Ok in H as (_ & _ & ->)
         | H : set_layer _ _ _ = Ok _ |- _ =>
             apply set_layer_Ok in H as [_ ->]
         end.
  simpl in *. split.
  - repeat match goal with
           | H : df_setitem_array _ _ _ _ = Ok _ |- _ =>
               apply df_setitem_array_index in H
           end.
    congruence.
  - intros p. destruct (program_time_column_fresh p) as (N1 & N2 & N3 & N4).
    repeat match goal with
           | H : df_setitem_array _ _ ?n _ = Ok _ |- _ =>
               apply (df_setitem_array_columns _ _ _ _ _ (program_time_column p))
                 in H; [|done..]
           end.
    congruence.
Qed.

Lemma set_obs_Ok (a a' : AnnData) name col :
  set_obs a name col = Ok a' <->
  length col = length (index (obs a))
  /\ a' = with_obs a (mk_DataFrame (index (obs a))
                        (<[name := col]> (columns (obs a)))).
Proof.
  unfold set_obs. split.
  - intros H. ok_steps H. injection H as <-.
    by apply df_setitem_Ok in H0 as [? ->].
  - intros [Hlen ->]. unfold df_setitem. apply Nat.eqb_eq in Hlen.
    by rewrite Hlen.
Qed.

Lemma raises_data_packager (data : FigureSingleCellData) :
  raises (base_construction data) -> raises (_data_packager data).
Proof. intros H. unfold _data_packager. by apply bind_Raise. Qed.

(** C7, as amended.  Step 1 reads the program ids from
    [uns["programs"]], looks the columns ['program_<id>_time'] up in the
    [obs] of the new object and copies them to [program_rapa_time] (first)
    and [program_cc_time] (second).  When the column of the rapamycin
    program is not a column of the source, or the column of the cell
    cycle program is neither a column of the source nor the column
    [program_rapa_time] written just before, Step 1 and with it the whole
    packager fail; the error is the KeyError of the failed lookup. *)
Theorem C7_program_time_columns
    (data : FigureSingleCellData) (programs : gmap string string)
    (rapa cc : string) :
  uns (all_data data) !! "programs" = Some programs ->
  programs !! "rapa_program" = Some rapa ->
  programs !! "cell_cycle_program" = Some cc ->
  let src := columns (obs (all_data data)) in
  (forall s1,
      base_construction data = Ok s1 ->
      exists col_r col_c,
        src !! program_time_column rapa = Some col_r
        /\ <["program_rapa_time" := col_r]> src !! program_time_column cc
           = Some col_c
        /\ columns (obs s1) !! "program_rapa_time" = Some col_r
        /\ columns (obs s1) !! "program_cc_time" = Some col_c)
  /\ (src !! program_time_column rapa = None ->
      raises (base_construction data)
      /\ raises (_data_packager data)
      /\ forall inf_data,
           new_data_object (all_data data) = Ok inf_data ->
           base_construction data
           = Raise (KeyError (program_time_column rapa)))
  /\ (src !! program_time_column cc = None ->
      program_time_column cc <> "program_rapa_time" ->
      raises (base_construction data)
      /\ raises (_data_packager data)
      /\ forall inf_data col_r,
           new_data_object (all_data data) = Ok inf_data ->
           src !! program_time_column rapa = Some col_r ->
           length col_r = length (index (obs (all_data data))) ->
           base_construction data
           = Raise (KeyError (program_time_column cc))).
Proof.
  intros Hp Hr Hc src.
  assert (forall inf_data,
             new_data_object (all_data data) = Ok inf_data ->
             base_construction data
             = (col ← df_getitem (obs inf_data) (program_time_column rapa);
                inf1 ← set_obs inf_data "program_rapa_time" col;
                col' ← df_getitem (obs inf1) (program_time_column cc);
                set_obs inf1 "program_cc_time" col')) as Hrun.
  { intros inf_data H0. unfold base_construction. rewrite H0; simpl.
    unfold copy_program_times, getitem. rewrite Hp; simpl. rewrite Hr; simpl.
    destruct (df_getitem _ _); simpl; [|done].
    destruct (set_obs _ _ _); simpl; [|done].
    by rewrite Hc. }
  assert (forall inf_data,
             new_data_object (all_data data) = Ok inf_data ->
             forall p, df_getitem (obs inf_data) (program_time_column p)
                       = getitem src (program_time_column p)) as Hget.
  { intros inf_data H0 p. unfold df_getitem, getitem.
    by destruct (new_data_object_obs _ _ H0) as [_ ->]. }
  split_and!.
  - intros s1 H1.
    assert (exists inf_data, new_data_object (all_data data) = Ok inf_data)
      as [inf_data H0].
    { unfold base_construction in H1. ok_steps H1. eauto. }
    rewrite (Hrun _ H0) in H1. ok_steps H1.
    match goal with
    | Ha : df_getitem (obs inf_data) _ = Ok ?col_r,
      Hb : set_obs inf_data _ _ = Ok ?inf1,
      Hc : df_getitem (obs ?inf1) _ = Ok ?col_c |- _ =>
        rewrite (Hget _ H0) in Ha; apply getitem_Ok in Ha;
        apply set_obs_Ok in Hb as [_ ->];
        unfold df_getitem in Hc; apply getitem_Ok in Hc; simpl in Hc;
        rename Ha into Hcol_r; rename Hc into Hcol_c;
        exists col_r, col_c
    end.
    apply set_obs_Ok in H1 as [_ ->].
    split_and!; try done.
    + destruct (decide (program_time_column cc = "program_rapa_time"))
        as [E|E].
      * rewrite E in *. by rewrite lookup_insert_eq in *.
      * rewrite lookup_insert_ne in * by done.
        destruct (new_data_object_obs _ _ H0) as [_ Hcols].
        by rewrite <- Hcols.
    + simpl. by rewrite lookup_insert_ne, lookup_insert_eq.
    + simpl. by rewrite lookup_insert_eq.
  - intros Hnone.
    assert (forall inf_data,
               new_data_object (all_data data) = Ok inf_data ->
               base_construction data
               = Raise (KeyError (program_time_column rapa))) as Hexact.
    { intros inf_data H0. rewrite (Hrun _ H0), (Hget _ H0).
      by rewrite (getitem_None _ _ Hnone). }
    assert (raises (base_construction data)) as Hraise.
    { destruct (new_data_object (all_data data)) as [inf_data|e] eqn:H0.
      - eexists. by apply (Hexact inf_data).
      - exists e. unfold base_construction. by rewrite H0. }
    split_and!; [done|by apply raises_data_packager|done].
  - intros Hnone Hne.
    assert (forall inf_data col,
               new_data_object (all_data data) = Ok inf_data ->
               forall inf1,
                 set_obs inf_data "program_rapa_time" col = Ok inf1 ->
                 df_getitem (obs inf1) (program_time_column cc)
                 = Raise (KeyError (program_time_column cc))) as Hcc.
    { intros inf_data col H0 inf1 [_ ->]%set_obs_Ok.
      unfold df_getitem. apply getitem_None. simpl.
      rewrite lookup_insert_ne by done.
      destruct (new_data_object_obs _ _ H0) as [_ ->]. done. }
    assert (raises (base_construction data)) as Hraise.
    { destruct (new_data_object (all_data data)) as [inf_data|e] eqn:H0.
      - rewrite (Hrun _ eq_refl).
        destruct (df_getitem (obs inf_data) (program_time_column rapa))
          as [col|e]; simpl; [|by eexists].
        destruct (set_obs inf_data "program_rapa_time" col) as [inf1|e] eqn:H1;
          simpl; [|by eexists].
        rewrite (Hcc _ _ eq_refl _ H1). by eexists.
      - exists e. unfold base_construction. by rewrite H0. }
    split_and!; [done|by apply raises_data_packager|].
    intros inf_data col_r H0 Hcol Hlen.
    rewrite (Hrun _ H0), (Hget _ H0). unfold getitem at 1. rewrite Hcol. simpl.
    destruct (new_data_object_obs _ _ H0) as [Hidx _].
    assert (set_obs inf_data "program_rapa_time" col_r
            = Ok (with_obs inf_data
                    (mk_DataFrame (index (obs inf_data))
                       (<["program_rapa_time" := col_r]>
                          (columns (obs inf_data)))))) as Hset.
    { apply set_obs_Ok. split; [congruence|done]. }
    rewrite Hset. cbn [mbind result_bind]. by rewrite (Hcc _ _ H0 _ Hset).
Qed.

Lemma C7_witness :
  let src := columns (obs (all_data Examples.scenario)) in
  (forall s1,
      base_construction Examples.scenario = Ok s1 ->
      exists col_r col_c,
        src !! program_time_column "0" = Some col_r
        /\ <["program_rapa_time" := col_r]> src !! program_time_column "1"
           = Some col_c
        /\ columns (obs s1) !! "program_rapa_time" = Some col_r
        /\ columns (obs s1) !! "program_cc_time" = Some col_c)
  /\ (src !! program_time_column "0" = None ->
      raises (base_construction Examples.scenario)
      /\ raises (_data_packager Examples.scenario)
      /\ forall inf_data,
           new_data_object (all_data Examples.scenario) = Ok inf_data ->
           base_construction Examples.scenario
           = Raise (KeyError (program_time_column "0")))
  /\ (src !! program_time_column "1" = None ->
      program_time_column "1" <> "program_rapa_time" ->
      raises (base_construction Examples.scenario)
      /\ raises (_data_packager Examples.scenario)
      /\ forall inf_data col_r,
           new_data_object (all_data Examples.scenario) = Ok inf_data ->
           src !! program_time_column "0" = Some col_r ->
           length col_r = length (index (obs (all_data Examples.scenario))) ->
           base_construction Examples.scenario
           = Raise (KeyError (program_time_column "1"))).
Proof.
  apply (C7_program_time_columns Examples.scenario
           {[ "rapa_program" := "0"; "cell_cycle_program" := "1" ]} "0" "1");
    vm_compute; reflexivity.
Defined.

(** The id "rapa" of the cell cycle program has no column in the source,
    yet Step 1 succeeds: line 58 has written [program_rapa_time] before
    line 61 looks it up. *)
Lemma C7_counterexample :
  base_construction Examples.rapa_named = Ok Examples.rapa_named_s1
  /\ ~ missing_program_column_fails Examples.rapa_named.
Proof.
  split; [vm_compute; reflexivity|].
  intros Hclaim.
  destruct (Hclaim {[ "rapa_program" := "0"; "cell_cycle_program" := "rapa" ]}
              "rapa") as [e He].
  - vm_compute; reflexivity.
  - right. vm_compute; reflexivity.
  - vm_compute; reflexivity.
  - vm_compute in He. discriminate.
Qed.

(* ================================================================== *)
(** * 30. binary32: sums of non-negative numbers *)
(* ================================================================== *)

Local Open Scope Z_scope.

Lemma digits2_pos_size (p : positive) : digits2_pos p = Pos.size p.
Proof. induction p; simpl; congruence. Qed.

Lemma digits2_pos_log2 (p : positive) :
  Zpos (digits2_pos p) = Z.log2 (Zpos p) + 1.
Proof.
  destruct p as [p|p|]; simpl; rewrite ?digits2_pos_size; lia.
Qed.

Lemma shr_1_div2 (mrs : shr_record) :
  0 <= shr_m mrs -> shr_m (shr_1 mrs) = Z.div2 (shr_m mrs).
Proof.
  destruct mrs as [m r s]; simpl.
  destruct m as [|[p|p|]|p]; simpl; try done; lia.
Qed.

Lemma iter_pos_shr_1 (p : positive) (mrs : shr_record) :
  0 <= shr_m mrs ->
  shr_m (SpecFloat.iter_pos shr_1 p mrs) = Z.shiftr (shr_m mrs) (Zpos p).
Proof.
  revert mrs; induction p as [p IH|p IH|]; intros mrs Hm; simpl.
  - assert (0 <= shr_m (shr_1 mrs)) as H1.
    { rewrite shr_1_div2 by done. by apply Z.div2_nonneg. }
    assert (0 <= shr_m (SpecFloat.iter_pos shr_1 p (shr_1 mrs))) as H2.
    { rewrite IH by done. by apply Z.shiftr_nonneg. }
    rewrite IH, IH, shr_1_div2 by done.
    rewrite Z.div2_spec, !Z.shiftr_shiftr by lia. f_equal. lia.
  - assert (0 <= shr_m (SpecFloat.iter_pos shr_1 p mrs)) as H2.
    { rewrite IH by done. by apply Z.shiftr_nonneg. }
    rewrite IH, IH by done. rewrite Z.shiftr_shiftr by lia. f_equal. lia.
  - rewrite shr_1_div2 by done. apply Z.div2_spec.
Qed.

Lemma shiftr_pos (m n : Z) : 0 < m -> 0 <= n <= Z.log2 m -> 0 < Z.shiftr m n.
Proof.
  intros Hm [Hn Hlog]. rewrite Z.shiftr_div_pow2 by done.
  apply Z.div_str_pos. split; [by apply Z.pow_pos_nonneg|].
  transitivity (2 ^ Z.log2 m); [by apply Z.pow_le_mono_r|].
  by apply Z.log2_spec.
Qed.

Lemma round_nearest_even_ge (m : Z) (l : location) : m <= round_nearest_even m l.
Proof.
  destruct l as [|[]]; simpl; try lia. destruct (Z.even m); lia.
Qed.

Lemma shr_fexp_above_emin (m e : Z) (l : location) :
  above_emin m e ->
  above_emin (shr_m (fst (shr_fexp F32.prec F32.emax m e l)))
             (snd (shr_fexp F32.prec F32.emax m e l)).
Proof.
  intros [Hm He]. unfold shr_fexp, shr.
  assert (Zdigits2 m = Z.log2 m + 1) as ->.
  { destruct m as [|p|p]; try lia. apply digits2_pos_log2. }
  assert (shr_m (shr_record_of_loc m l) = m) as Hrec.
  { by destruct l as [|[]]. }
  destruct (fexp F32.prec F32.emax (Z.log2 m + 1 + e) - e) as [|p|p] eqn:Hn;
    simpl; rewrite ?Hrec; try done.
  unfold fexp, emin, F32.prec, F32.emax in Hn.
  pose proof (Z.log2_nonneg m) as Hlog.
  rewrite iter_pos_shr_1 by (rewrite Hrec; lia). rewrite Hrec.
  assert (0 < Z.shiftr m (Zpos p)) as Hpos by (apply shiftr_pos; lia).
  split; [done|].
  pose proof (Z.log2_nonneg (Z.shiftr m (Zpos p))). lia.
Qed.

Lemma binary_round_aux_not_zero (s : bool) (m e : Z) (l : location) :
  above_emin m e ->
  is_zero (binary_round_aux F32.prec F32.emax s m e l) = false.
Proof.
  intros H0. unfold binary_round_aux.
  pose proof (shr_fexp_above_emin m e l H0) as H1.
  destruct (shr_fexp F32.prec F32.emax m e l) as [mrs1 e1].
  simpl in H1.
  assert (above_emin (round_nearest_even (shr_m mrs1) (loc_of_shr_record mrs1))
                     e1) as H1'.
  { destruct H1 as [Hm He].
    pose proof (round_nearest_even_ge (shr_m mrs1) (loc_of_shr_record mrs1)).
    split; [lia|].
    assert (Z.log2 (shr_m mrs1)
            <= Z.log2 (round_nearest_even (shr_m mrs1)
                         (loc_of_shr_record mrs1)))
      by (by apply Z.log2_le_mono).
    lia. }
  pose proof (shr_fexp_above_emin _ _ loc_Exact H1') as H2.
  destruct (shr_fexp F32.prec F32.emax _ e1 loc_Exact) as [mrs2 e2].
  simpl in H2. destruct H2 as [Hm _].
  destruct (shr_m mrs2) as [|p|p]; try lia.
  by destruct (e2 <=? F32.emax - F32.prec).
Qed.

Lemma Zpos_iter_xO (m d : positive) :
  Zpos (Pos.iter xO m d) = Zpos m * 2 ^ Zpos d.
Proof.
  rewrite <- Z.shiftl_mul_pow2 by lia. simpl.
  apply (Pos.iter_swap_gen _ _ Zpos xO (Z.mul 2)). done.
Qed.

Lemma shl_align_spec (m : positive) (e e' : Z) :
  Z.log2 (Zpos (fst (shl_align m e e'))) + snd (shl_align m e e')
  = Z.log2 (Zpos m) + e
  /\ (e' <= e -> snd (shl_align m e e') = e')
  /\ Zpos m <= Zpos (fst (shl_align m e e')).
Proof.
  unfold shl_align. destruct (e' - e) as [|d|d] eqn:Hd; cbn [fst snd].
  - split_and!; lia.
  - split_and!; lia.
  - rewrite Zpos_iter_xO. rewrite Z.log2_mul_pow2 by lia.
    assert (0 < 2 ^ Zpos d) by (apply Z.pow_pos_nonneg; lia).
    split_and!; try lia; nia.
Qed.

Lemma bounded_exponent (m : positive) (e : Z) :
  bounded F32.prec F32.emax m e = true -> -149 <= e.
Proof.
  unfold bounded, canonical_mantissa, fexp, emin, F32.prec, F32.emax.
  intros [H _]%andb_true_iff. apply Z.eqb_eq in H. lia.
Qed.

(** The sum of a positive number and a positive number in canonical form
    is not rounded to zero. *)
Lemma add_finite_not_zero (ma mx : positive) (ea ex : Z) :
  bounded F32.prec F32.emax mx ex = true ->
  is_zero (F32.add (S754_finite false ma ea) (S754_finite false mx ex)) = false.
Proof.
  intros Hb%bounded_exponent. unfold F32.add, SFadd. cbn [cond_Zopp].
  set (ez := Z.min ea ex).
  destruct (shl_align_spec ma ea ez) as (_ & _ & _).
  destruct (shl_align_spec mx ex ez) as (Hxl & Hxe & _).
  specialize (Hxe ltac:(lia)).
  set (pa := fst (shl_align ma ea ez)) in *.
  set (px := fst (shl_align mx ex ez)) in *.
  change (Zpos pa + Zpos px) with (Zpos (pa + px)).
  cbn [binary_normalize]. unfold binary_round.
  destruct (shl_align_spec (pa + px) ez
              (fexp F32.prec F32.emax (Zpos (digits2_pos (pa + px)) + ez)))
    as (Hl & _ & _).
  destruct (shl_align (pa + px) ez _) as [mz ez']. cbn [fst snd] in Hl.
  apply binary_round_aux_not_zero. split; [lia|].
  assert (Z.log2 (Zpos px) <= Z.log2 (Zpos (pa + px)))
    by (apply Z.log2_le_mono; lia).
  pose proof (Z.log2_nonneg (Zpos mx)). lia.
Qed.

Local Close Scope Z_scope.

Lemma nonneg_signless (x : float32) : F32.nonneg x = true -> signless x = true.
Proof. destruct x as [s|s| |s m e]; simpl; try done. by intros [? _]%andb_true_iff. Qed.

Lemma shr_1_nonneg (mrs : shr_record) :
  (0 <= shr_m mrs)%Z -> (0 <= shr_m (shr_1 mrs))%Z.
Proof. intros H. rewrite shr_1_div2 by done. by apply Z.div2_nonneg. Qed.

Lemma shr_fexp_nonneg (m e : Z) (l : location) :
  (0 <= m)%Z -> (0 <= shr_m (fst (shr_fexp F32.prec F32.emax m e l)))%Z.
Proof.
  intros Hm. unfold shr_fexp, shr.
  assert (shr_m (shr_record_of_loc m l) = m) as Hrec by (by destruct l as [|[]]).
  destruct (_ - e)%Z as [|p|p]; simpl; rewrite ?Hrec; try done.
  rewrite iter_pos_shr_1 by (by rewrite Hrec).
  rewrite Hrec. by apply Z.shiftr_nonneg.
Qed.

(** [binary_round_aux] keeps the sign it is given. *)
Lemma binary_round_aux_sign (s : bool) (m e : Z) (l : location) :
  (0 <= m)%Z ->
  signless (binary_round_aux F32.prec F32.emax s m e l) = negb s.
Proof.
  intros Hm. unfold binary_round_aux.
  pose proof (shr_fexp_nonneg m e l Hm) as H1.
  destruct (shr_fexp F32.prec F32.emax m e l) as [mrs1 e1]. simpl in H1.
  pose proof (round_nearest_even_ge (shr_m mrs1) (loc_of_shr_record mrs1)) as Hr.
  pose proof (shr_fexp_nonneg
                (round_nearest_even (shr_m mrs1) (loc_of_shr_record mrs1))
                e1 loc_Exact ltac:(lia)) as H2.
  destruct (shr_fexp F32.prec F32.emax _ e1 loc_Exact) as [mrs2 e2].
  simpl in H2.
  destruct (shr_m mrs2) as [|p|p]; try done; try lia.
  by destruct (Z.leb e2 (F32.emax - F32.prec)).
Qed.

(** Sums of numbers that are neither NaN nor negative are neither NaN nor
    negative. *)
Lemma add_signless (x y : float32) :
  signless x = true -> signless y = true -> signless (F32.add x y) = true.
Proof.
  destruct x as [[]|[]| |[] mx ex], y as [[]|[]| |[] my ey]; simpl; try done.
  intros _ _. unfold binary_round.
  destruct (shl_align _ _ _) as [mz ez'].
  by rewrite binary_round_aux_sign.
Qed.

(** A sum of two such numbers, the second in canonical form, is zero only
    when both are. *)
Lemma add_zero_inv (x y : float32) :
  signless x = true -> F32.nonneg y = true -> is_zero (F32.add x y) = true ->
  x = F32.zero /\ y = F32.zero.
Proof.
  destruct x as [[]|[]| |[] mx ex], y as [[]|[]| |[] my ey];
    intros Hx Hy Hz; try done.
  rewrite add_finite_not_zero in Hz; [done|].
  by apply andb_true_iff in Hy as [_ ?].
Qed.

Lemma row_total_signless_aux (row : list float32) (acc : float32) :
  signless acc = true -> Forall (fun x => F32.nonneg x = true) row ->
  signless (foldl F32.add acc row) = true.
Proof.
  revert acc; induction row as [|x row IH]; intros acc Hacc Hrow; simpl;
    [done|].
  inversion Hrow; subst. apply IH; [|done].
  apply add_signless; [done|by apply nonneg_signless].
Qed.

Lemma foldl_add_zero_inv (row : list float32) (acc : float32) :
  signless acc = true -> Forall (fun x => F32.nonneg x = true) row ->
  is_zero (foldl F32.add acc row) = true ->
  acc = F32.zero /\ Forall (fun x => x = F32.zero) row.
Proof.
  revert acc; induction row as [|x row IH]; intros acc Hacc Hrow Hz; simpl in *.
  - split; [|done]. by destruct acc as [[]| | |].
  - inversion Hrow; subst.
    destruct (IH (F32.add acc x)) as [Hsum Hrest]; try done.
    { apply add_signless; [done|by apply nonneg_signless]. }
    destruct (add_zero_inv acc x) as [-> ->]; try done.
    { by rewrite Hsum. }
    split; [done|]. by constructor.
Qed.

(* ================================================================== *)
(** * 31. binary32: what rounding returns *)
(* ================================================================== *)

Local Open Scope Z_scope.

Lemma shr_fexp_exponent (m e : Z) (l : location) :
  -149 <= snd (shr_fexp F32.prec F32.emax m e l).
Proof.
  unfold shr_fexp, shr.
  destruct (fexp F32.prec F32.emax (Zdigits2 m + e) - e) as [|p|p] eqn:Hn;
    cbn [snd]; unfold fexp, emin, F32.prec, F32.emax in *; lia.
Qed.

Lemma shr_fexp_mantissa (m e : Z) (l : location) :
  0 <= m -> shr_m (fst (shr_fexp F32.prec F32.emax m e l)) < 2 ^ 24.
Proof.
  intros Hm. unfold shr_fexp, shr.
  assert (shr_m (shr_record_of_loc m l) = m) as Hrec by (by destruct l as [|[]]).
  assert (0 <= Zdigits2 m /\ m < 2 ^ Zdigits2 m) as [Hd0 Hd].
  { destruct m as [|p|p]; [done| |lia]. cbn [Zdigits2].
    rewrite digits2_pos_log2. split; [pose proof (Z.log2_nonneg (Zpos p)); lia|].
    apply Z.log2_spec. lia. }
  destruct (fexp F32.prec F32.emax (Zdigits2 m + e) - e) as [|p|p] eqn:Hn;
    cbn [fst]; rewrite ?Hrec;
    unfold fexp, emin, F32.prec, F32.emax in Hn.
  - eapply Z.lt_le_trans; [exact Hd|]. apply Z.pow_le_mono_r; lia.
  - rewrite iter_pos_shr_1, Hrec, Z.shiftr_div_pow2 by lia.
    apply Z.div_lt_upper_bound; [by apply Z.pow_pos_nonneg|].
    rewrite <- Z.pow_add_r by lia.
    eapply Z.lt_le_trans; [exact Hd|]. apply Z.pow_le_mono_r; lia.
  - eapply Z.lt_le_trans; [exact Hd|]. apply Z.pow_le_mono_r; lia.
Qed.

(** Rounding returns a number within the range of the format. *)
Lemma binary_round_aux_in_range (s : bool) (m e : Z) (l : location) :
  0 <= m -> in_range (binary_round_aux F32.prec F32.emax s m e l) = true.
Proof.
  intros Hm. unfold binary_round_aux.
  pose proof (shr_fexp_nonneg m e l Hm) as H1.
  destruct (shr_fexp F32.prec F32.emax m e l) as [mrs1 e1]. simpl in H1.
  pose proof (round_nearest_even_ge (shr_m mrs1) (loc_of_shr_record mrs1)) as Hr.
  pose proof (shr_fexp_mantissa
                (round_nearest_even (shr_m mrs1) (loc_of_shr_record mrs1))
                e1 loc_Exact ltac:(lia)) as H2.
  destruct (shr_fexp F32.prec F32.emax _ e1 loc_Exact) as [mrs2 e2].
  simpl in H2.
  destruct (shr_m mrs2) as [|p|p]; try done.
  destruct (Z.leb_spec e2 (F32.emax - F32.prec)) as [He|He]; [|done].
  cbn. apply Z.leb_le. rewrite digits2_pos_log2.
  assert (Z.log2 (Zpos p) < 24) by (apply Z.log2_lt_pow2; lia).
  unfold F32.emax, F32.prec in He. lia.
Qed.

(** Rounding a positive number gives a number above zero. *)
Lemma binary_round_aux_above_zero (m e : Z) :
  above_emin m e ->
  above_zero (binary_round_aux F32.prec F32.emax false m e loc_Exact) = true.
Proof.
  intros H0. unfold binary_round_aux.
  pose proof (shr_fexp_above_emin m e loc_Exact H0) as H1.
  destruct (shr_fexp F32.prec F32.emax m e loc_Exact) as [mrs1 e1].
  simpl in H1.
  assert (above_emin (round_nearest_even (shr_m mrs1) (loc_of_shr_record mrs1))
                     e1) as H1'.
  { destruct H1 as [Hm He].
    pose proof (round_nearest_even_ge (shr_m mrs1) (loc_of_shr_record mrs1)).
    split; [lia|].
    assert (Z.log2 (shr_m mrs1)
            <= Z.log2 (round_nearest_even (shr_m mrs1)
                         (loc_of_shr_record mrs1)))
      by (by apply Z.log2_le_mono).
    lia. }
  pose proof (shr_fexp_above_emin _ _ loc_Exact H1') as H2.
  pose proof (shr_fexp_exponent
                (round_nearest_even (shr_m mrs1) (loc_of_shr_record mrs1))
                e1 loc_Exact) as He2.
  destruct (shr_fexp F32.prec F32.emax _ e1 loc_Exact) as [mrs2 e2].
  simpl in H2, He2. destruct H2 as [Hm _].
  destruct (shr_m mrs2) as [|p|p]; try lia.
  destruct (e2 <=? F32.emax - F32.prec); [|done].
  cbn. by apply Z.leb_le.
Qed.

Lemma add_finite_above_zero (ma mx : positive) (ea ex : Z) :
  -149 <= ex ->
  above_zero (F32.add (S754_finite false ma ea) (S754_finite false mx ex)) = true.
Proof.
  intros Hb. unfold F32.add, SFadd. cbn [cond_Zopp].
  set (ez := Z.min ea ex).
  destruct (shl_align_spec ma ea ez) as (_ & _ & _).
  destruct (shl_align_spec mx ex ez) as (Hxl & Hxe & _).
  specialize (Hxe ltac:(lia)).
  set (pa := fst (shl_align ma ea ez)) in *.
  set (px := fst (shl_align mx ex ez)) in *.
  change (Zpos pa + Zpos px) with (Zpos (pa + px)).
  cbn [binary_normalize]. unfold binary_round.
  destruct (shl_align_spec (pa + px) ez
              (fexp F32.prec F32.emax (Zpos (digits2_pos (pa + px)) + ez)))
    as (Hl & _ & _).
  destruct (shl_align (pa + px) ez _) as [mz ez']. cbn [fst snd] in Hl.
  apply binary_round_aux_above_zero. split; [lia|].
  assert (Z.log2 (Zpos px) <= Z.log2 (Zpos (pa + px)))
    by (apply Z.log2_le_mono; lia).
  pose proof (Z.log2_nonneg (Zpos mx)). lia.
Qed.

(** A sum of numbers within the range of the format is within it. *)
Lemma add_in_range (x y : float32) :
  in_range x = true -> in_range y = true -> in_range (F32.add x y) = true.
Proof.
  destruct x as [sx|sx| |sx mx ex], y as [sy|sy| |sy my ey]; intros Hx Hy;
    try done.
  - by destruct sx, sy.
  - by destruct sx, sy.
  - unfold F32.add, SFadd.
    destruct (_ + _) as [|p|p]; cbn [binary_normalize]; [done| |];
      unfold binary_round; destruct (shl_align _ _ _) as [mz ez];
      by apply binary_round_aux_in_range.
Qed.



Local Close Scope Z_scope.

(** The numbers above zero are closed under addition, in whatever order
    a sum is formed. *)
Lemma add_above_zero (x y : float32) :
  above_zero x = true -> above_zero y = true ->
  above_zero (F32.add x y) = true.
Proof.
  destruct x as [[]|[]| |[] mx ex], y as [[]|[]| |[] my ey]; try done.
  intros _ [_ Hy%Z.leb_le]%andb_true_iff. by apply add_finite_above_zero.
Qed.

Lemma add_zero_l (x : float32) : is_zero x = false -> F32.add F32.zero x = x.
Proof. by destruct x as [[]|[]| |[] m e]. Qed.

Lemma add_zero_r (x : float32) : is_zero x = false -> F32.add x F32.zero = x.
Proof. by destruct x as [[]|[]| |[] m e]. Qed.

Lemma above_zero_not_zero (x : float32) : above_zero x = true -> is_zero x = false.
Proof. by destruct x as [[]|[]| |[] m e]. Qed.

Lemma above_zero_signless (x : float32) : above_zero x = true -> signless x = true.
Proof. by destruct x as [[]|[]| |[] m e]. Qed.

Lemma positive_number_add (x y : float32) :
  positive_number x -> positive_number y -> positive_number (F32.add x y).
Proof.
  intros [] []. split; [by apply add_above_zero|by apply add_in_range].
Qed.

Lemma positive_number_add_zero_l (x : float32) :
  positive_number x -> positive_number (F32.add F32.zero x).
Proof. intros [H ?]. by rewrite add_zero_l by (by apply above_zero_not_zero). Qed.

Lemma positive_number_add_zero_r (x : float32) :
  positive_number x -> positive_number (F32.add x F32.zero).
Proof. intros [H ?]. by rewrite add_zero_r by (by apply above_zero_not_zero). Qed.

(* ================================================================== *)
(** * 32. The reduction of the stored entries of a row *)
(* ================================================================== *)

(** A property of numbers that addition preserves holds of the pairwise
    sum of a run of numbers that have it, whatever the order in which
    the run is added up. *)
Section Reduction.

Variable P : float32 -> Prop.
Hypothesis P_add : forall x y, P x -> P y -> P (F32.add x y).
Hypothesis P_zero_l : forall x, P x -> P (F32.add F32.zero x).

Lemma foldl_add_closed (l : list float32) (acc : float32) :
  P acc -> Forall P l -> P (foldl F32.add acc l).
Proof using P_add.
  revert acc. induction l as [|x l IH]; intros acc Hacc Hl; [done|].
  apply Forall_cons in Hl as [Hx Hl]. cbn [foldl].
  apply IH; [|done]. by apply P_add.
Qed.

Lemma foldl_add_zero_closed (l : list float32) :
  Forall P l -> 0 < length l -> P (foldl F32.add F32.zero l).
Proof using P_add P_zero_l.
  destruct l as [|x l]; [cbn; lia|]. intros [Hx Hl]%Forall_cons _.
  cbn [foldl]. apply foldl_add_closed; [by apply P_zero_l|done].
Qed.

Lemma accumulate8_closed (a : list float32) :
  forall r,
    length r = 8 -> Forall P r -> Forall P a ->
    length (accumulate8 r a) = 8 /\ Forall P (accumulate8 r a).
Proof using P_add.
  remember (length a) as n eqn:Hn. revert a Hn.
  induction (lt_wf n) as [n _ IH]. intros a -> r Hr Pr Pa.
  destruct a as [|x0 [|x1 [|x2 [|x3 [|x4 [|x5 [|x6 [|x7 a]]]]]]]]; try done.
  cbn [accumulate8].
  destruct r as [|r0 [|r1 [|r2 [|r3 [|r4 [|r5 [|r6 [|r7 [|]]]]]]]]]; try done.
  repeat match goal with
         | H : Forall _ (_ :: _) |- _ => apply Forall_cons in H as [? H]
         end.
  eapply (IH (length a)); [cbn; lia|done|done| |done].
  cbn [zip_with]. repeat apply Forall_cons_2; try apply Forall_nil_2;
    by apply P_add.
Qed.

Lemma combine8_closed (r : list float32) :
  length r = 8 -> Forall P r -> P (combine8 r).
Proof using P_add.
  intros Hr Pr.
  destruct r as [|r0 [|r1 [|r2 [|r3 [|r4 [|r5 [|r6 [|r7 [|]]]]]]]]]; try done.
  repeat match goal with
         | H : Forall _ (_ :: _) |- _ => apply Forall_cons in H as [? H]
         end.
  cbn [combine8]. repeat apply P_add; done.
Qed.

Lemma unrolled_sum_closed (a : list float32) :
  8 <= length a -> Forall P a -> P (unrolled_sum a).
Proof using P_add.
  intros Hn Pa. unfold unrolled_sum.
  destruct (accumulate8_closed (drop 8 a) (take 8 a)) as [Hl Pr].
  - rewrite length_take. lia.
  - by apply Forall_take.
  - by apply Forall_drop.
  - apply foldl_add_closed; [by apply combine8_closed|].
    by apply Forall_drop.
Qed.

Lemma pairwise_sum_rec_closed (fuel : nat) :
  forall a, Forall P a -> 0 < length a -> P (pairwise_sum_rec fuel a).
Proof using P_add P_zero_l.
  induction fuel as [|fuel IH]; intros a Pa Hn; cbn [pairwise_sum_rec].
  - destruct (Nat.ltb_spec (length a) 8); [by apply foldl_add_zero_closed|].
    destruct (Nat.leb (length a) 128); by apply unrolled_sum_closed.
  - destruct (Nat.ltb_spec (length a) 8); [by apply foldl_add_zero_closed|].
    destruct (Nat.leb_spec (length a) 128); [by apply unrolled_sum_closed|].
    assert (64 <= Nat.div (length a) 2) as H64
      by (apply Nat.div_le_lower_bound; lia).
    pose proof (Nat.mod_upper_bound (Nat.div (length a) 2) 8 ltac:(lia)) as Hmod.
    pose proof (Nat.div_lt (length a) 2 ltac:(lia) ltac:(lia)) as Hhalf.
    apply P_add; apply IH.
    + by apply Forall_take.
    + rewrite length_take. lia.
    + by apply Forall_drop.
    + rewrite length_drop. lia.
Qed.

End Reduction.

(** The fuel [pairwise_sum] provides is enough: more fuel gives the same
    sum, and a run of more than 128 numbers is the sum of the pairwise
    sums of its two parts. *)
Lemma pairwise_sum_rec_fuel (f1 : nat) :
  forall f2 a, length a <= f1 -> length a <= f2 ->
    pairwise_sum_rec f1 a = pairwise_sum_rec f2 a.
Proof.
  induction f1 as [|f1 IH]; intros f2 a H1 H2.
  - destruct a; [|cbn in H1; lia]. by destruct f2.
  - destruct f2 as [|f2]; [destruct a; [done|cbn in H2; lia]|].
    cbn [pairwise_sum_rec].
    destruct (Nat.ltb_spec (length a) 8); [done|].
    destruct (Nat.leb_spec (length a) 128); [done|].
    assert (64 <= Nat.div (length a) 2) as H64
      by (apply Nat.div_le_lower_bound; lia).
    pose proof (Nat.mod_upper_bound (Nat.div (length a) 2) 8 ltac:(lia)) as Hmod.
    pose proof (Nat.div_lt (length a) 2 ltac:(lia) ltac:(lia)) as Hhalf.
    f_equal; apply IH; rewrite ?length_take, ?length_drop; lia.
Qed.

Lemma pairwise_sum_split (a : list float32) :
  128 < length a ->
  let n2 := Nat.div (length a) 2 - Nat.modulo (Nat.div (length a) 2) 8 in
  pairwise_sum a
  = F32.add (pairwise_sum (take n2 a)) (pairwise_sum (drop n2 a)).
Proof.
  intros Hn n2. unfold pairwise_sum at 1.
  destruct (length a) as [|n] eqn:Hl; [lia|]. cbn [pairwise_sum_rec].
  rewrite Hl. fold n2.
  destruct (Nat.ltb_spec (S n) 8); [lia|].
  destruct (Nat.leb_spec (S n) 128); [lia|].
  assert (64 <= Nat.div (S n) 2) as H64
    by (apply Nat.div_le_lower_bound; lia).
  pose proof (Nat.mod_upper_bound (Nat.div (S n) 2) 8 ltac:(lia)) as Hmod.
  pose proof (Nat.div_lt (S n) 2 ltac:(lia) ltac:(lia)) as Hhalf.
  unfold pairwise_sum.
  f_equal; apply pairwise_sum_rec_fuel;
    rewrite ?length_take, ?length_drop; subst n2; lia.
Qed.

Lemma nonneg_in_range (x : float32) : F32.nonneg x = true -> in_range x = true.
Proof.
  destruct x as [[]|[]| |[] m e]; try done.
  intros [_ Hb]%andb_true_iff. cbn.
  unfold bounded, canonical_mantissa, fexp, emin, F32.prec, F32.emax in Hb.
  apply andb_true_iff in Hb as [H1%Z.eqb_eq H2%Z.leb_le].
  apply Z.leb_le. lia.
Qed.

Lemma stored_positive (row : list float32) :
  Forall (fun x => F32.nonneg x = true) row ->
  Forall positive_number (stored row).
Proof.
  unfold stored. induction 1 as [|x row Hx _ IH]; [constructor|].
  cbn [List.filter]. destruct (F32.eqb x F32.zero) eqn:E; cbn [negb]; [done|].
  constructor; [|done]. split; [|by apply nonneg_in_range].
  destruct x as [[]|[]| |[] m e]; try done.
  apply andb_true_iff in Hx as [_ Hb%bounded_exponent].
  cbn. by apply Z.leb_le.
Qed.

Lemma stored_nil (row : list float32) :
  Forall (fun x => F32.nonneg x = true) row -> stored row = [] ->
  Forall (fun x => x = F32.zero) row.
Proof.
  unfold stored. induction 1 as [|x row Hx _ IH]; [constructor|].
  cbn [List.filter]. destruct (F32.eqb x F32.zero) eqn:E; cbn [negb]; [|done].
  intros Hs. constructor; [|by apply IH].
  by destruct x as [[]|[]| |[] m e].
Qed.

(** The total of a row of non-negative numbers is zero when the row
    stores nothing, and a positive number otherwise. *)
Lemma row_total_cases (row : list float32) :
  Forall (fun x => F32.nonneg x = true) row ->
  (row_total row = F32.zero /\ Forall (fun x => x = F32.zero) row)
  \/ positive_number (row_total row).
Proof.
  intros Hrow. pose proof (stored_positive row Hrow) as Hs.
  unfold row_total. destruct (stored row) as [|x rest] eqn:E.
  - left. split; [done|]. by apply stored_nil.
  - right. apply Forall_cons in Hs as [Hx Hrest].
    destruct rest as [|y rest].
    + change (pairwise_sum []) with F32.zero.
      by apply positive_number_add_zero_r.
    + apply positive_number_add; [done|].
      unfold pairwise_sum. apply (pairwise_sum_rec_closed positive_number);
        [exact positive_number_add|exact positive_number_add_zero_l|done|].
      cbn; lia.
Qed.

(** The total of a row of non-negative numbers is neither NaN nor
    negative. *)
Lemma row_total_signless (row : list float32) :
  Forall (fun x => F32.nonneg x = true) row -> signless (row_total row) = true.
Proof.
  intros Hrow. destruct (row_total_cases row Hrow) as [[-> _]|[H _]]; [done|].
  by apply above_zero_signless.
Qed.



(** The total of the row 16777216, 1, 1 is 16777218: the entries after
    the first are added to each other before they are added to the
    first.  Adding the three entries one after the other would give
    16777216. *)
Lemma row_total_reduces_after_the_first :
  row_total [F32.of_Z 16777216; F32.of_Z 1; F32.of_Z 1] = F32.of_Z 16777218
  /\ foldl F32.add F32.zero [F32.of_Z 16777216; F32.of_Z 1; F32.of_Z 1]
     = F32.of_Z 16777216.
Proof. split; vm_compute; reflexivity. Qed.

(** A row of 200 ones goes through the split of the pairwise sum and
    through the eight partial sums of both parts. *)
Lemma row_total_of_a_long_row :
  row_total (replicate 200 F32.one) = F32.of_Z 200.
Proof. vm_compute; reflexivity. Qed.

(** An entry that is not stored is not scaled, whatever the scale. *)
Lemma inplace_row_scale_keeps_zeros :
  rows (inplace_row_scale (mk_ndarray 2 [[F32.zero; F32.one]; [F32.zero; F32.one]])
          [S754_infinity false; F32.nan])
  = [[F32.zero; S754_infinity false]; [F32.zero; F32.nan]].
Proof. vm_compute; reflexivity. Qed.

(* ================================================================== *)
(** * 33. Step 3: the normalization *)
(* ================================================================== *)

Lemma geb_zero_signless (t : float32) :
  signless t = true -> F32.geb t F32.zero = true.
Proof. by destruct t as [[]|[]| |[] m e]. Qed.

(** With [min_counts=0] and non-negative data the mask of [filter_cells]
    selects every row. *)
Lemma cell_subset_all (a : ndarray) :
  Forall (Forall (fun x => F32.nonneg x = true)) (rows a) ->
  Forall (fun b => b = true)
         (map (fun t => F32.geb t F32.zero) (sum_axis1 a)).
Proof.
  intros Hpos. unfold sum_axis1. rewrite map_map. apply Forall_map.
  eapply Forall_impl; [exact Hpos|]. intros row Hrow; simpl.
  by apply geb_zero_signless, row_total_signless.
Qed.

Lemma select_rows_all mask (a : ndarray) :
  length mask = nrows a -> Forall (fun b => b = true) mask ->
  select_rows mask a = a.
Proof.
  intros Hlen Hall. destruct a as [m rs]. unfold select_rows; simpl.
  by rewrite compress_all_true.
Qed.

Lemma fmap_fixed {A : Type} (f : A -> A) (m : gmap string A) :
  (forall i x, m !! i = Some x -> f x = x) -> f <$> m = m.
Proof.
  intros H. rewrite <- (map_fmap_id m) at 2. by apply map_fmap_ext.
Qed.

Lemma df_select_rows_all mask (df : DataFrame) :
  frame_wf df -> length mask = length (index df) ->
  Forall (fun b => b = true) mask -> df_select_rows mask df = df.
Proof.
  intros Hwf Hlen Hall. destruct df as [idx cols].
  unfold df_select_rows; simpl in *. f_equal.
  - by apply compress_all_true.
  - apply fmap_fixed. intros n col Hcol. apply compress_all_true; [|done].
    rewrite Hlen. symmetry. by apply (Hwf n).
Qed.

(** On non-negative data the normalization with [min_counts=0] returns
    the object with the stored entries of every row of [X] scaled and
    the row totals stored in [obs["n_counts"]]. *)
Lemma normalize_per_cell_exact (adata : AnnData) :
  store_wf adata ->
  Forall (Forall (fun x => F32.nonneg x = true)) (rows (X adata)) ->
  exists out,
    normalize_per_cell adata F32.zero = Ok out
    /\ X out = inplace_row_scale (X adata) (row_scales (sum_axis1 (X adata)))
    /\ obs out = mk_DataFrame (index (obs adata))
                   (<["n_counts" := VNum <$> sum_axis1 (X adata)]>
                      (columns (obs adata)))
    /\ var out = var adata
    /\ layers out = layers adata
    /\ uns out = uns adata.
Proof.
  intros Hwf Hpos. unfold normalize_per_cell.
  set (totals := sum_axis1 (X adata)).
  set (mask := map (fun t => F32.geb t F32.zero) totals).
  assert (length totals = nrows (X adata)) as Htot by apply length_sum_axis1.
  assert (length mask = nrows (X adata)) as Hmask
    by (unfold mask; by rewrite length_map).
  assert (Forall (fun b => b = true) mask) as Hall by (by apply cell_subset_all).
  set (o := mk_DataFrame (index (obs adata))
              (<["n_counts" := VNum <$> totals]> (columns (obs adata)))).
  assert (set_obs adata "n_counts" (VNum <$> totals) = Ok (with_obs adata o))
    as ->.
  { apply set_obs_Ok. split; [|done].
    rewrite length_fmap, Htot. symmetry. apply (wf_obs_index _ Hwf). }
  cbn [mbind result_bind].
  assert (store_wf (with_obs adata o)) as Hwf'.
  { apply store_wf_with_obs; [done| |done].
    unfold frame_wf, o; simpl. apply map_Forall_insert_2; [|apply (wf_obs _ Hwf)].
    rewrite length_fmap, Htot. symmetry. apply (wf_obs_index _ Hwf). }
  unfold subset_obs. cbn [X with_obs]. rewrite Hmask, Nat.eqb_refl.
  cbn [mbind result_bind]. eexists. split; [reflexivity|].
  cbn [X obs var layers uns with_X with_obs].
  rewrite (compress_all_true mask totals) by (first [congruence|done]).
  rewrite (select_rows_all mask (X adata)) by done.
  split_and!; try done.
  - apply df_select_rows_all; [apply (wf_obs _ Hwf')| |done].
    simpl. rewrite Hmask. symmetry. apply (wf_obs_index _ Hwf).
  - apply fmap_fixed. intros n l Hl.
    destruct (wf_layers _ Hwf _ _ Hl) as [[= Hn _] _].
    apply select_rows_all; [congruence|done].
Qed.

(** C9, as amended.  Called with [min_counts=0] on non-negative counts,
    the normalization of Step 3 drops no observation: [X] keeps its
    shape, the index of [obs], [var] and every layer (the counts layer
    among them) are unchanged, and so is every column of [obs] except
    [n_counts].  Besides the values of [X] it changes [obs]: the column
    [n_counts] is set to the row totals, each the reduction of the
    stored entries of its row ([sum_axis1]). *)
Theorem C9_normalization_keeps_every_observation (adata : AnnData) :
  store_wf adata ->
  Forall (Forall (fun x => F32.nonneg x = true)) (rows (X adata)) ->
  exists out,
    normalize_per_cell adata F32.zero = Ok out
    /\ shape (X out) = shape (X adata)
    /\ index (obs out) = index (obs adata)
    /\ columns (obs out) !! "n_counts" = Some (VNum <$> sum_axis1 (X adata))
    /\ (forall name, name <> "n_counts" ->
          columns (obs out) !! name = columns (obs adata) !! name)
    /\ var out = var adata
    /\ layers out = layers adata.
Proof.
  intros Hwf Hpos.
  destruct (normalize_per_cell_exact adata Hwf Hpos)
    as (out & Hout & HX & Hobs & Hvar & Hlay & _).
  exists out. rewrite HX, Hobs. split_and!; try done.
  - apply shape_inplace_row_scale.
    by rewrite length_row_scales, length_sum_axis1.
  - simpl. by rewrite lookup_insert_eq.
  - intros name Hne. simpl. by rewrite lookup_insert_ne.
Qed.

Lemma scenario_counts_nonneg :
  Forall (Forall (fun x => F32.nonneg x = true))
         (rows (X Examples.scenario_counts_set)).
Proof. apply (bool_decide_eq_true_1 _). vm_compute; reflexivity. Qed.

Lemma scenario_counts_set_wf : store_wf Examples.scenario_counts_set.
Proof.
  assert (store_wf Examples.scenario_s1) as W1.
  { apply (base_construction_wf Examples.scenario); [exact scenario_input_wf|].
    vm_compute; reflexivity. }
  assert (set_layer Examples.scenario_s1 "counts"
            (np_copy (X Examples.scenario_s1))
          = Ok Examples.scenario_counts_set) as H
    by (vm_compute; reflexivity).
  exact (set_layer_wf _ _ _ _ W1 (wf_X _ W1) H).
Qed.

Lemma C9_witness :
  exists out,
    normalize_per_cell Examples.scenario_counts_set F32.zero = Ok out
    /\ shape (X out) = shape (X Examples.scenario_counts_set)
    /\ index (obs out) = index (obs Examples.scenario_counts_set)
    /\ columns (obs out) !! "n_counts"
       = Some (VNum <$> sum_axis1 (X Examples.scenario_counts_set))
    /\ (forall name, name <> "n_counts" ->
          columns (obs out) !! name
          = columns (obs Examples.scenario_counts_set) !! name)
    /\ var out = var Examples.scenario_counts_set
    /\ layers out = layers Examples.scenario_counts_set.
Proof.
  apply (C9_normalization_keeps_every_observation Examples.scenario_counts_set).
  - exact scenario_counts_set_wf.
  - exact scenario_counts_nonneg.
Defined.

(** Before the normalization [obs] has no column [n_counts]; after it
    [obs] has one, holding the totals 3, 0, 4 and 3. *)
Lemma C9_counterexample :
  normalize_per_cell Examples.scenario_counts_set F32.zero
  = Ok Examples.scenario_normalized
  /\ ~ normalization_only_changes_X Examples.scenario_counts_set.
Proof.
  split; [vm_compute; reflexivity|].
  intros Hclaim.
  destruct (Hclaim Examples.scenario_normalized) as (_ & Hobs & _).
  { vm_compute; reflexivity. }
  apply (f_equal (fun o => columns o !! "n_counts")) in Hobs.
  vm_compute in Hobs. discriminate.
Qed.

(* ================================================================== *)
(** * 34. Step 3: rows without counts *)
(* ================================================================== *)










(** When more than half of the rows store nothing the median of the
    totals is zero: every total, the ones replaced by one among them, is
    divided by zero, the quotients are infinite and the scales zero.
    The rows that store nothing are returned as they were. *)
Lemma rows_of_zero_total_with_a_zero_median :
  let a := mk_ndarray 1 [[F32.zero]; [F32.zero]; [F32.of_Z 5]] in
  np_median (sum_axis1 a) = F32.zero
  /\ map (fun c => F32.div (guard_zero c) (np_median (sum_axis1 a)))
         (sum_axis1 a)
     = [S754_infinity false; S754_infinity false; S754_infinity false]
  /\ row_scales (sum_axis1 a) = [F32.zero; F32.zero; F32.zero]
  /\ rows (inplace_row_scale a (row_scales (sum_axis1 a)))
     = [[F32.zero]; [F32.zero]; [F32.zero]].
Proof. cbv zeta. split_and!; vm_compute; reflexivity. Qed.

(** Totals that overflow: two rows have the total [+inf], so the median
    is [+inf], their scales are NaN and the scale of the third row is
    [+inf].  The stored entries take these scales; the entries that are
    not stored stay zero, and the total of the second column is
    positive. *)
Lemma rows_with_overflowing_totals :
  let big := F32.of_Z (3 * 10 ^ 38) in
  let a := mk_ndarray 3 [[big; F32.zero; big]; [big; F32.zero; big];
                         [F32.zero; F32.one; F32.zero]] in
  let x := inplace_row_scale a (row_scales (sum_axis1 a)) in
  sum_axis1 a = [S754_infinity false; S754_infinity false; F32.one]
  /\ row_scales (sum_axis1 a) = [F32.nan; F32.nan; S754_infinity false]
  /\ rows x = [[F32.nan; F32.zero; F32.nan]; [F32.nan; F32.zero; F32.nan];
               [F32.zero; S754_infinity false; F32.zero]]
  /\ map (fun s => F32.gtb s F32.zero) (sum_axis0 x) = [false; true; false].
Proof. cbv zeta. split_and!; vm_compute; reflexivity. Qed.
(* ================================================================== *)
(** * 35. The stages in closed form *)
(* ================================================================== *)

Lemma column_slice_cols j k (a : ndarray) :
  j < k -> column j (slice_cols k a) = column j a.
Proof.
  intros Hj. unfold column, slice_cols; cbn [rows].
  induction (rows a) as [|row l IH]; [done|].
  cbn [map omap list_omap] in *. by rewrite IH, lookup_take_lt.
Qed.

Lemma df_setitem_array_Ok (df df' : DataFrame) n1 n2 (a : ndarray) :
  df_setitem_array df n1 n2 a = Ok df' <->
  ncols a = 2
  /\ length (column 0 a) = length (index df)
  /\ length (column 1 a) = length (index df)
  /\ df' = mk_DataFrame (index df)
             (<[n2 := VNum <$> column 1 a]>
                (<[n1 := VNum <$> column 0 a]> (columns df))).
Proof.
  unfold df_setitem_array. destruct (Nat.eqb_spec (ncols a) 2) as [E|E].
  - split.
    + intros H. ok_steps H.
      apply df_setitem_Ok in H0 as [L0 ->], H as [L1 ->].
      rewrite length_fmap in L0, L1. done.
    + intros (_ & L0 & L1 & ->).
      assert (df_setitem df n1 (VNum <$> column 0 a)
              = Ok (mk_DataFrame (index df)
                      (<[n1 := VNum <$> column 0 a]> (columns df)))) as ->.
      { apply df_setitem_Ok. by rewrite length_fmap. }
      cbn [mbind result_bind]. apply df_setitem_Ok. by rewrite length_fmap.
  - split; [done|]. by intros [? _].
Qed.

Lemma df_select_columns_lookup (df : DataFrame) names cols :
  df_select_columns df names = Ok cols ->
  forall n, cols !! n = if bool_decide (n ∈ names) then columns df !! n else None.
Proof.
  revert cols. induction names as [|m names IH]; intros cols H n.
  - injection H as <-. by rewrite lookup_empty.
  - cbn [df_select_columns] in H. ok_steps H. injection H as <-.
    apply getitem_Ok in H0. specialize (IH _ H1 n).
    destruct (decide (n = m)) as [->|Hne].
    + rewrite lookup_insert_eq, bool_decide_eq_true_2 by left. done.
    + rewrite lookup_insert_ne by done. rewrite IH.
      destruct (decide (n ∈ names)).
      * by rewrite !bool_decide_eq_true_2 by (try right; done).
      * rewrite !bool_decide_eq_false_2; [done| |done].
        by intros [?|?]%elem_of_cons.
Qed.

Lemma df_select_columns_None (df : DataFrame) names n :
  n ∈ names -> columns df !! n = None -> raises (df_select_columns df names).
Proof.
  intros Hin Hn. induction names as [|m names IH]; [by apply elem_of_nil in Hin|].
  cbn [df_select_columns]. unfold df_getitem.
  destruct (decide (n = m)) as [->|Hne].
  - rewrite (getitem_None _ _ Hn). by eexists.
  - apply elem_of_cons in Hin as [?|Hin]; [done|].
    destruct (getitem (columns df) m); [|by eexists].
    cbn [mbind result_bind]. apply bind_Raise. by apply IH.
Qed.

(** Lines 45-55. *)
Lemma new_data_object_Ok (_all inf_data : AnnData) :
  new_data_object _all = Ok inf_data ->
  exists counts cols dc umap pca,
    layers _all !! "counts" = Some counts
    /\ df_select_columns (var _all) var_columns = Ok cols
    /\ layers _all !! "decay_constants" = Some dc
    /\ obsm _all !! "X_umap" = Some umap
    /\ obsm _all !! "X_pca" = Some pca
    /\ length (index (obs _all)) = nrows counts
    /\ length (index (var _all)) = ncols counts
    /\ shape dc = shape counts
    /\ 2 <= ncols umap /\ 2 <= ncols pca
    /\ inf_data
       = mk_AnnData counts
           (mk_DataFrame (index (obs _all))
              (embedding_columns umap pca (columns (obs _all))))
           (mk_DataFrame (index (var _all)) cols)
           (<["decay_constants" := dc]> ∅) ∅ ∅.
Proof.
  intros H. unfold new_data_object in H. ok_steps H. injection H as <-.
  unfold get_layer in *.
  repeat match goal with
         | H : getitem _ _ = Ok _ |- _ => apply getitem_Ok in H
         end.
  match goal with
  | H : df_select _ _ = Ok _ |- _ =>
      unfold df_select in H; ok_steps H; injection H as <-
  end.
  match goal with
  | H : ad_AnnData _ _ _ = Ok _ |- _ => apply ad_AnnData_Ok in H as (L1 & L2 & ->)
  end.
  match goal with
  | H : set_layer _ _ _ = Ok _ |- _ => apply set_layer_Ok in H as [Hs ->]
  end.
  repeat match goal with
         | H : df_setitem_array _ _ _ _ = Ok _ |- _ =>
             apply df_setitem_array_Ok in H as (? & _ & _ & ->)
         end.
  cbn [slice_cols ncols] in *.
  eexists _, _, _, _, _. split_and!; try eassumption; try done; lia.
Qed.

(** Lines 57-63. *)
Lemma copy_program_times_Ok (_all inf_data out : AnnData) :
  copy_program_times _all inf_data = Ok out ->
  exists programs rapa cc col_r col_c,
    uns _all !! "programs" = Some programs
    /\ programs !! "rapa_program" = Some rapa
    /\ programs !! "cell_cycle_program" = Some cc
    /\ columns (obs inf_data) !! program_time_column rapa = Some col_r
    /\ <["program_rapa_time" := col_r]> (columns (obs inf_data))
         !! program_time_column cc = Some col_c
    /\ out = with_obs inf_data
               (mk_DataFrame (index (obs inf_data))
                  (<["program_cc_time" := col_c]>
                     (<["program_rapa_time" := col_r]> (columns (obs inf_data))))).
Proof.
  intros H. unfold copy_program_times in H. ok_steps H.
  unfold df_getitem in *.
  repeat match goal with
         | H : getitem _ _ = Ok _ |- _ => apply getitem_Ok in H
         end.
  apply set_obs_Ok in H as [_ ->].
  match goal with
  | H : set_obs _ _ _ = Ok _ |- _ => apply set_obs_Ok in H as [_ ->]
  end.
  cbn in *.
  repeat match goal with
         | H1 : ?m !! ?k = Some ?x, H2 : ?m !! ?k = Some ?y |- _ =>
             assert (x = y) by congruence; subst y; clear H2
         end.
  eexists _, _, _, _, _. split_and!; try eassumption. done.
Qed.

(** Step 1. *)
Lemma base_construction_Ok (data : FigureSingleCellData) (s1 : AnnData) :
  base_construction data = Ok s1 ->
  exists counts cols dc umap pca col_r col_c,
    layers (all_data data) !! "counts" = Some counts
    /\ df_select_columns (var (all_data data)) var_columns = Ok cols
    /\ layers (all_data data) !! "decay_constants" = Some dc
    /\ obsm (all_data data) !! "X_umap" = Some umap
    /\ obsm (all_data data) !! "X_pca" = Some pca
    /\ length (index (obs (all_data data))) = nrows counts
    /\ length (index (var (all_data data))) = ncols counts
    /\ 2 <= ncols umap /\ 2 <= ncols pca
    /\ s1 = mk_AnnData counts
              (mk_DataFrame (index (obs (all_data data)))
                 (<["program_cc_time" := col_c]>
                    (<["program_rapa_time" := col_r]>
                       (embedding_columns umap pca
                          (columns (obs (all_data data)))))))
              (mk_DataFrame (index (var (all_data data))) cols)
              (<["decay_constants" := dc]> ∅) ∅ ∅.
Proof.
  intros H. unfold base_construction in H. ok_steps H.
  apply new_data_object_Ok in H0
    as (counts & cols & dc & umap & pca & ? & ? & ? & ? & ? & ? & ? & ? & ? & ? & ->).
  apply copy_program_times_Ok in H
    as (programs & rapa & cc & col_r & col_c & _ & _ & _ & _ & _ & ->).
  cbn. eexists counts, cols, dc, umap, pca, col_r, col_c. split_and!; done.
Qed.

(** Step 3. *)
Lemma layer_setup_Ok (s1 s3 : AnnData) :
  layer_setup s1 = Ok s3 ->
  let totals := sum_axis1 (X s1) in
  let kept := counted totals in
  let x := inplace_row_scale (select_rows kept (X s1))
             (row_scales (compress kept totals)) in
  s3 = mk_AnnData x
         (df_select_rows kept
            (mk_DataFrame (index (obs s1))
               (<["n_counts" := VNum <$> totals]> (columns (obs s1)))))
         (var s1)
         (<["denoised" := np_full (shape x) F32.nan]>
            (<["cell_cycle_velocity" := np_full (shape x) F32.nan]>
               (<["rapamycin_velocity" := np_full (shape x) F32.nan]>
                  (select_rows kept <$> <["counts" := X s1]> (layers s1)))))
         (select_rows kept <$> obsm s1) (uns s1).
Proof.
  intros H. unfold layer_setup in H. ok_steps H.
  apply set_layer_Ok in H as [_ ->].
  repeat match goal with
         | H : set_layer _ _ _ = Ok _ |- _ => apply set_layer_Ok in H as [_ ->]
         end.
  match goal with
  | H : normalize_per_cell _ _ = Ok _ |- _ =>
      unfold normalize_per_cell in H; ok_steps H; injection H as <-
  end.
  match goal with
  | H : subset_obs _ _ = Ok _ |- _ => apply subset_obs_Ok in H as [_ ->]
  end.
  match goal with
  | H : set_obs _ _ _ = Ok _ |- _ => apply set_obs_Ok in H as [_ ->]
  end.
  reflexivity.
Qed.

(** Step 5. *)
Lemma wildtype_subset_Ok (s s' : AnnData) :
  wildtype_subset s = Ok s' <->
  exists gene,
    columns (obs s) !! "Gene" = Some gene
    /\ length gene = nrows (X s)
    /\ s' = mk_AnnData (select_rows (wild_type gene) (X s))
              (df_select_rows (wild_type gene) (obs s)) (var s)
              (select_rows (wild_type gene) <$> layers s)
              (select_rows (wild_type gene) <$> obsm s) (uns s).
Proof.
  unfold wildtype_subset, df_getitem. split.
  - intros H. ok_steps H. apply getitem_Ok in H0.
    apply subset_obs_Ok in H as [L ->]. rewrite length_map in L.
    by exists a.
  - intros (gene & Hg & L & ->). apply getitem_Ok in Hg. rewrite Hg.
    cbn [mbind result_bind]. apply subset_obs_Ok. by rewrite length_map.
Qed.

(** Step 6. *)
Lemma transcription_layers_Ok (s s' : AnnData) :
  transcription_layers s = Ok s' ->
  exists t1 t2,
    s' = with_layers s (<["cell_cycle_transcription" := t2]>
                          (<["rapamycin_transcription" := t1]> (layers s))).
Proof.
  intros H. unfold transcription_layers in H. ok_steps H.
  apply transcription_layer_spec in H0
    as (t1 & ? & ? & ? & _ & _ & _ & _ & _ & _ & _ & _ & ->); [|done..].
  apply transcription_layer_spec in H
    as (t2 & ? & ? & ? & _ & _ & _ & _ & _ & _ & _ & _ & ->); [|done..].
  by exists t1, t2.
Qed.

Lemma forallb_id_all mask :
  forallb id mask = true -> Forall (fun b => b = true) mask.
Proof.
  induction mask as [|[] mask IH]; cbn; [constructor| |discriminate].
  intros H. constructor; auto.
Qed.

Lemma select_cols_all mask (a : ndarray) :
  rectangular a -> length mask = ncols a -> forallb id mask = true ->
  select_cols mask a = a.
Proof.
  intros Hr Hl Hall%forallb_id_all.
  destruct a as [m rs]. unfold select_cols, rectangular in *; cbn in *. f_equal.
  - rewrite count_true_all_true by done. done.
  - induction Hr as [|r rs Hrl _ IH]; [done|]. cbn [map]. f_equal; [|done].
    apply compress_all_true; [congruence|done].
Qed.

(** Step 7 on a well-formed object: the columns of the mask, in [X], in
    [var] and in every layer. *)
Lemma trim_features_Ok (s out : AnnData) :
  store_wf s -> trim_features s = Ok out ->
  out = mk_AnnData (select_cols (has_expression s) (X s)) (obs s)
          (df_select_rows (has_expression s) (var s))
          (select_cols (has_expression s) <$> layers s) (obsm s) (uns s).
Proof.
  intros Hwf H. unfold trim_features in H.
  assert (length (has_expression s) = ncols (X s)) as Hl.
  { unfold has_expression. rewrite length_map. apply length_sum_axis0, Hwf. }
  destruct (forallb id (has_expression s)) eqn:Hall.
  - injection H as <-. destruct s as [x o v ls om un]. cbn in *. f_equal.
    + symmetry. apply select_cols_all; [apply Hwf|done..].
    + symmetry. apply df_select_rows_all; [apply Hwf| |].
      * rewrite Hl. symmetry. apply Hwf.
      * by apply forallb_id_all.
    + symmetry. apply fmap_fixed. intros i l Hi.
      destruct (wf_layers _ Hwf i l Hi) as [Hs Hr]. cbn in Hs.
      apply select_cols_all; [done| |done].
      rewrite Hl. by injection Hs.
  - by apply subset_var_Ok in H as [_ ->].
Qed.
(* ================================================================== *)
(** * 36. The names of the returned object *)
(* ================================================================== *)

Lemma layer_setitem_rows_dom (inf_data out : AnnData) name mask (v : ndarray) :
  layer_setitem_rows inf_data name mask v = Ok out ->
  dom (layers out) = dom (layers inf_data).
Proof.
  intros (a & a' & Ha & _ & ->)%layer_setitem_rows_Ok. cbn.
  apply dom_insert_lookup_L. by exists a.
Qed.

Lemma merge_experiment_dom (data : FigureSingleCellData)
    (inf_data out : AnnData) (k : key) :
  merge_experiment data inf_data k = Ok out ->
  dom (layers out) = dom (layers inf_data).
Proof.
  intros H. unfold merge_experiment in H. ok_steps H.
  apply layer_setitem_rows_dom in H.
  repeat match goal with
         | H : layer_setitem_rows _ _ _ _ = Ok _ |- _ =>
             apply layer_setitem_rows_dom in H
         end.
  congruence.
Qed.

Lemma merge_experiments_dom (data : FigureSingleCellData) ks :
  forall inf_data out,
    merge_experiments data inf_data ks = Ok out ->
    dom (layers out) = dom (layers inf_data).
Proof.
  induction ks as [|k ks IH]; intros inf_data out H.
  - by injection H as <-.
  - cbn [merge_experiments] in H. ok_steps H.
    apply merge_experiment_dom in H0. apply IH in H. congruence.
Qed.

(** Step 7 changes neither the names of the layers nor [obs]. *)
Lemma trim_features_names (s out : AnnData) :
  trim_features s = Ok out ->
  dom (layers out) = dom (layers s) /\ obs out = obs s.
Proof.
  intros H. unfold trim_features in H.
  destruct (forallb id (has_expression s)).
  - by injection H as <-.
  - apply subset_var_Ok in H as [_ ->]. cbn. by rewrite dom_fmap_L.
Qed.

Lemma data_packager_layers_dom (data : FigureSingleCellData) (out : AnnData) :
  _data_packager data = Ok out ->
  forall name, is_Some (layers out !! name) <-> name ∈ output_layers.
Proof.
  intros (s1 & s3 & s4 & s5 & s6 & H1 & H3 & H4 & H5 & H6 & H7)%data_packager_stages
         name.
  apply base_construction_Ok in H1
    as (counts & cols & dc & umap & pca & col_r & col_c & _ & _ & _ & _ & _ & _ & _ & _ & _ & ->).
  apply layer_setup_Ok in H3. cbn in H3.
  apply merge_experiments_dom in H4.
  apply wildtype_subset_Ok in H5 as (gene & _ & _ & ->).
  apply transcription_layers_Ok in H6 as (t1 & t2 & ->).
  apply trim_features_names in H7 as [H7 _]. cbn in H7.
  rewrite <- elem_of_dom, H7.
  rewrite !dom_insert_L, dom_fmap_L, H4, H3. cbn.
  rewrite !dom_insert_L, dom_fmap_L, !dom_insert_L, dom_empty_L.
  clear. unfold output_layers.
  rewrite !elem_of_union, !elem_of_singleton, elem_of_empty.
  rewrite !elem_of_cons, elem_of_nil. tauto.
Qed.

Lemma data_packager_obs_dom (data : FigureSingleCellData) (out : AnnData) :
  _data_packager data = Ok out ->
  forall name,
    is_Some (columns (obs out) !! name) <->
    name ∈ written_obs_columns
    \/ is_Some (columns (obs (all_data data)) !! name).
Proof.
  intros (s1 & s3 & s4 & s5 & s6 & H1 & H3 & H4 & H5 & H6 & H7)%data_packager_stages
         name.
  apply base_construction_Ok in H1
    as (counts & cols & dc & umap & pca & col_r & col_c & _ & _ & _ & _ & _ & _ & _ & _ & _ & ->).
  apply layer_setup_Ok in H3. cbn in H3.
  apply merge_experiments_frame in H4 as (_ & H4 & _).
  apply wildtype_subset_Ok in H5 as (gene & _ & _ & ->).
  apply transcription_layers_Ok in H6 as (t1 & t2 & ->).
  apply trim_features_names in H7 as [_ H7]. cbn in H7.
  rewrite H7, H4, H3. cbn. unfold embedding_columns.
  rewrite <- !elem_of_dom, !dom_fmap_L, !dom_insert_L.
  clear. unfold written_obs_columns.
  rewrite !elem_of_union, !elem_of_singleton, elem_of_dom.
  rewrite !elem_of_cons, elem_of_nil. tauto.
Qed.

(** X2.  The object the packager returns has exactly seven layers:
    [counts], [decay_constants], [rapamycin_velocity],
    [cell_cycle_velocity], [denoised], [rapamycin_transcription] and
    [cell_cycle_transcription], each of the shape of [X].  No layer of
    the full data set other than [counts] and [decay_constants] reaches
    the result. *)
Theorem returned_layers_are_the_seven_named (data : FigureSingleCellData)
    (out : AnnData) :
  input_wf data ->
  _data_packager data = Ok out ->
  (forall name, is_Some (layers out !! name) <-> name ∈ output_layers)
  /\ (forall name l, layers out !! name = Some l -> shape l = shape (X out)).
Proof.
  intros Hin Hrun. split.
  - by apply data_packager_layers_dom with data.
  - intros name l Hl. pose proof (data_packager_wf _ _ Hin Hrun) as W.
    by destruct (wf_layers _ W _ _ Hl).
Qed.

Lemma returned_layers_witness :
  (forall name,
      is_Some (layers Examples.scenario_out !! name) <-> name ∈ output_layers)
  /\ (forall name l, layers Examples.scenario_out !! name = Some l ->
                     shape l = shape (X Examples.scenario_out)).
Proof.
  exact (returned_layers_are_the_seven_named Examples.scenario
           Examples.scenario_out scenario_input_wf scenario_runs).
Defined.

(** X4.  The [obs] table of the returned object has the columns of the
    [obs] table of the full data set and the seven columns the packager
    writes: the two UMAP and the two PCA coordinates, the two program
    times, and the [n_counts] column of the normalization. *)
Theorem returned_obs_columns (data : FigureSingleCellData) (out : AnnData) :
  _data_packager data = Ok out ->
  (forall name, name ∈ written_obs_columns ->
     is_Some (columns (obs out) !! name))
  /\ (forall name, name ∉ written_obs_columns ->
        (is_Some (columns (obs out) !! name)
         <-> is_Some (columns (obs (all_data data)) !! name))).
Proof.
  intros Hrun. pose proof (data_packager_obs_dom _ _ Hrun) as Hdom. split.
  - intros name Hname. apply Hdom. by left.
  - intros name Hname. rewrite Hdom. tauto.
Qed.

Lemma returned_obs_columns_witness :
  (forall name, name ∈ written_obs_columns ->
     is_Some (columns (obs Examples.scenario_out) !! name))
  /\ (forall name, name ∉ written_obs_columns ->
        (is_Some (columns (obs Examples.scenario_out) !! name)
         <-> is_Some (columns (obs (all_data Examples.scenario)) !! name))).
Proof.
  exact (returned_obs_columns Examples.scenario Examples.scenario_out
           scenario_runs).
Defined.
(* ================================================================== *)
(** * 37. The returned object in terms of the full data set *)
(* ================================================================== *)

Lemma stages_wf (data : FigureSingleCellData) (s1 s3 s4 s5 s6 : AnnData) :
  input_wf data ->
  base_construction data = Ok s1 ->
  layer_setup s1 = Ok s3 ->
  merge_experiments data s3 (expts data) = Ok s4 ->
  wildtype_subset s4 = Ok s5 ->
  transcription_layers s5 = Ok s6 ->
  store_wf s1 /\ store_wf s3 /\ store_wf s4 /\ store_wf s5 /\ store_wf s6.
Proof.
  intros Hin H1 H3 H4 H5 H6.
  assert (store_wf s1) as W1 by eauto using base_construction_wf.
  assert (store_wf s3) as W3 by eauto using layer_setup_wf.
  assert (store_wf s4) as W4 by eauto using merge_experiments_wf.
  assert (store_wf s5) as W5 by eauto using wildtype_subset_wf.
  assert (store_wf s6) as W6 by eauto using transcription_layers_wf.
  done.
Qed.

(** What Steps 3 to 6 leave alone. *)
Lemma stages_frame (data : FigureSingleCellData) (s1 s3 s4 s5 s6 : AnnData) :
  layer_setup s1 = Ok s3 ->
  merge_experiments data s3 (expts data) = Ok s4 ->
  wildtype_subset s4 = Ok s5 ->
  transcription_layers s5 = Ok s6 ->
  var s6 = var s1 /\ X s4 = X s3 /\ obs s4 = obs s3
  /\ X s6 = X s5 /\ obs s6 = obs s5.
Proof.
  intros H3 H4 H5 H6.
  apply layer_setup_Ok in H3. cbn zeta in H3.
  apply merge_experiments_frame in H4 as (X4 & O4 & V4 & _).
  apply wildtype_subset_Ok in H5 as (gene & _ & _ & ->).
  apply transcription_layers_Ok in H6 as (t1 & t2 & ->).
  cbn. split_and!; try done. by rewrite V4, H3.
Qed.

(** X3.  The [var] table of the returned object holds the columns
    [CommonName], [category] and [programs] of the full data set and no
    other column, restricted to the genes Step 7 keeps. *)
Theorem returned_var_has_the_three_selected_columns
    (data : FigureSingleCellData) (out : AnnData) :
  input_wf data ->
  _data_packager data = Ok out ->
  exists keep,
    length keep = length (var_names (all_data data))
    /\ count_true keep = ncols (X out)
    /\ var_names out = compress keep (var_names (all_data data))
    /\ (forall name, name ∈ var_columns ->
          is_Some (columns (var (all_data data)) !! name))
    /\ forall name,
         columns (var out) !! name
         = if bool_decide (name ∈ var_columns)
           then compress keep <$> columns (var (all_data data)) !! name
           else None.
Proof.
  intros Hin (s1 & s3 & s4 & s5 & s6 & H1 & H3 & H4 & H5 & H6 & H7)%data_packager_stages.
  destruct (stages_wf _ _ _ _ _ _ Hin H1 H3 H4 H5 H6) as (_ & _ & _ & _ & W6).
  apply trim_features_Ok in H7; [|done].
  assert (length (has_expression s6) = ncols (X s6)) as Hl.
  { unfold has_expression. rewrite length_map. apply length_sum_axis0, W6. }
  pose proof (wf_var_index _ W6) as Hv.
  destruct (stages_frame _ _ _ _ _ _ H3 H4 H5 H6) as (V6 & _).
  apply base_construction_Ok in H1
    as (counts & cols & dc & umap & pca & col_r & col_c
        & _ & Hcols & _ & _ & _ & _ & _ & _ & _ & ->).
  cbn [var] in V6. rewrite V6 in Hv, H7. cbn [index] in Hv.
  exists (has_expression s6). subst out. unfold var_names.
  cbn [X var index columns df_select_rows select_cols ncols].
  split_and!; try done.
  - congruence.
  - intros name Hname.
    pose proof (df_select_columns_lookup _ _ _ Hcols name) as Hname'.
    rewrite bool_decide_eq_true_2 in Hname' by done.
    destruct (columns (var (all_data data)) !! name) eqn:E; [done|].
    exfalso. destruct (df_select_columns_None _ _ name Hname E). congruence.
  - intros name. rewrite lookup_fmap.
    rewrite (df_select_columns_lookup _ _ _ Hcols name).
    by destruct (bool_decide (name ∈ var_columns)).
Qed.

Lemma returned_var_witness :
  exists keep,
    length keep = length (var_names (all_data Examples.scenario))
    /\ count_true keep = ncols (X Examples.scenario_out)
    /\ var_names Examples.scenario_out
       = compress keep (var_names (all_data Examples.scenario))
    /\ (forall name, name ∈ var_columns ->
          is_Some (columns (var (all_data Examples.scenario)) !! name))
    /\ forall name,
         columns (var Examples.scenario_out) !! name
         = if bool_decide (name ∈ var_columns)
           then compress keep <$> columns (var (all_data Examples.scenario)) !! name
           else None.
Proof.
  exact (returned_var_has_the_three_selected_columns Examples.scenario
           Examples.scenario_out scenario_input_wf scenario_runs).
Defined.

(** Step 3 on non-negative counts: no row is dropped. *)
Lemma layer_setup_exact (s1 s3 : AnnData) :
  store_wf s1 ->
  Forall (Forall (fun x => F32.nonneg x = true)) (rows (X s1)) ->
  layer_setup s1 = Ok s3 ->
  let fill := np_full (shape (X s1)) F32.nan in
  X s3 = inplace_row_scale (X s1) (row_scales (sum_axis1 (X s1)))
  /\ obs s3 = mk_DataFrame (index (obs s1))
                (<["n_counts" := VNum <$> sum_axis1 (X s1)]> (columns (obs s1)))
  /\ var s3 = var s1
  /\ layers s3 = <["denoised" := fill]>
                   (<["cell_cycle_velocity" := fill]>
                      (<["rapamycin_velocity" := fill]>
                         (<["counts" := X s1]> (layers s1)))).
Proof.
  intros W1 Hpos H. apply layer_setup_Ok in H. cbn zeta in H.
  set (totals := sum_axis1 (X s1)) in *.
  assert (length totals = nrows (X s1)) as Htot by apply length_sum_axis1.
  assert (length (counted totals) = nrows (X s1)) as Hmask
    by (unfold counted; by rewrite length_map).
  assert (Forall (fun b => b = true) (counted totals)) as Hall
    by (by apply cell_subset_all).
  rewrite (compress_all_true (counted totals) totals) in H
    by (first [congruence|done]).
  rewrite (select_rows_all (counted totals) (X s1)) in H by done.
  assert (shape (inplace_row_scale (X s1) (row_scales totals)) = shape (X s1))
    as Hshape.
  { apply shape_inplace_row_scale. by rewrite length_row_scales. }
  rewrite Hshape in H. subst s3. cbn. split_and!; try done.
  - apply df_select_rows_all; [| |done].
    + unfold frame_wf; cbn. apply map_Forall_insert_2; [|apply (wf_obs _ W1)].
      rewrite length_fmap, Htot. symmetry. apply (wf_obs_index _ W1).
    + cbn. rewrite Hmask. symmetry. apply (wf_obs_index _ W1).
  - f_equal. f_equal. f_equal. apply fmap_fixed. intros n l Hl.
    apply select_rows_all; [|done]. rewrite Hmask.
    apply lookup_insert_Some in Hl as [[_ <-]|[_ Hl]]; [done|].
    by destruct (wf_layers _ W1 _ _ Hl) as [[= -> _] _].
Qed.

Lemma wild_type_true (gene : list value) (v : value) :
  v ∈ compress (wild_type gene) gene -> v = VStr "WT".
Proof.
  intros Hv. pose proof (compress_map_test (value_eq_str "WT") gene) as Hall.
  rewrite Forall_forall in Hall. specialize (Hall v Hv).
  destruct v as [s|x]; [|done]. cbn in Hall.
  by apply bool_decide_eq_true_1 in Hall as ->.
Qed.

(** The stages of a run on non-negative counts, in terms of the full
    data set. *)
Lemma data_packager_closed (data : FigureSingleCellData) (out : AnnData)
    (counts : ndarray) (gene : list value) :
  input_wf data ->
  layers (all_data data) !! "counts" = Some counts ->
  Forall (Forall (fun x => F32.nonneg x = true)) (rows counts) ->
  columns (obs (all_data data)) !! "Gene" = Some gene ->
  _data_packager data = Ok out ->
  let wt := wild_type gene in
  let x := select_rows wt
             (inplace_row_scale counts (row_scales (sum_axis1 counts))) in
  let keep := map (fun s => F32.gtb s F32.zero) (sum_axis0 x) in
  exists dc umap pca col_r col_c s4,
    layers (all_data data) !! "decay_constants" = Some dc
    /\ obsm (all_data data) !! "X_umap" = Some umap
    /\ obsm (all_data data) !! "X_pca" = Some pca
    /\ length keep = length (var_names (all_data data))
    /\ X out = select_cols keep x
    /\ obs out
       = df_select_rows wt
           (mk_DataFrame (index (obs (all_data data)))
              (<["n_counts" := VNum <$> sum_axis1 counts]>
                 (<["program_cc_time" := col_c]>
                    (<["program_rapa_time" := col_r]>
                       (embedding_columns umap pca
                          (columns (obs (all_data data))))))))
    /\ index (var out) = compress keep (index (var (all_data data)))
    /\ layers s4 !! "counts" = Some counts
    /\ layers s4 !! "decay_constants" = Some dc
    /\ forall name, name <> "rapamycin_transcription" ->
         name <> "cell_cycle_transcription" ->
         layers out !! name
         = select_cols keep <$> (select_rows wt <$> layers s4 !! name).
Proof.
  intros Hin Hc Hpos Hg
         (s1 & s3 & s4 & s5 & s6 & H1 & H3 & H4 & H5 & H6 & H7)%data_packager_stages.
  destruct (stages_wf _ _ _ _ _ _ Hin H1 H3 H4 H5 H6) as (W1 & _ & _ & _ & W6).
  destruct (stages_frame _ _ _ _ _ _ H3 H4 H5 H6) as (V6 & X4 & O4 & X6 & O6).
  apply trim_features_Ok in H7; [|done].
  pose proof (wf_var_index _ W6) as Hv.
  assert (length (has_expression s6) = ncols (X s6)) as Hl.
  { unfold has_expression. rewrite length_map. apply length_sum_axis0, W6. }
  apply base_construction_Ok in H1
    as (counts' & cols & dc & umap & pca & col_r & col_c
        & Hc' & _ & Hdc & Hu & Hp & _ & _ & _ & _ & ->).
  assert (counts' = counts) as -> by congruence.
  apply layer_setup_exact in H3 as (X3 & O3 & V3 & L3); [|done..].
  cbn [X obs var layers columns index] in X3, O3, V3, L3, V6.
  apply merge_experiments_frame in H4 as (_ & _ & _ & L4).
  apply wildtype_subset_Ok in H5 as (gene' & Hg' & _ & E5).
  rewrite O4, O3 in Hg'. cbn [columns] in Hg'. unfold embedding_columns in Hg'.
  rewrite !lookup_insert_ne in Hg' by done.
  assert (gene' = gene) as -> by congruence.
  apply transcription_layers_Ok in H6 as (t1 & t2 & E6).
  assert (X s6 = select_rows (wild_type gene)
                   (inplace_row_scale counts (row_scales (sum_axis1 counts))))
    as HX.
  { rewrite X6, E5. cbn [X]. by rewrite X4, X3. }
  assert (layers s6 = <["cell_cycle_transcription" := t2]>
                        (<["rapamycin_transcription" := t1]>
                           (select_rows (wild_type gene) <$> layers s4))) as HL.
  { by rewrite E6, E5. }
  unfold has_expression in H7, Hl. rewrite HX in H7, Hl.
  rewrite O6, E5, HL, V6 in H7. cbn [obs] in H7. rewrite O4, O3 in H7.
  rewrite V6 in Hv. cbn [index] in Hv.
  exists dc, umap, pca, col_r, col_c, s4. rewrite H7.
  cbn [X obs var layers index df_select_rows].
  assert (forall name, name ∉ merged_layers ->
            layers s4 !! name
            = (<["counts" := counts]> (<["decay_constants" := dc]> ∅)
                 : gmap string ndarray) !! name) as L4'.
  { intros name Hname. rewrite (L4 name Hname), L3.
    apply not_elem_of_cons in Hname as [N1 Hname].
    apply not_elem_of_cons in Hname as [N2 Hname].
    apply not_elem_of_cons in Hname as [N3 _].
    by rewrite !lookup_insert_ne by done. }
  split_and!; try done.
  - unfold var_names. rewrite Hv, Hl, HX. done.
  - rewrite L4' by (by intros [?|[?|?]]%elem_of_merged_layers).
    by rewrite lookup_insert_eq.
  - rewrite L4' by (by intros [?|[?|?]]%elem_of_merged_layers).
    by rewrite lookup_insert_ne, lookup_insert_eq.
  - intros name N1 N2.
    by rewrite lookup_fmap, !lookup_insert_ne, lookup_fmap by done.
Qed.

(** X5.  On non-negative counts the observations of the returned object
    are the observations of the full data set whose [Gene] is ["WT"], in
    the order of the full data set; every column the full data set has
    in [obs] is carried over restricted to these observations, and
    [n_counts] holds the totals of their rows of the raw counts, each
    the reduction of the stored entries of the row ([sum_axis1]). *)
Theorem returned_observations_are_the_wild_type_ones
    (data : FigureSingleCellData) (out : AnnData)
    (counts : ndarray) (gene : list value) :
  input_wf data ->
  layers (all_data data) !! "counts" = Some counts ->
  Forall (Forall (fun x => F32.nonneg x = true)) (rows counts) ->
  columns (obs (all_data data)) !! "Gene" = Some gene ->
  _data_packager data = Ok out ->
  obs_names out = compress (wild_type gene) (obs_names (all_data data))
  /\ nrows (X out) = count_true (wild_type gene)
  /\ columns (obs out) !! "Gene" = Some (compress (wild_type gene) gene)
  /\ Forall (fun v => v = VStr "WT") (compress (wild_type gene) gene)
  /\ columns (obs out) !! "n_counts"
     = Some (VNum <$> compress (wild_type gene) (sum_axis1 counts))
  /\ forall name, name ∉ written_obs_columns ->
       columns (obs out) !! name
       = compress (wild_type gene) <$> columns (obs (all_data data)) !! name.
Proof.
  intros Hin Hc Hpos Hg Hrun.
  pose proof (data_packager_wf _ _ Hin Hrun) as Wout.
  destruct (data_packager_closed _ _ _ _ Hin Hc Hpos Hg Hrun)
    as (dc & umap & pca & col_r & col_c & s4 & _ & _ & _ & _ & _ & HO & _).
  pose proof (wf_obs_index _ Wout) as Hn. rewrite HO in Hn. cbn in Hn.
  assert (length (wild_type gene) = length (index (obs (all_data data)))) as Hl.
  { unfold wild_type. rewrite length_map. by apply (in_obs _ Hin "Gene"). }
  rewrite length_compress in Hn by done.
  assert (forall name, name ∉ written_obs_columns ->
            columns (obs out) !! name
            = compress (wild_type gene) <$> columns (obs (all_data data)) !! name)
    as Hcols.
  { intros name Hname. rewrite HO. cbn. rewrite lookup_fmap.
    unfold written_obs_columns in Hname.
    repeat (apply not_elem_of_cons in Hname as [? Hname]).
    unfold embedding_columns. by rewrite !lookup_insert_ne by done. }
  split_and!; try done.
  - unfold obs_names. by rewrite HO.
  - rewrite Hcols, Hg; [done|].
    unfold written_obs_columns. clear.
    rewrite !elem_of_cons, elem_of_nil. intros H. by repeat destruct H as [H|H].
  - apply Forall_forall. apply wild_type_true.
  - rewrite HO. cbn. rewrite lookup_fmap, lookup_insert_eq. cbn.
    by rewrite compress_fmap.
Qed.

Lemma scenario_nonneg :
  Forall (Forall (fun x => F32.nonneg x = true)) (rows Examples.scenario_counts).
Proof. apply (bool_decide_eq_true_1 _). vm_compute; reflexivity. Qed.

Lemma returned_observations_witness :
  let gene := Examples.strings ["WT"; "MUT"; "WT"; "WT"] in
  obs_names Examples.scenario_out
  = compress (wild_type gene) (obs_names (all_data Examples.scenario))
  /\ nrows (X Examples.scenario_out) = count_true (wild_type gene)
  /\ columns (obs Examples.scenario_out) !! "Gene"
     = Some (compress (wild_type gene) gene)
  /\ Forall (fun v => v = VStr "WT") (compress (wild_type gene) gene)
  /\ columns (obs Examples.scenario_out) !! "n_counts"
     = Some (VNum <$> compress (wild_type gene)
                        (sum_axis1 Examples.scenario_counts))
  /\ forall name, name ∉ written_obs_columns ->
       columns (obs Examples.scenario_out) !! name
       = compress (wild_type gene)
           <$> columns (obs (all_data Examples.scenario)) !! name.
Proof.
  apply (returned_observations_are_the_wild_type_ones Examples.scenario
           Examples.scenario_out Examples.scenario_counts
           (Examples.strings ["WT"; "MUT"; "WT"; "WT"])).
  - exact scenario_input_wf.
  - vm_compute; reflexivity.
  - exact scenario_nonneg.
  - vm_compute; reflexivity.
  - exact scenario_runs.
Defined.

(** X7.  On non-negative counts the matrices of the returned object are
    restrictions of the full data set: [X] is the count matrix with the
    stored entries of every row scaled by the normalization, the layer
    [counts] the raw count matrix and the layer
    [decay_constants] the decay constants of the full data set, each
    restricted to the wild-type observations and to the genes whose
    column total of the normalized wild-type rows is positive; [var]
    lists these genes in the order of the full data set. *)
Theorem returned_matrices_are_restrictions_of_the_source
    (data : FigureSingleCellData) (out : AnnData)
    (counts dc : ndarray) (gene : list value) :
  input_wf data ->
  layers (all_data data) !! "counts" = Some counts ->
  Forall (Forall (fun x => F32.nonneg x = true)) (rows counts) ->
  layers (all_data data) !! "decay_constants" = Some dc ->
  columns (obs (all_data data)) !! "Gene" = Some gene ->
  _data_packager data = Ok out ->
  let wt := wild_type gene in
  let x := select_rows wt
             (inplace_row_scale counts (row_scales (sum_axis1 counts))) in
  let keep := map (fun s => F32.gtb s F32.zero) (sum_axis0 x) in
  X out = select_cols keep x
  /\ layers out !! "counts" = Some (select_cols keep (select_rows wt counts))
  /\ layers out !! "decay_constants"
     = Some (select_cols keep (select_rows wt dc))
  /\ length keep = length (var_names (all_data data))
  /\ var_names out = compress keep (var_names (all_data data)).
Proof.
  intros Hin Hc Hpos Hdc Hg Hrun wt x keep.
  destruct (data_packager_closed _ _ _ _ Hin Hc Hpos Hg Hrun)
    as (dc' & umap & pca & col_r & col_c & s4
        & Hdc' & _ & _ & Hl & HX & _ & HV & L1 & L2 & HL).
  assert (dc' = dc) as -> by congruence.
  split_and!; try done.
  - by rewrite HL, L1.
  - by rewrite HL, L2.
Qed.

Lemma returned_matrices_witness :
  let wt := wild_type (Examples.strings ["WT"; "MUT"; "WT"; "WT"]) in
  let x := select_rows wt
             (inplace_row_scale Examples.scenario_counts
                (row_scales (sum_axis1 Examples.scenario_counts))) in
  let keep := map (fun s => F32.gtb s F32.zero) (sum_axis0 x) in
  X Examples.scenario_out = select_cols keep x
  /\ layers Examples.scenario_out !! "counts"
     = Some (select_cols keep (select_rows wt Examples.scenario_counts))
  /\ layers Examples.scenario_out !! "decay_constants"
     = Some (select_cols keep (select_rows wt (np_full (4, 3) F32.one)))
  /\ length keep = length (var_names (all_data Examples.scenario))
  /\ var_names Examples.scenario_out
     = compress keep (var_names (all_data Examples.scenario)).
Proof.
  apply (returned_matrices_are_restrictions_of_the_source Examples.scenario
           Examples.scenario_out Examples.scenario_counts
           (np_full (4, 3) F32.one)
           (Examples.strings ["WT"; "MUT"; "WT"; "WT"])).
  - exact scenario_input_wf.
  - vm_compute; reflexivity.
  - exact scenario_nonneg.
  - vm_compute; reflexivity.
  - vm_compute; reflexivity.
  - exact scenario_runs.
Defined.
(* ================================================================== *)
(** * 38. The rows of the returned object *)
(* ================================================================== *)

Lemma length_compress_le {A : Type} mask (l : list A) :
  length (compress mask l) <= count_true mask.
Proof.
  revert l. induction mask as [|b mask IH]; intros [|x l]; cbn; try lia.
  destruct b; cbn; specialize (IH l); lia.
Qed.

Lemma compress_all_true_le {A : Type} mask (l : list A) :
  length l <= length mask -> Forall (fun b => b = true) mask ->
  compress mask l = l.
Proof.
  intros Hl Hall. revert l Hl.
  induction Hall as [|b mask -> _ IH]; intros [|x l] Hl; cbn in *; try done; try lia.
  f_equal. apply IH. lia.
Qed.

Lemma compress_all_false {A : Type} mask (l : list A) :
  Forall (fun b => b = false) mask -> compress mask l = [].
Proof.
  intros Hall. revert l.
  induction Hall as [|b mask -> _ IH]; intros [|x l]; cbn; auto.
Qed.

Lemma count_true_all_false mask :
  Forall (fun b => b = false) mask -> count_true mask = 0.
Proof. induction 1 as [|b mask -> _ IH]; cbn; auto. Qed.

(** The row of [compress mask l] at position [j] is a selected row of
    [l]; its position in [l] is the same for every list the mask is
    applied to. *)
Lemma compress_lookup_inv {A : Type} mask (l : list A) j x :
  compress mask l !! j = Some x ->
  exists r, mask !! r = Some true /\ l !! r = Some x /\ rank mask r = j.
Proof.
  revert l j. induction mask as [|b mask IH]; intros [|y l] j H; try done.
  cbn [compress] in H. destruct b.
  - destruct j as [|j].
    + injection H as ->. by exists 0.
    + cbn in H. destruct (IH _ _ H) as (r & Hm & Hl & Hr).
      exists (S r). split_and!; try done. unfold rank in *. cbn. by rewrite Hr.
  - destruct (IH _ _ H) as (r & Hm & Hl & Hr).
    exists (S r). split_and!; try done.
Qed.

Lemma wild_type_compress (gene : list value) :
  Forall (fun b => b = true) (wild_type (compress (wild_type gene) gene)).
Proof.
  unfold wild_type at 1. apply Forall_map.
  apply (compress_map_test (value_eq_str "WT") gene).
Qed.

(** X6.  The cohort filter of Step 5 is idempotent: applied to an object
    it has returned, it succeeds and returns that object unchanged. *)
Theorem wildtype_subset_is_idempotent (s s' : AnnData) :
  wildtype_subset s = Ok s' -> wildtype_subset s' = Ok s'.
Proof.
  intros (gene & Hg & Hl & ->)%wildtype_subset_Ok.
  set (wt := wild_type gene).
  assert (length wt = nrows (X s)) as Hwt by (unfold wt, wild_type; by rewrite length_map).
  apply wildtype_subset_Ok. exists (compress wt gene). cbn.
  pose proof (wild_type_compress gene) as Hall. fold wt in Hall.
  set (wt' := wild_type (compress wt gene)) in *.
  assert (length wt' = count_true wt) as Hwt'.
  { unfold wt', wild_type. rewrite length_map. apply length_compress.
    by rewrite Hwt. }
  assert (forall (A : Type) (l : list A), compress wt' (compress wt l) = compress wt l)
    as Hfix.
  { intros A l. apply compress_all_true_le; [|done].
    rewrite Hwt'. apply length_compress_le. }
  split_and!.
  - by rewrite lookup_fmap, Hg.
  - unfold nrows. cbn. rewrite !length_compress; [done|done|].
    by rewrite Hl.
  - f_equal.
    + unfold select_rows; cbn. by rewrite Hfix.
    + unfold df_select_rows; cbn. rewrite Hfix. f_equal.
      rewrite <- map_fmap_compose. apply map_fmap_ext. intros; cbn.
      by rewrite Hfix.
    + rewrite <- map_fmap_compose. apply map_fmap_ext. intros i l _; cbn.
      unfold select_rows; cbn. by rewrite Hfix.
    + rewrite <- map_fmap_compose. apply map_fmap_ext. intros i l _; cbn.
      unfold select_rows; cbn. by rewrite Hfix.
Qed.

Lemma wildtype_subset_witness :
  wildtype_subset Examples.scenario_s5 = Ok Examples.scenario_s5.
Proof.
  apply (wildtype_subset_is_idempotent Examples.scenario_s4).
  vm_compute; reflexivity.
Defined.

Lemma put_rows_lookup_false {A : Type} mask (tgt src : list A) r :
  mask !! r = Some false -> put_rows mask tgt src !! r = tgt !! r.
Proof.
  revert tgt src r. induction mask as [|b mask IH]; intros tgt src r H; [done|].
  destruct tgt as [|t tgt]; [by destruct b|].
  destruct r as [|r]; cbn in H.
  - injection H as ->. done.
  - destruct b; cbn [put_rows].
    + destruct src as [|x src]; [done|]. cbn. by apply IH.
    + cbn. by apply IH.
Qed.

Lemma layer_setitem_rows_unselected (inf_data out : AnnData) n mask
    (v : ndarray) name (a : ndarray) r :
  layer_setitem_rows inf_data n mask v = Ok out ->
  mask !! r = Some false ->
  layers inf_data !! name = Some a ->
  exists a', layers out !! name = Some a' /\ rows a' !! r = rows a !! r.
Proof.
  intros (a0 & a0' & Ha0 & Hset & ->)%layer_setitem_rows_Ok Hr Ha.
  apply setitem_rows_Ok in Hset as (_ & src & _ & ->). cbn.
  destruct (decide (name = n)) as [->|Hne].
  - rewrite lookup_insert_eq. eexists; split; [done|]. cbn.
    rewrite put_rows_lookup_false by done. congruence.
  - rewrite lookup_insert_ne by done. by exists a.
Qed.

(** The loop body leaves the rows of the observations outside the decay
    product alone, in every layer. *)
Lemma merge_experiment_unselected (data : FigureSingleCellData)
    (inf_data out : AnnData) (k : key) name (a : ndarray) r id :
  merge_experiment data inf_data k = Ok out ->
  layers inf_data !! name = Some a ->
  obs_names inf_data !! r = Some id ->
  (forall dd, decay_data data k = Ok dd -> id ∉ obs_names dd) ->
  exists a', layers out !! name = Some a' /\ rows a' !! r = rows a !! r.
Proof.
  intros H Ha Hr Hid. unfold merge_experiment in H. ok_steps H.
  match goal with
  | Hd : decay_data _ _ = Ok ?dd |- _ =>
      pose proof (isin_lookup_false _ _ _ _ Hr (Hid dd Hd)) as Hm
  end.
  repeat match goal with
         | Hs : layer_setitem_rows ?s _ _ _ = Ok _, Hl : layers ?s !! name = Some ?b
           |- _ =>
             let b' := fresh "b" in
             let E1 := fresh "E" in
             let E2 := fresh "E" in
             destruct (layer_setitem_rows_unselected _ _ _ _ _ _ _ _ Hs Hm Hl)
               as (b' & E1 & E2);
             clear Hs Hl
         end.
  match goal with
  | E : layers out !! name = Some ?b |- _ => exists b; split; [done|congruence]
  end.
Qed.

Lemma merge_experiments_unselected (data : FigureSingleCellData) ks :
  forall (inf_data out : AnnData) name (a : ndarray) r id,
    merge_experiments data inf_data ks = Ok out ->
    layers inf_data !! name = Some a ->
    obs_names inf_data !! r = Some id ->
    (forall k dd, k ∈ ks -> decay_data data k = Ok dd -> id ∉ obs_names dd) ->
    exists a', layers out !! name = Some a' /\ rows a' !! r = rows a !! r.
Proof.
  induction ks as [|k ks IH]; intros inf_data out name a r id H Ha Hr Hid.
  - injection H as <-. by exists a.
  - cbn [merge_experiments] in H. ok_steps H.
    destruct (merge_experiment_unselected _ _ _ _ _ _ _ _ H0 Ha Hr)
      as (a1 & Ha1 & E1).
    { intros dd Hdd. apply (Hid k dd); [by left|done]. }
    apply merge_experiment_frame in H0 as (_ & Ho & _).
    destruct (IH _ _ name a1 r id H Ha1) as (a2 & Ha2 & E2).
    + unfold obs_names in *. by rewrite Ho.
    + intros k' dd Hk. apply Hid. by right.
    + exists a2. split; [done|]. congruence.
Qed.

Lemma Forall_nan_zip_add (v w : list float32) :
  Forall (fun x => x = F32.nan) v ->
  Forall (fun x => x = F32.nan) (zip_with F32.add v w).
Proof.
  intros Hv. revert w. induction Hv as [|x v -> _ IH]; intros [|y w]; cbn;
    constructor; auto using add_nan_l.
Qed.

(** After Step 5 the row of an observation no experiment covers is still
    the NaN fill of Step 3, in each of the three merged layers. *)
Lemma uncovered_rows_after_filter (data : FigureSingleCellData)
    (s3 s4 s5 : AnnData) r id :
  store_wf s3 ->
  layer_setup_done s3 ->
  merge_experiments data s3 (expts data) = Ok s4 ->
  wildtype_subset s4 = Ok s5 ->
  obs_names s5 !! r = Some id ->
  (forall k dd, k ∈ expts data -> decay_data data k = Ok dd ->
                id ∉ obs_names dd) ->
  forall name, name ∈ merged_layers ->
    exists a, layers s5 !! name = Some a
              /\ rows a !! r = Some (replicate (ncols (X s3)) F32.nan).
Proof.
  intros W3 L3 H4 H5 Hr Hid name Hname.
  apply wildtype_subset_Ok in H5 as (gene & _ & _ & ->).
  unfold obs_names in Hr. cbn in Hr.
  apply compress_lookup_inv in Hr as (r4 & Hwt & Hr4 & <-).
  pose proof (merge_experiments_frame _ _ _ _ H4) as (_ & O4 & _).
  rewrite O4 in Hr4.
  destruct (merge_experiments_unselected _ _ _ _ name _ r4 id H4 (L3 name Hname))
    as (a4 & Ha4 & E4); [done|done|].
  exists (select_rows (wild_type gene) a4). cbn. split.
  - by rewrite lookup_fmap, Ha4.
  - rewrite compress_lookup_rank, E4 by done. cbn.
    apply lookup_replicate_2. apply lookup_lt_Some in Hr4.
    by rewrite (wf_obs_index _ W3) in Hr4.
Qed.

(** X8.  An observation of the returned object that belongs to the
    decay product of no experiment has a row of NaN in [denoised], in
    both velocity layers and in both transcription layers: the packager
    marks missing coverage, it does not fill it in. *)
Theorem uncovered_observations_hold_nan
    (data : FigureSingleCellData) (out : AnnData) (r : nat) (id : string) :
  input_wf data ->
  _data_packager data = Ok out ->
  obs_names out !! r = Some id ->
  (forall k dd, k ∈ expts data -> decay_data data k = Ok dd ->
                id ∉ obs_names dd) ->
  Forall (fun name =>
            exists l row,
              layers out !! name = Some l
              /\ rows l !! r = Some row
              /\ length row = ncols (X out)
              /\ Forall (fun x => x = F32.nan) row)
         experiment_layers.
Proof.
  intros Hin Hrun Hr Hid.
  pose proof (data_packager_wf _ _ Hin Hrun) as Wout.
  apply data_packager_stages in Hrun
    as (s1 & s3 & s4 & s5 & s6 & H1 & H3 & H4 & H5 & H6 & H7).
  destruct (stages_wf _ _ _ _ _ _ Hin H1 H3 H4 H5 H6) as (_ & W3 & _ & W5 & W6).
  destruct (stages_frame _ _ _ _ _ _ H3 H4 H5 H6) as (_ & _ & _ & X6 & O6).
  pose proof (trim_features_names _ _ H7) as [_ O7].
  unfold obs_names in Hr. rewrite O7, O6 in Hr.
  pose proof (uncovered_rows_after_filter _ _ _ _ _ _ W3 (layer_setup_layers _ _ H3)
                H4 H5 Hr Hid) as Hnan.
  set (fill := replicate (ncols (X s3)) F32.nan) in *.
  assert (Forall (fun x => x = F32.nan) fill) as Hfill
    by (apply Forall_replicate; done).
  (* the five layers before the trim *)
  assert (Forall (fun name =>
                    exists l row, layers s6 !! name = Some l
                                  /\ rows l !! r = Some row
                                  /\ Forall (fun x => x = F32.nan) row)
                 experiment_layers) as H6'.
  { destruct (transcription_layers_derived _ _ H6) as (w & Hv & D1 & D2).
    destruct Hv as (Vrt & Vct & Vrv & Vcv & Vdc & Vdn).
    apply transcription_layers_Ok in H6 as (t1 & t2 & E6).
    assert (forall name, name ∈ merged_layers ->
              exists a, layers s6 !! name = Some a /\ rows a !! r = Some fill)
      as Hm.
    { intros name Hname. destruct (Hnan name Hname) as (a & Ha & Hrow).
      exists a. split; [|done]. rewrite E6. cbn.
      apply elem_of_merged_layers in Hname as [->|[->| ->]];
        by rewrite !lookup_insert_ne. }
    destruct (Hm "denoised") as (dn & Hdn & Rdn); [by left|].
    destruct (Hm "rapamycin_velocity") as (rv & Hrv & Rrv); [by right; left|].
    destruct (Hm "cell_cycle_velocity") as (cv & Hcv & Rcv);
      [by right; right; left|].
    rewrite Hdn in Vdn. rewrite Hrv in Vrv. rewrite Hcv in Vcv.
    injection Vdn as Vdn. injection Vrv as Vrv. injection Vcv as Vcv.
    destruct (wf_layers _ W6 _ _ Vdc) as [Sdc _].
    assert (is_Some (rows (tv_decay_constants w) !! r)) as [dcrow Rdc].
    { apply lookup_lt_is_Some. apply lookup_lt_Some in Hr.
      rewrite (wf_obs_index _ W5), <- X6 in Hr.
      injection Sdc as Sdc _. unfold nrows in *. by rewrite Sdc. }
    unfold derived_rows in D1, D2. rewrite <- Vdn, <- Vrv in D1.
    rewrite <- Vdn, <- Vcv in D2.
    unfold experiment_layers, merged_layers. cbn [app].
    repeat apply Forall_cons_2; [..|apply Forall_nil_2].
    - exists dn, fill. done.
    - exists rv, fill. done.
    - exists cv, fill. done.
    - eexists _, _. split; [exact Vrt|]. split.
      + rewrite D1, !lookup_zip_with, Rrv, Rdc, Rdn. reflexivity.
      + by apply Forall_nan_zip_add.
    - eexists _, _. split; [exact Vct|]. split.
      + rewrite D2, !lookup_zip_with, Rcv, Rdc, Rdn. reflexivity.
      + by apply Forall_nan_zip_add. }
  apply trim_features_Ok in H7; [|done].
  eapply Forall_impl; [exact H6'|]. cbn beta.
  intros name (l & row & Hl & Hrow & Hall).
  exists (select_cols (has_expression s6) l), (compress (has_expression s6) row).
  assert (layers out !! name = Some (select_cols (has_expression s6) l)) as Hout.
  { rewrite H7. cbn. by rewrite lookup_fmap, Hl. }
  assert (rows (select_cols (has_expression s6) l) !! r
          = Some (compress (has_expression s6) row)) as Hrow'.
  { cbn. by rewrite list_lookup_fmap, Hrow. }
  split_and!; try done.
  - destruct (wf_layers _ Wout _ _ Hout) as [[= _ Hc] Hrect].
    rewrite <- Hc. unfold rectangular in Hrect.
    rewrite Forall_lookup in Hrect. exact (Hrect _ _ Hrow').
  - by apply Forall_compress.
Qed.

Lemma uncovered_observations_witness :
  Forall (fun name =>
            exists l row,
              layers Examples.uncovered_out !! name = Some l
              /\ rows l !! 2 = Some row
              /\ length row = ncols (X Examples.uncovered_out)
              /\ Forall (fun x => x = F32.nan) row)
         experiment_layers.
Proof.
  apply (uncovered_observations_hold_nan Examples.uncovered
           Examples.uncovered_out 2 "cell3").
  - constructor.
    + by_evaluation.
    + by_evaluation.
    + by_evaluation.
    + intros k dd _ [= <-]. by_evaluation.
    + intros k dn _ [= <-]. by_evaluation.
  - vm_compute; reflexivity.
  - vm_compute; reflexivity.
  - intros k dd _ [= <-]. cbn.
    intros H. repeat (apply elem_of_cons in H as [H|H]; [discriminate H|]).
    by apply elem_of_nil in H.
Defined.

Lemma has_expression_no_rows (s : AnnData) :
  rows (X s) = [] -> has_expression s = replicate (ncols (X s)) false.
Proof.
  intros Hrows. unfold has_expression, sum_axis0. rewrite Hrows. cbn.
  induction (ncols (X s)) as [|n IH]; [done|]. cbn. by rewrite IH.
Qed.

(** X11.  When no observation of the full data set is wild type, a run
    that returns gives an empty object: no observation is left after
    Step 5, every column total is then zero, and Step 7 removes every
    gene. *)
Theorem no_wild_type_observation_gives_an_empty_object
    (data : FigureSingleCellData) (out : AnnData) (gene : list value) :
  columns (obs (all_data data)) !! "Gene" = Some gene ->
  Forall (fun v => value_eq_str "WT" v = false) gene ->
  _data_packager data = Ok out ->
  shape (X out) = (0, 0) /\ obs_names out = []
  /\ forall name l, layers out !! name = Some l -> rows l = [].
Proof.
  intros Hg Hmut
         (s1 & s3 & s4 & s5 & s6 & H1 & H3 & H4 & H5 & H6 & H7)%data_packager_stages.
  destruct (stages_frame _ _ _ _ _ _ H3 H4 H5 H6) as (_ & _ & O4 & X6 & O6).
  apply base_construction_Ok in H1
    as (counts & cols & dc & umap & pca & col_r & col_c
        & _ & _ & _ & _ & _ & _ & _ & _ & _ & ->).
  apply layer_setup_Ok in H3. cbn zeta in H3. cbn [obs X columns index] in H3.
  apply wildtype_subset_Ok in H5 as (gene4 & Hg4 & _ & E5).
  rewrite O4, H3 in Hg4. cbn in Hg4. unfold embedding_columns in Hg4.
  rewrite lookup_fmap, !lookup_insert_ne, Hg in Hg4 by done.
  injection Hg4 as <-.
  set (kept := counted (sum_axis1 counts)) in *.
  assert (Forall (fun b => b = false) (wild_type (compress kept gene))) as Hwt.
  { unfold wild_type. apply Forall_map. by apply Forall_compress. }
  assert (rows (X s6) = []) as Hrows.
  { rewrite X6, E5. cbn. by apply compress_all_false. }
  assert (index (obs s6) = []) as Hidx.
  { rewrite O6, E5. cbn. by apply compress_all_false. }
  assert (forall name l, layers s6 !! name = Some l -> rows l = []) as Hlayers.
  { intros name l Hl.
    destruct (transcription_layers_derived _ _ H6) as (w & Hv & D1 & D2).
    destruct Hv as (Vrt & Vct & Vrv & Vcv & Vdc & Vdn).
    apply transcription_layers_Ok in H6 as (t1 & t2 & E6).
    assert (forall n a, layers s5 !! n = Some a -> rows a = []) as H5'.
    { intros n a. rewrite E5. cbn. rewrite lookup_fmap.
      destruct (layers s4 !! n); [|done]. intros [= <-]. cbn.
      by apply compress_all_false. }
    assert (forall n, n <> "cell_cycle_transcription" ->
              n <> "rapamycin_transcription" ->
              layers s6 !! n = layers s5 !! n) as L6.
    { intros n N1 N2. rewrite E6. cbn. by rewrite !lookup_insert_ne. }
    rewrite L6 in Vrv, Vcv by done.
    destruct (decide (name = "cell_cycle_transcription")) as [->|N1].
    { rewrite Vct in Hl. injection Hl as <-. unfold derived_rows in D2.
      by rewrite D2, (H5' _ _ Vcv). }
    destruct (decide (name = "rapamycin_transcription")) as [->|N2].
    { rewrite Vrt in Hl. injection Hl as <-. unfold derived_rows in D1.
      by rewrite D1, (H5' _ _ Vrv). }
    rewrite L6 in Hl by done. eauto. }
  pose proof (has_expression_no_rows _ Hrows) as Hkeep.
  unfold trim_features in H7. rewrite Hkeep in H7.
  destruct (ncols (X s6)) as [|n] eqn:Hn.
  - cbn in H7. injection H7 as <-. unfold shape, nrows, obs_names.
    by rewrite Hrows, Hn, Hidx.
  - cbn [replicate forallb id andb] in H7.
    apply subset_var_Ok in H7 as [_ ->]. cbn. unfold shape, nrows, obs_names. cbn.
    rewrite Hrows, Hidx. cbn.
    rewrite (count_true_all_false (replicate n false))
      by (apply Forall_replicate; done).
    split_and!; try done.
    intros name l. rewrite lookup_fmap.
    destruct (layers s6 !! name) eqn:E; [|done]. intros [= <-]. cbn.
    by rewrite (Hlayers _ _ E).
Qed.

Lemma no_wild_type_witness :
  shape (X Examples.mutants_out) = (0, 0)
  /\ obs_names Examples.mutants_out = []
  /\ forall name l, layers Examples.mutants_out !! name = Some l -> rows l = [].
Proof.
  apply (no_wild_type_observation_gives_an_empty_object Examples.mutants
           Examples.mutants_out
           (Examples.strings ["MUT"; "MUT"; "MUT"; "MUT"])).
  - vm_compute; reflexivity.
  - apply (bool_decide_eq_true_1 _). vm_compute; reflexivity.
  - vm_compute; reflexivity.
Defined.
(* ================================================================== *)
(** * 39. The loop of Step 4: repetition, order and failure *)
(* ================================================================== *)

Lemma layer_setitem_rows_intro (s : AnnData) name mask (v a a' : ndarray) :
  layers s !! name = Some a -> setitem_rows a mask v = Ok a' ->
  layer_setitem_rows s name mask v
  = Ok (with_layers s (<[name := a']> (layers s))).
Proof.
  intros Ha Hset. unfold layer_setitem_rows, get_layer.
  apply getitem_Ok in Ha. rewrite Ha. cbn [mbind result_bind].
  by rewrite Hset.
Qed.

(** The loop body for one key, in closed form. *)
Lemma merge_experiment_Ok (data : FigureSingleCellData) (inf_data out : AnnData)
    (k : key) :
  merge_experiment data inf_data k = Ok out <->
  exists dd dn rv cv d r c d' r' c',
    decay_data data k = Ok dd /\ denoised_data data k = Ok dn
    /\ layers dd !! "rapamycin_velocity" = Some rv
    /\ layers dd !! "cell_cycle_velocity" = Some cv
    /\ layers inf_data !! "denoised" = Some d
    /\ layers inf_data !! "rapamycin_velocity" = Some r
    /\ layers inf_data !! "cell_cycle_velocity" = Some c
    /\ setitem_rows d (isin (obs_names inf_data) (obs_names dd)) (X dn) = Ok d'
    /\ setitem_rows r (isin (obs_names inf_data) (obs_names dd)) rv = Ok r'
    /\ setitem_rows c (isin (obs_names inf_data) (obs_names dd)) cv = Ok c'
    /\ out = with_layers inf_data
               (<["cell_cycle_velocity" := c']>
                  (<["rapamycin_velocity" := r']>
                     (<["denoised" := d']> (layers inf_data)))).
Proof.
  split.
  - intros H. unfold merge_experiment in H. ok_steps H.
    unfold get_layer in *.
    repeat match goal with
           | H : getitem _ _ = Ok _ |- _ => apply getitem_Ok in H
           end.
    apply layer_setitem_rows_Ok in H as (c & c' & Hc & Sc & ->).
    match goal with
    | H : layer_setitem_rows _ "rapamycin_velocity" _ _ = Ok _ |- _ =>
        apply layer_setitem_rows_Ok in H as (r & r' & Hr & Sr & ->)
    end.
    match goal with
    | H : layer_setitem_rows _ "denoised" _ _ = Ok _ |- _ =>
        apply layer_setitem_rows_Ok in H as (d & d' & Hd & Sd & ->)
    end.
    cbn in Hc, Hr. rewrite !lookup_insert_ne in Hc by done.
    rewrite lookup_insert_ne in Hr by done.
    eexists _, _, _, _, d, r, c, d', r', c'. split_and!; try eassumption. done.
  - intros (dd & dn & rv & cv & d & r & c & d' & r' & c'
            & Hdd & Hdn & Hrv & Hcv & Hd & Hr & Hc & Sd & Sr & Sc & ->).
    unfold merge_experiment, get_layer. rewrite Hdd. cbn [mbind result_bind].
    rewrite Hdn. cbn [mbind result_bind].
    rewrite (layer_setitem_rows_intro _ _ _ _ _ _ Hd Sd). cbn [mbind result_bind].
    apply getitem_Ok in Hrv. rewrite Hrv.
    cbn [mbind result_bind].
    erewrite layer_setitem_rows_intro; [|cbn; by rewrite lookup_insert_ne|exact Sr].
    cbn [mbind result_bind].
    apply getitem_Ok in Hcv. rewrite Hcv.
    cbn [mbind result_bind].
    erewrite layer_setitem_rows_intro;
      [|cbn; by rewrite !lookup_insert_ne|exact Sc].
    done.
Qed.

Lemma put_rows_idem {A : Type} mask (tgt src : list A) :
  put_rows mask (put_rows mask tgt src) src = put_rows mask tgt src.
Proof.
  revert tgt src. induction mask as [|b mask IH]; intros [|t tgt] src;
    try done; try (by destruct b).
  destruct b; cbn [put_rows].
  - destruct src as [|x src]; [done|]. cbn [put_rows]. by rewrite IH.
  - cbn [put_rows]. by rewrite IH.
Qed.

Lemma setitem_rows_idem (a a' : ndarray) mask (v : ndarray) :
  setitem_rows a mask v = Ok a' -> setitem_rows a' mask v = Ok a'.
Proof.
  intros (Hlen & src & Hsrc & ->)%setitem_rows_Ok.
  apply setitem_rows_Ok. split.
  - unfold nrows in *. cbn. by rewrite length_put_rows.
  - exists src. cbn. split; [done|]. by rewrite put_rows_idem.
Qed.

(** X9.  The loop body is idempotent: once an experiment has been
    merged, merging the same experiment again succeeds and changes
    nothing. *)
Theorem merge_experiment_is_idempotent (data : FigureSingleCellData)
    (inf_data out : AnnData) (k : key) :
  merge_experiment data inf_data k = Ok out ->
  merge_experiment data out k = Ok out.
Proof.
  intros (dd & dn & rv & cv & d & r & c & d' & r' & c'
          & Hdd & Hdn & Hrv & Hcv & Hd & Hr & Hc & Sd & Sr & Sc & ->)%merge_experiment_Ok.
  apply merge_experiment_Ok.
  exists dd, dn, rv, cv, d', r', c', d', r', c'.
  cbn [layers with_layers].
  split_and!; try done; try (eapply setitem_rows_idem; eassumption);
    try (rewrite ?lookup_insert_ne by done; by rewrite lookup_insert_eq).
  unfold with_layers. cbn. f_equal. symmetry.
  rewrite (insert_id _ "denoised" d')
    by (rewrite ?lookup_insert_ne by done; apply lookup_insert_eq).
  rewrite (insert_id _ "rapamycin_velocity" r')
    by (rewrite ?lookup_insert_ne by done; apply lookup_insert_eq).
  apply insert_id. apply lookup_insert_eq.
Qed.

Lemma merge_experiment_idempotent_witness :
  merge_experiment Examples.scenario Examples.scenario_s4 (1, "WT")
  = Ok Examples.scenario_s4.
Proof.
  apply (merge_experiment_is_idempotent Examples.scenario Examples.scenario_s3).
  vm_compute; reflexivity.
Defined.

Lemma broadcast_to_length n m (v : ndarray) src :
  broadcast_to n m v = Ok src -> length src = n.
Proof.
  unfold broadcast_to. intros H.
  destruct ((Nat.eqb (nrows v) n || Nat.eqb (nrows v) 1)
            && (Nat.eqb (ncols v) m || Nat.eqb (ncols v) 1)) eqn:E; [|done].
  injection H as <-. rewrite length_map.
  apply andb_prop in E as [E _].
  destruct (Nat.eqb_spec (nrows v) n) as [Hn|Hn]; [done|].
  cbn in E. apply Nat.eqb_eq in E. unfold nrows in E.
  destruct (rows v) as [|row rest]; [done|]. by rewrite length_replicate.
Qed.

(** Two assignments through masks that select no common row can be made
    in either order. *)
Lemma put_rows_comm {A : Type} m1 m2 (t s1 s2 : list A) :
  length m1 = length t -> length m2 = length t ->
  length s1 = count_true m1 -> length s2 = count_true m2 ->
  (forall r, m1 !! r = Some true -> m2 !! r = Some false) ->
  put_rows m1 (put_rows m2 t s2) s1 = put_rows m2 (put_rows m1 t s1) s2.
Proof.
  intros L1 L2 C1 C2 Hdis. apply list_eq. intros r.
  rewrite !put_rows_lookup by (rewrite ?length_put_rows; done).
  pose proof (Hdis r) as Hr.
  destruct (m1 !! r) as [[]|]; destruct (m2 !! r) as [[]|]; try done.
  by specialize (Hr eq_refl).
Qed.

Lemma setitem_rows_comm (a a1 a12 : ndarray) m1 m2 (v1 v2 : ndarray) :
  (forall r, m1 !! r = Some true -> m2 !! r = Some false) ->
  setitem_rows a m1 v1 = Ok a1 -> setitem_rows a1 m2 v2 = Ok a12 ->
  exists a2, setitem_rows a m2 v2 = Ok a2 /\ setitem_rows a2 m1 v1 = Ok a12.
Proof.
  intros Hdis (L1 & s1 & B1 & ->)%setitem_rows_Ok
         (L2 & s2 & B2 & ->)%setitem_rows_Ok.
  unfold nrows in *. cbn in *. rewrite length_put_rows in L2.
  exists (mk_ndarray (ncols a) (put_rows m2 (rows a) s2)). split.
  - apply setitem_rows_Ok. split; [done|]. by exists s2.
  - apply setitem_rows_Ok. unfold nrows. cbn. rewrite length_put_rows.
    split; [done|]. exists s1. split; [done|]. f_equal.
    symmetry. apply put_rows_comm; try done.
    + by apply broadcast_to_length in B1.
    + by apply broadcast_to_length in B2.
Qed.

Lemma insert_merged_absorb (L : gmap string ndarray) (d r c d' r' c' : ndarray) :
  <["cell_cycle_velocity" := c']>
    (<["rapamycin_velocity" := r']>
       (<["denoised" := d']>
          (<["cell_cycle_velocity" := c]>
             (<["rapamycin_velocity" := r]> (<["denoised" := d]> L)))))
  = <["cell_cycle_velocity" := c']>
      (<["rapamycin_velocity" := r']> (<["denoised" := d']> L)).
Proof.
  apply map_eq. intros i.
  destruct (decide (i = "cell_cycle_velocity")) as [->|N1];
    [by rewrite !lookup_insert_eq|].
  rewrite !(lookup_insert_ne _ "cell_cycle_velocity") by done.
  destruct (decide (i = "rapamycin_velocity")) as [->|N2];
    [by rewrite !lookup_insert_eq|].
  rewrite !(lookup_insert_ne _ "rapamycin_velocity") by done.
  destruct (decide (i = "denoised")) as [->|N3];
    [by rewrite !lookup_insert_eq|].
  by rewrite !lookup_insert_ne by done.
Qed.

(** X10.  Two experiments whose decay products share no observation can
    be merged in either order: the loop over [k1; k2] and the loop over
    [k2; k1] return the same object. *)
Theorem disjoint_experiments_commute (data : FigureSingleCellData)
    (inf_data out : AnnData) (k1 k2 : key) (dd1 dd2 : AnnData) :
  decay_data data k1 = Ok dd1 ->
  decay_data data k2 = Ok dd2 ->
  (forall id, id ∈ obs_names dd1 -> id ∉ obs_names dd2) ->
  merge_experiments data inf_data [k1; k2] = Ok out ->
  merge_experiments data inf_data [k2; k1] = Ok out.
Proof.
  intros Hdd1 Hdd2 Hdis H. cbn [merge_experiments] in *. ok_steps H.
  injection H as <-.
  match goal with
  | H : merge_experiment _ inf_data _ = Ok _ |- _ =>
      apply merge_experiment_Ok in H
        as (dd1' & dn1 & rv1 & cv1 & d & r & c & d1 & r1 & c1
            & Hdd1' & Hdn1 & Hrv1 & Hcv1 & Hd & Hr & Hc & Sd1 & Sr1 & Sc1 & ->)
  end.
  match goal with
  | H : merge_experiment _ _ _ = Ok _ |- _ =>
      apply merge_experiment_Ok in H
        as (dd2' & dn2 & rv2 & cv2 & d1' & r1' & c1' & d12 & r12 & c12
            & Hdd2' & Hdn2 & Hrv2 & Hcv2 & Hd1 & Hr1 & Hc1 & Sd2 & Sr2 & Sc2 & ->)
  end.
  assert (dd1' = dd1) as -> by congruence.
  assert (dd2' = dd2) as -> by congruence.
  cbn [layers with_layers] in Hd1, Hr1, Hc1.
  rewrite ?lookup_insert_ne in Hd1 by done. rewrite lookup_insert_eq in Hd1.
  rewrite ?lookup_insert_ne in Hr1 by done. rewrite lookup_insert_eq in Hr1.
  rewrite lookup_insert_eq in Hc1.
  injection Hd1 as <-. injection Hr1 as <-. injection Hc1 as <-.
  change (obs_names (with_layers inf_data _)) with (obs_names inf_data) in *.
  set (m1 := isin (obs_names inf_data) (obs_names dd1)) in *.
  set (m2 := isin (obs_names inf_data) (obs_names dd2)) in *.
  assert (forall i, m1 !! i = Some true -> m2 !! i = Some false) as Hm.
  { intros i (id & Hi & Hin)%isin_lookup_true.
    eapply isin_lookup_false; [done|]. by apply Hdis. }
  destruct (setitem_rows_comm _ _ _ _ _ _ _ Hm Sd1 Sd2) as (d2 & Sd2' & Sd1').
  destruct (setitem_rows_comm _ _ _ _ _ _ _ Hm Sr1 Sr2) as (r2 & Sr2' & Sr1').
  destruct (setitem_rows_comm _ _ _ _ _ _ _ Hm Sc1 Sc2) as (c2 & Sc2' & Sc1').
  assert (merge_experiment data inf_data k2
          = Ok (with_layers inf_data
                  (<["cell_cycle_velocity" := c2]>
                     (<["rapamycin_velocity" := r2]>
                        (<["denoised" := d2]> (layers inf_data)))))) as ->.
  { apply merge_experiment_Ok.
    exists dd2, dn2, rv2, cv2, d, r, c, d2, r2, c2. split_and!; done. }
  cbn [mbind result_bind].
  assert (merge_experiment data
            (with_layers inf_data
               (<["cell_cycle_velocity" := c2]>
                  (<["rapamycin_velocity" := r2]>
                     (<["denoised" := d2]> (layers inf_data))))) k1
          = Ok (with_layers
                  (with_layers inf_data
                     (<["cell_cycle_velocity" := c1]>
                        (<["rapamycin_velocity" := r1]>
                           (<["denoised" := d1]> (layers inf_data)))))
                  (<["cell_cycle_velocity" := c12]>
                     (<["rapamycin_velocity" := r12]>
                        (<["denoised" := d12]>
                           (layers
                              (with_layers inf_data
                                 (<["cell_cycle_velocity" := c1]>
                                    (<["rapamycin_velocity" := r1]>
                                       (<["denoised" := d1]>
                                          (layers inf_data)))))))))))
    as ->; [|done].
  apply merge_experiment_Ok.
  exists dd1, dn1, rv1, cv1, d2, r2, c2, d12, r12, c12.
  change (obs_names (with_layers inf_data _)) with (obs_names inf_data).
  fold m1. cbn [layers with_layers].
  split_and!; try done;
    try (rewrite ?lookup_insert_ne by done; by rewrite lookup_insert_eq).
  unfold with_layers. cbn. f_equal. by rewrite !insert_merged_absorb.
Qed.

Lemma disjoint_experiments_witness :
  merge_experiments Examples.split Examples.scenario_s3 [(2, "WT"); (1, "WT")]
  = Ok Examples.split_merged.
Proof.
  apply (disjoint_experiments_commute Examples.split Examples.scenario_s3
           Examples.split_merged (1, "WT") (2, "WT")
           (Examples.split_decay (1, "WT")) (Examples.split_decay (2, "WT"))).
  - reflexivity.
  - reflexivity.
  - intros id Hid. change (id ∈ ["cell0"]) in Hid.
    apply elem_of_cons in Hid as [->|Hid]; [|by apply elem_of_nil in Hid].
    change ("cell0" ∉ ["cell2"; "cell3"]).
    intros H. repeat (apply elem_of_cons in H as [H|H]; [discriminate H|]).
    by apply elem_of_nil in H.
  - vm_compute; reflexivity.
Defined.
(* ================================================================== *)
(** * 40. What a run needs, and how it fails *)
(* ================================================================== *)

Lemma base_construction_programs (data : FigureSingleCellData) (s1 : AnnData) :
  base_construction data = Ok s1 ->
  exists programs,
    uns (all_data data) !! "programs" = Some programs
    /\ is_Some (programs !! "rapa_program")
    /\ is_Some (programs !! "cell_cycle_program").
Proof.
  intros H. unfold base_construction in H. ok_steps H.
  apply copy_program_times_Ok in H
    as (programs & rapa & cc & col_r & col_c & Hp & Hr & Hc & _).
  exists programs. eauto.
Qed.

(** The column [Gene] the filter of Step 5 reads is the column of the
    full data set, restricted to the rows the normalization keeps. *)
Lemma gene_column_before_filter (data : FigureSingleCellData) (s4 : AnnData) :
  run_to_merge data = Ok s4 ->
  exists kept,
    columns (obs s4) !! "Gene"
    = compress kept <$> columns (obs (all_data data)) !! "Gene".
Proof.
  intros H. unfold run_to_merge in H. ok_steps H.
  apply base_construction_Ok in H0
    as (counts & cols & dc & umap & pca & col_r & col_c
        & _ & _ & _ & _ & _ & _ & _ & _ & _ & ->).
  apply layer_setup_Ok in H1. cbn zeta in H1. cbn [obs X columns index] in H1.
  apply merge_experiments_frame in H as (_ & O4 & _).
  rewrite O4, H1. cbn. eexists. unfold embedding_columns.
  by rewrite lookup_fmap, !lookup_insert_ne by done.
Qed.

Lemma run_to_merge_stages (data : FigureSingleCellData) (out : AnnData) :
  _data_packager data = Ok out ->
  exists s4 s5 s6,
    run_to_merge data = Ok s4 /\ wildtype_subset s4 = Ok s5
    /\ transcription_layers s5 = Ok s6 /\ trim_features s6 = Ok out.
Proof.
  intros (s1 & s3 & s4 & s5 & s6 & H1 & H3 & H4 & H5 & H6 & H7)%data_packager_stages.
  exists s4, s5, s6. split_and!; try done.
  unfold run_to_merge. rewrite H1. cbn [mbind result_bind].
  rewrite H3. done.
Qed.

(** X1.  A run that returns had all its inputs: the full data set holds
    the layers [counts] and [decay_constants] of one shape, with one
    [obs] row per row and one [var] row per column of the counts, the
    three [var] columns, the embeddings [X_umap] and [X_pca] with at
    least two components, the program names in [uns], and the [obs]
    column [Gene].  A run on a data set that lacks one of them raises. *)
Theorem a_run_that_returns_had_its_inputs
    (data : FigureSingleCellData) (out : AnnData) :
  _data_packager data = Ok out -> inputs_present (all_data data).
Proof.
  intros Hrun.
  destruct (run_to_merge_stages _ _ Hrun) as (s4 & s5 & s6 & H4 & H5 & _).
  destruct (gene_column_before_filter _ _ H4) as (kept & Hg).
  apply wildtype_subset_Ok in H5 as (gene & Hg' & _).
  apply data_packager_stages in Hrun as (s1 & _ & _ & _ & _ & H1 & _).
  destruct (base_construction_programs _ _ H1) as (programs & Hp & Hr & Hc).
  unfold base_construction in H1. ok_steps H1.
  match goal with
  | H : new_data_object _ = Ok _ |- _ =>
      apply new_data_object_Ok in H
        as (counts & cols & dc & umap & pca
            & Hcounts & Hcols & Hdc & Hu & Hpca & L1 & L2 & Hs & U2 & P2 & _)
  end.
  constructor; eauto.
  - intros name Hname.
    destruct (columns (var (all_data data)) !! name) eqn:E; [done|].
    destruct (df_select_columns_None _ _ name Hname E). congruence.
  - rewrite Hg' in Hg. destruct (columns (obs (all_data data)) !! "Gene"); done.
  - intros counts' Hc'. assert (counts' = counts) as -> by congruence.
    split_and!; try done. intros dc' Hdc'. congruence.
Qed.

Lemma inputs_present_witness : inputs_present (all_data Examples.scenario).
Proof.
  exact (a_run_that_returns_had_its_inputs Examples.scenario
           Examples.scenario_out scenario_runs).
Defined.

(** X14.  Without the column [Gene] in the [obs] table of the full data
    set the packager fails only at Step 5, after every experiment has
    been merged, with the KeyError of the failed lookup. *)
Theorem missing_gene_column_fails_after_the_merge
    (data : FigureSingleCellData) (s4 : AnnData) :
  columns (obs (all_data data)) !! "Gene" = None ->
  run_to_merge data = Ok s4 ->
  _data_packager data = Raise (KeyError "Gene").
Proof.
  intros Hg H4. destruct (gene_column_before_filter _ _ H4) as (kept & Hg4).
  rewrite Hg in Hg4. cbn in Hg4.
  unfold _data_packager. unfold run_to_merge in H4.
  destruct (base_construction data) as [s1|]; [|done]. cbn [mbind result_bind] in *.
  destruct (layer_setup s1) as [s3|]; [|done]. cbn [mbind result_bind] in *.
  rewrite H4. cbn [mbind result_bind].
  unfold wildtype_subset, df_getitem. by rewrite (getitem_None _ _ Hg4).
Qed.

Lemma missing_gene_witness :
  _data_packager Examples.no_gene = Raise (KeyError "Gene").
Proof.
  apply (missing_gene_column_fails_after_the_merge Examples.no_gene
           Examples.no_gene_merged).
  - vm_compute; reflexivity.
  - vm_compute; reflexivity.
Defined.

Lemma merge_experiment_unusable (data : FigureSingleCellData)
    (inf_data : AnnData) (k : key) :
  unusable data k -> raises (merge_experiment data inf_data k).
Proof.
  intros Hk. destruct (merge_experiment data inf_data k) eqn:E; [|by eexists].
  apply merge_experiment_Ok in E
    as (dd & dn & rv & cv & d & r & c & d' & r' & c'
        & Hdd & Hdn & Hrv & Hcv & _).
  destruct Hk as [[e He]|[[e He]|(dd' & Hdd' & Hl)]]; try congruence.
  assert (dd' = dd) as -> by congruence. destruct Hl; congruence.
Qed.

Lemma merge_experiments_unusable (data : FigureSingleCellData) (k : key) ks :
  k ∈ ks -> unusable data k ->
  forall inf_data, raises (merge_experiments data inf_data ks).
Proof.
  intros Hin Hk. induction ks as [|k' ks IH]; intros inf_data.
  - by apply elem_of_nil in Hin.
  - cbn [merge_experiments].
    destruct (merge_experiment data inf_data k') eqn:E; [|by eexists].
    cbn [mbind result_bind].
    apply elem_of_cons in Hin as [->|Hin]; [|by apply IH].
    destruct (merge_experiment_unusable data inf_data k' Hk). congruence.
Qed.

(** X13.  One experiment is enough to stop the packager: if, for some
    key of [data.expts], the decay product or the denoised product
    cannot be loaded, or the decay product lacks a velocity layer, the
    packager raises; there is no partial result. *)
Theorem one_unusable_experiment_aborts_the_run
    (data : FigureSingleCellData) (k : key) :
  k ∈ expts data -> unusable data k -> raises (_data_packager data).
Proof.
  intros Hin Hk. unfold _data_packager.
  destruct (base_construction data); [|by eexists]. cbn [mbind result_bind].
  destruct (layer_setup a); [|by eexists]. cbn [mbind result_bind].
  apply bind_Raise. by apply merge_experiments_unusable with k.
Qed.

Lemma unusable_experiment_witness : raises (_data_packager Examples.broken).
Proof.
  apply (one_unusable_experiment_aborts_the_run Examples.broken (2, "WT")).
  - right. left.
  - left. by eexists.
Defined.
(* ================================================================== *)
(** * 41. The embedding columns and the genes Step 7 keeps *)
(* ================================================================== *)

(** X12.  On non-negative counts the columns [UMAP_1], [UMAP_2],
    [PCA_1] and [PCA_2] of the returned object hold the first two
    components of [X_umap] and of [X_pca] for the wild-type
    observations; further components of the embeddings are not used. *)
Theorem embedding_columns_hold_the_first_two_components
    (data : FigureSingleCellData) (out : AnnData)
    (counts umap pca : ndarray) (gene : list value) :
  input_wf data ->
  layers (all_data data) !! "counts" = Some counts ->
  Forall (Forall (fun x => F32.nonneg x = true)) (rows counts) ->
  columns (obs (all_data data)) !! "Gene" = Some gene ->
  obsm (all_data data) !! "X_umap" = Some umap ->
  obsm (all_data data) !! "X_pca" = Some pca ->
  _data_packager data = Ok out ->
  columns (obs out) !! "UMAP_1"
  = Some (VNum <$> compress (wild_type gene) (column 0 umap))
  /\ columns (obs out) !! "UMAP_2"
     = Some (VNum <$> compress (wild_type gene) (column 1 umap))
  /\ columns (obs out) !! "PCA_1"
     = Some (VNum <$> compress (wild_type gene) (column 0 pca))
  /\ columns (obs out) !! "PCA_2"
     = Some (VNum <$> compress (wild_type gene) (column 1 pca)).
Proof.
  intros Hin Hc Hpos Hg Hu Hp Hrun.
  destruct (data_packager_closed _ _ _ _ Hin Hc Hpos Hg Hrun)
    as (dc & umap' & pca' & col_r & col_c & s4 & _ & Hu' & Hp' & _ & _ & HO & _).
  assert (umap' = umap) as -> by congruence.
  assert (pca' = pca) as -> by congruence.
  rewrite HO. cbn. unfold embedding_columns.
  rewrite !lookup_fmap.
  split_and!; rewrite ?lookup_insert_ne by done; rewrite lookup_insert_eq;
    cbn [fmap option_fmap option_map];
    by rewrite compress_fmap, column_slice_cols by lia.
Qed.

Lemma embedding_columns_witness :
  let gene := Examples.strings ["WT"; "MUT"; "WT"; "WT"] in
  let umap := Examples.matrix 2 [[1; 2]; [3; 4]; [5; 6]; [7; 8]]%Z in
  let pca := Examples.matrix 3 [[1; 2; 0]; [3; 4; 0]; [5; 6; 0]; [7; 8; 0]]%Z in
  columns (obs Examples.scenario_out) !! "UMAP_1"
  = Some (VNum <$> compress (wild_type gene) (column 0 umap))
  /\ columns (obs Examples.scenario_out) !! "UMAP_2"
     = Some (VNum <$> compress (wild_type gene) (column 1 umap))
  /\ columns (obs Examples.scenario_out) !! "PCA_1"
     = Some (VNum <$> compress (wild_type gene) (column 0 pca))
  /\ columns (obs Examples.scenario_out) !! "PCA_2"
     = Some (VNum <$> compress (wild_type gene) (column 1 pca)).
Proof.
  apply (embedding_columns_hold_the_first_two_components Examples.scenario
           Examples.scenario_out Examples.scenario_counts).
  - exact scenario_input_wf.
  - vm_compute; reflexivity.
  - exact scenario_nonneg.
  - vm_compute; reflexivity.
  - vm_compute; reflexivity.
  - vm_compute; reflexivity.
  - exact scenario_runs.
Defined.

(** The total of column [j] is the sum of the entries of the column,
    from the first row to the last. *)
Lemma foldl_zip_with_lookup (rs : list (list float32)) :
  forall (acc : list float32) j x,
    acc !! j = Some x ->
    Forall (fun r => length r = length acc) rs ->
    foldl (zip_with F32.add) acc rs !! j
    = Some (foldl F32.add x (omap (fun row => row !! j) rs)).
Proof.
  induction rs as [|row rs IH]; intros acc j x Hx Hall; [done|].
  apply Forall_cons in Hall as [Hrow Hall].
  assert (is_Some (row !! j)) as [y Hy].
  { apply lookup_lt_is_Some. rewrite Hrow. by apply lookup_lt_Some in Hx. }
  cbn [foldl omap list_omap]. rewrite Hy. cbn [foldl]. apply IH.
  - by rewrite lookup_zip_with, Hx, Hy.
  - rewrite length_zip_with, Hrow, Nat.min_id.
    eapply Forall_impl; [exact Hall|]. cbn. congruence.
Qed.

Lemma sum_axis0_lookup (a : ndarray) j :
  rectangular a -> j < ncols a ->
  sum_axis0 a !! j = Some (foldl F32.add F32.zero (column j a)).
Proof.
  intros Hr Hj. unfold sum_axis0, column. apply foldl_zip_with_lookup.
  - by apply lookup_replicate_2.
  - by rewrite length_replicate.
Qed.

Lemma column_Forall (P : float32 -> Prop) (a : ndarray) j :
  Forall (Forall P) (rows a) -> Forall P (column j a).
Proof.
  unfold column. induction 1 as [|row rs Hrow _ IH]; [constructor|].
  cbn [omap list_omap]. destruct (row !! j) as [x|] eqn:E; [|done].
  constructor; [|done]. rewrite Forall_lookup in Hrow. eauto.
Qed.

Lemma elem_of_column (a : ndarray) r j x :
  cell a r j = Some x -> x ∈ column j a.
Proof.
  unfold cell, column. revert r. induction (rows a) as [|row rs IH]; intros r H.
  - by destruct r.
  - cbn [omap list_omap]. destruct r as [|r]; cbn in H.
    + rewrite H. by left.
    + destruct (row !! j); [right|]; eauto.
Qed.

Lemma gtb_zero_signless (t : float32) :
  signless t = true -> F32.gtb t F32.zero = negb (is_zero t).
Proof. by destruct t as [[]|[]| |[] m e]. Qed.

Lemma foldl_add_nan_l (l : list float32) : foldl F32.add F32.nan l = F32.nan.
Proof. induction l as [|x l IH]; [done|]. cbn [foldl]. by rewrite add_nan_l. Qed.

Lemma foldl_add_nan (l : list float32) (acc : float32) :
  F32.nan ∈ l -> foldl F32.add acc l = F32.nan.
Proof.
  revert acc. induction l as [|x l IH]; intros acc H; [by apply elem_of_nil in H|].
  apply elem_of_cons in H as [<-|H]; cbn [foldl].
  - by rewrite add_nan_r, foldl_add_nan_l.
  - by apply IH.
Qed.

Lemma foldl_add_zeros (l : list float32) :
  Forall (fun x => x = F32.zero) l -> foldl F32.add F32.zero l = F32.zero.
Proof. induction 1 as [|x l -> _ IH]; [done|]. cbn [foldl]. exact IH. Qed.

Lemma is_zero_nonneg (x : float32) :
  F32.nonneg x = true -> is_zero x = true -> x = F32.zero.
Proof. by destruct x as [[]|[]| |[] m e]. Qed.

(** The total of a column of non-negative numbers is positive unless
    every entry of the column is zero. *)
Lemma column_total_positive (col : list float32) :
  Forall (fun x => F32.nonneg x = true) col ->
  F32.gtb (foldl F32.add F32.zero col) F32.zero = negb (forallb is_zero col).
Proof.
  intros Hpos.
  rewrite gtb_zero_signless by (by apply row_total_signless_aux).
  f_equal. destruct (forallb is_zero col) eqn:E.
  - rewrite foldl_add_zeros; [done|].
    rewrite forallb_forall in E. rewrite Forall_forall in Hpos |- *.
    intros x Hx. apply is_zero_nonneg; [by apply Hpos|].
    apply E. by apply list_elem_of_In.
  - destruct (is_zero (foldl F32.add F32.zero col)) eqn:Z; [|done].
    apply foldl_add_zero_inv in Z as [_ Hall]; [|done..].
    rewrite <- E. symmetry. apply forallb_forall. intros x Hx.
    apply list_elem_of_In in Hx. rewrite Forall_forall in Hall.
    by rewrite (Hall x Hx).
Qed.

(** X15.  Step 7 keeps the columns of [X] with a positive total and
    removes them from [X], [var] and every layer.  A gene with a NaN
    entry is removed, since its total is NaN; for a matrix of
    non-negative numbers the genes removed are exactly the genes whose
    column holds only zeros. *)
Theorem trim_features_removes_the_genes_without_counts
    (inf_data out : AnnData) :
  store_wf inf_data ->
  trim_features inf_data = Ok out ->
  exists keep,
    length keep = ncols (X inf_data)
    /\ X out = select_cols keep (X inf_data)
    /\ var_names out = compress keep (var_names inf_data)
    /\ layers out = select_cols keep <$> layers inf_data
    /\ obs out = obs inf_data
    /\ (forall r j, cell (X inf_data) r j = Some F32.nan -> keep !! j = Some false)
    /\ (Forall (Forall (fun x => F32.nonneg x = true)) (rows (X inf_data)) ->
        forall j, j < ncols (X inf_data) ->
          keep !! j = Some (negb (forallb is_zero (column j (X inf_data))))).
Proof.
  intros Hwf H. apply trim_features_Ok in H; [|done].
  exists (has_expression inf_data). subst out. unfold var_names. cbn.
  pose proof (wf_X _ Hwf) as Hrect.
  assert (forall j, j < ncols (X inf_data) ->
            has_expression inf_data !! j
            = Some (F32.gtb (foldl F32.add F32.zero (column j (X inf_data)))
                      F32.zero)) as Hkeep.
  { intros j Hj. unfold has_expression.
    by rewrite list_lookup_fmap, sum_axis0_lookup. }
  split_and!; try done.
  - unfold has_expression. rewrite length_map. by apply length_sum_axis0.
  - intros r j Hcell.
    assert (j < ncols (X inf_data)) as Hj.
    { unfold cell in Hcell. destruct (rows (X inf_data) !! r) as [row|] eqn:E;
        [|done]. cbn in Hcell. apply lookup_lt_Some in Hcell.
      unfold rectangular in Hrect. rewrite Forall_lookup in Hrect.
      by rewrite <- (Hrect _ _ E). }
    rewrite Hkeep by done.
    by rewrite (foldl_add_nan _ _ (elem_of_column _ _ _ _ Hcell)).
  - intros Hpos j Hj. rewrite Hkeep by done.
    by rewrite column_total_positive by (by apply column_Forall).
Qed.

Lemma silent_gene_wf : store_wf Examples.silent_gene.
Proof.
  constructor.
  - by_evaluation.
  - apply map_Forall_insert_2; [|apply map_Forall_empty].
    split; [by_evaluation|by_evaluation].
  - by_evaluation.
  - apply map_Forall_empty.
  - by_evaluation.
  - apply map_Forall_empty.
Qed.

Lemma trim_features_witness :
  exists keep,
    length keep = ncols (X Examples.silent_gene)
    /\ X Examples.silent_gene_trimmed = select_cols keep (X Examples.silent_gene)
    /\ var_names Examples.silent_gene_trimmed
       = compress keep (var_names Examples.silent_gene)
    /\ layers Examples.silent_gene_trimmed
       = select_cols keep <$> layers Examples.silent_gene
    /\ obs Examples.silent_gene_trimmed = obs Examples.silent_gene
    /\ (forall r j, cell (X Examples.silent_gene) r j = Some F32.nan ->
                    keep !! j = Some false)
    /\ (Forall (Forall (fun x => F32.nonneg x = true))
               (rows (X Examples.silent_gene)) ->
        forall j, j < ncols (X Examples.silent_gene) ->
          keep !! j
          = Some (negb (forallb is_zero (column j (X Examples.silent_gene))))).
Proof.
  apply (trim_features_removes_the_genes_without_counts Examples.silent_gene
           Examples.silent_gene_trimmed).
  - exact silent_gene_wf.
  - vm_compute; reflexivity.
Defined.
(* ================================================================== *)
(** * 42. The constants the figures use *)
(* ================================================================== *)

(** X16.  The figures find what they look up by name: the object the
    packager returns has the [obs] columns [RAPA_TIME_COL] and
    [CC_TIME_COL], with one entry per observation, and the layers
    [RAPA_VELO_LAYER] and [CC_VELO_LAYER], of the shape of [X]. *)
Theorem returned_object_has_the_names_of_the_constants
    (data : FigureSingleCellData) (out : AnnData) :
  input_wf data ->
  _data_packager data = Ok out ->
  Forall (fun name =>
            exists col, columns (obs out) !! name = Some col
                        /\ length col = nrows (X out))
         [figure_constants.RAPA_TIME_COL; figure_constants.CC_TIME_COL]
  /\ Forall (fun name =>
               exists l, layers out !! name = Some l
                         /\ shape l = shape (X out))
            [figure_constants.RAPA_VELO_LAYER; figure_constants.CC_VELO_LAYER].
Proof.
  intros Hin Hrun. pose proof (data_packager_wf _ _ Hin Hrun) as W.
  assert (forall name, name ∈ written_obs_columns ->
            exists col, columns (obs out) !! name = Some col
                        /\ length col = nrows (X out)) as Hobs.
  { intros name Hname.
    destruct (proj2 (data_packager_obs_dom _ _ Hrun name)) as [col Hcol];
      [by left|].
    exists col. split; [done|].
    rewrite (wf_obs _ W _ _ Hcol). apply (wf_obs_index _ W). }
  assert (forall name, name ∈ output_layers ->
            exists l, layers out !! name = Some l
                      /\ shape l = shape (X out)) as Hlayers.
  { intros name Hname.
    destruct (proj2 (data_packager_layers_dom _ _ Hrun name) Hname) as [l Hl].
    exists l. split; [done|]. by destruct (wf_layers _ W _ _ Hl). }
  split; repeat apply Forall_cons_2; try apply Forall_nil_2.
  - apply Hobs. unfold written_obs_columns, figure_constants.RAPA_TIME_COL.
    rewrite !elem_of_cons. tauto.
  - apply Hobs. unfold written_obs_columns, figure_constants.CC_TIME_COL.
    rewrite !elem_of_cons. tauto.
  - apply Hlayers. unfold output_layers, figure_constants.RAPA_VELO_LAYER.
    rewrite !elem_of_cons. tauto.
  - apply Hlayers. unfold output_layers, figure_constants.CC_VELO_LAYER.
    rewrite !elem_of_cons. tauto.
Qed.

Lemma names_of_the_constants_witness :
  Forall (fun name =>
            exists col, columns (obs Examples.scenario_out) !! name = Some col
                        /\ length col = nrows (X Examples.scenario_out))
         [figure_constants.RAPA_TIME_COL; figure_constants.CC_TIME_COL]
  /\ Forall (fun name =>
               exists l, layers Examples.scenario_out !! name = Some l
                         /\ shape l = shape (X Examples.scenario_out))
            [figure_constants.RAPA_VELO_LAYER; figure_constants.CC_VELO_LAYER].
Proof.
  exact (returned_object_has_the_names_of_the_constants Examples.scenario
           Examples.scenario_out scenario_input_wf scenario_runs).
Defined.

(** Case analysis on the key of a lookup in a table that is written
    out. *)
Ltac order_cases H :=
  cbn [figure_constants.order_getitem] in H;
  lazymatch type of H with
  | context [bool_decide (?a = ?k)] =>
      destruct (bool_decide_reflect (a = k));
      [subst; injection H as <- <- <-|order_cases H]
  | _ => discriminate H
  end.

(** X17.  The two time-order tables are consistent.  The keys of
    [CC_TIME_ORDER] are the phases of [CC_COLS]; following the table
    from a phase leads through the other four phases and back to the
    phase after five steps; every interval begins where the interval
    before it ends, the interval of [M-G1] one period after the end of
    [M]; and the intervals add up to [CC_LENGTH].  The intervals of
    [RAPA_TIME_ORDER] follow one another without gap, from group [12]
    to group [8], which ends the table. *)
Theorem time_order_tables_are_consistent :
  map fst figure_constants.CC_TIME_ORDER = figure_constants.CC_COLS
  /\ Forall (fun phase =>
               figure_constants.follow figure_constants.CC_TIME_ORDER 5 phase
               = Ok phase
               /\ Forall (fun n =>
                            figure_constants.follow
                              figure_constants.CC_TIME_ORDER n phase
                            <> Ok phase)
                         [1; 2; 3; 4])
            figure_constants.CC_COLS
  /\ figure_constants.chained figure_constants.CC_LENGTH
       figure_constants.CC_TIME_ORDER
  /\ QArith_base.Qeq
       (figure_constants.total_length figure_constants.CC_TIME_ORDER)
       figure_constants.CC_LENGTH
  /\ figure_constants.chained (QArith_base.Qmake 0 1)
       figure_constants.RAPA_TIME_ORDER
  /\ figure_constants.follow figure_constants.RAPA_TIME_ORDER 6 "12" = Ok "8"
  /\ figure_constants.order_getitem figure_constants.RAPA_TIME_ORDER "8"
     = Raise (KeyError "8").
Proof.
  split_and!.
  - reflexivity.
  - unfold figure_constants.CC_COLS.
    repeat apply Forall_cons_2; try apply Forall_nil_2;
      (split; [vm_compute; reflexivity|]);
      repeat apply Forall_cons_2; try apply Forall_nil_2;
      vm_compute; discriminate.
  - intros k next lo hi H. unfold figure_constants.CC_TIME_ORDER in H.
    order_cases H.
    all: split; [reflexivity|].
    all: intros next' lo' hi' H'; vm_compute in H'; injection H' as <- <- <-.
    all: first [left; reflexivity|right; reflexivity].
  - reflexivity.
  - intros k next lo hi H. unfold figure_constants.RAPA_TIME_ORDER in H.
    order_cases H.
    all: split; [reflexivity|].
    all: intros next' lo' hi' H'; vm_compute in H'; try discriminate H'.
    all: injection H' as <- <- <-; left; reflexivity.
  - reflexivity.
  - reflexivity.
Qed.
(* ================================================================== *)
(** * 43. Consistent inputs give a result *)
(* ================================================================== *)

Lemma df_select_columns_Some (df : DataFrame) names :
  (forall n, n ∈ names -> is_Some (columns df !! n)) ->
  exists cols, df_select_columns df names = Ok cols.
Proof.
  induction names as [|n names IH]; intros H; [by eexists|].
  destruct (H n) as [col Hcol]; [by left|].
  destruct IH as [cols Hcols]; [intros; apply H; by right|].
  cbn [df_select_columns]. unfold df_getitem.
  apply getitem_Ok in Hcol. rewrite Hcol. cbn [mbind result_bind].
  rewrite Hcols. by eexists.
Qed.

Lemma length_column (a : ndarray) j :
  rectangular a -> j < ncols a -> length (column j a) = nrows a.
Proof.
  unfold rectangular, column, nrows. intros Hr Hj.
  induction Hr as [|row rs Hrow _ IH]; [done|].
  cbn [omap list_omap]. destruct (lookup_lt_is_Some_2 row j) as [x ->]; [lia|].
  cbn. by rewrite IH.
Qed.

Lemma df_setitem_array_succeeds (df : DataFrame) n1 n2 (e : ndarray) :
  rectangular e -> nrows e = length (index df) -> 2 <= ncols e ->
  df_setitem_array df n1 n2 (slice_cols 2 e)
  = Ok (mk_DataFrame (index df)
          (<[n2 := VNum <$> column 1 (slice_cols 2 e)]>
             (<[n1 := VNum <$> column 0 (slice_cols 2 e)]> (columns df)))).
Proof.
  intros Hr Hn Hc. apply df_setitem_array_Ok.
  split_and!; try done.
  - unfold slice_cols. cbn [ncols]. lia.
  - rewrite column_slice_cols, length_column by (done || lia). done.
  - rewrite column_slice_cols, length_column by (done || lia). done.
Qed.

(** Lines 45-55 succeed. *)
Lemma new_data_object_succeeds (data : FigureSingleCellData) (counts : ndarray) :
  inputs_consistent data counts ->
  exists s, new_data_object (all_data data) = Ok s.
Proof.
  intros [Hwf Hc Hpos Ho Hv Hvc (dc & Hdc & Sdc) He _ _ _].
  destruct (He "X_umap") as (umap & Hu & Ru & Nu & Cu); [by left|].
  destruct (He "X_pca") as (pca & Hpca & Rp & Np & Cp); [by right; left|].
  destruct (df_select_columns_Some (var (all_data data)) var_columns Hvc)
    as [cols Hcols].
  unfold new_data_object, get_layer, df_select.
  apply getitem_Ok in Hc, Hdc, Hu, Hpca.
  rewrite Hc. cbn [mbind result_bind].
  fold var_columns. rewrite Hcols. cbn [mbind result_bind].
  assert (ad_AnnData (np_copy counts) (obs (all_data data))
            (mk_DataFrame (index (var (all_data data))) cols)
          = Ok (mk_AnnData counts (obs (all_data data))
                  (mk_DataFrame (index (var (all_data data))) cols) ∅ ∅ ∅)) as ->
    by (by apply ad_AnnData_Ok).
  cbn [mbind result_bind]. rewrite Hdc. cbn [mbind result_bind].
  assert (set_layer
            (mk_AnnData counts (obs (all_data data))
               (mk_DataFrame (index (var (all_data data))) cols) ∅ ∅ ∅)
            "decay_constants" dc
          = Ok (mk_AnnData counts (obs (all_data data))
                  (mk_DataFrame (index (var (all_data data))) cols)
                  (<["decay_constants" := dc]> ∅) ∅ ∅)) as ->
    by (by apply set_layer_Ok).
  cbn [mbind result_bind]. rewrite Hu. cbn [mbind result_bind obs].
  rewrite df_setitem_array_succeeds by (done || congruence).
  cbn [mbind result_bind obs with_obs]. rewrite Hpca.
  cbn [mbind result_bind].
  rewrite df_setitem_array_succeeds by (done || (cbn; congruence)).
  by eexists.
Qed.

(** Step 1 succeeds. *)
Lemma base_construction_succeeds (data : FigureSingleCellData) (counts : ndarray) :
  inputs_consistent data counts -> exists s1, base_construction data = Ok s1.
Proof.
  intros Hin. destruct (new_data_object_succeeds _ _ Hin) as [s Hs].
  destruct Hin as [Hwf _ _ _ _ _ _ _
                     (programs & rapa & cc & Hp & Hr & Hcc & [col_r Hcr] & [col_c Hccol])
                     _ _].
  assert (store_wf s) as Ws
    by (eapply (new_data_object_wf (all_data data)); try apply Hwf; done).
  destruct (new_data_object_obs _ _ Hs) as [_ Hsrc].
  unfold base_construction. rewrite Hs. cbn [mbind result_bind].
  unfold copy_program_times, df_getitem.
  apply getitem_Ok in Hp, Hr, Hcc. rewrite Hp. cbn [mbind result_bind].
  rewrite Hr. cbn [mbind result_bind].
  rewrite <- Hsrc in Hcr, Hccol.
  rewrite (proj2 (getitem_Ok _ _ _) Hcr). cbn [mbind result_bind].
  assert (length col_r = length (index (obs s))) as Lr
    by (apply (wf_obs _ Ws (program_time_column rapa)); eauto).
  rewrite (proj2 (set_obs_Ok _ _ _ _) (conj Lr eq_refl)).
  cbn [mbind result_bind]. rewrite Hcc. cbn [mbind result_bind].
  set (s' := with_obs s _).
  assert (store_wf s') as Ws'.
  { eapply set_obs_wf; [exact Ws|]. apply set_obs_Ok. split; [exact Lr|done]. }
  assert (is_Some (columns (obs s') !! program_time_column cc)) as [col Hcol].
  { unfold s'. cbn [obs with_obs columns].
    destruct (decide (program_time_column cc = "program_rapa_time")) as [->|N].
    - rewrite lookup_insert_eq. eauto.
    - rewrite lookup_insert_ne by done. eauto. }
  rewrite (proj2 (getitem_Ok _ _ _) Hcol). cbn [mbind result_bind].
  assert (length col = length (index (obs s'))) as Lc
    by (apply (wf_obs _ Ws' (program_time_column cc)); eauto).
  rewrite (proj2 (set_obs_Ok _ _ _ _) (conj Lc eq_refl)). by eexists.
Qed.

(** Step 3 succeeds on a well-formed object with non-negative counts. *)
Lemma layer_setup_succeeds (s1 : AnnData) :
  store_wf s1 ->
  Forall (Forall (fun x => F32.nonneg x = true)) (rows (X s1)) ->
  exists s3, layer_setup s1 = Ok s3.
Proof.
  intros W1 Hpos. unfold layer_setup.
  rewrite (proj2 (set_layer_Ok s1 _ "counts" (np_copy (X s1))) (conj eq_refl eq_refl)).
  cbn [mbind result_bind].
  set (a := with_X _ _).
  assert (store_wf a) as Wa.
  { unfold a. apply store_wf_with_X; [|apply W1|done].
    apply store_wf_insert_layer; [done|apply W1|done]. }
  destruct (normalize_per_cell_exact a Wa Hpos) as (out & -> & _).
  cbn [mbind result_bind].
  repeat (erewrite (proj2 (set_layer_Ok _ _ _ _));
          [cbn [mbind result_bind]|split; [apply shape_np_full|reflexivity]]).
  by eexists.
Qed.

(** The loop succeeds on aligned products. *)
Lemma merge_experiments_succeeds (data : FigureSingleCellData) names m ks :
  experiments_aligned data names m ks ->
  forall inf_data,
    layers_ready names m inf_data ->
    exists out, merge_experiments data inf_data ks = Ok out.
Proof.
  induction ks as [|k ks IH]; intros Hal inf_data Hready; [by eexists|].
  destruct (Hal k) as (dd & dn & Hdd & Hdn & Hk); [by left|].
  destruct (merge_experiment_step _ _ _ _ _ _ _ Hready Hdd Hdn Hk)
    as (s & Hs & Hready' & _).
  cbn [merge_experiments]. rewrite Hs. cbn [mbind result_bind].
  apply IH; [|done]. intros k' Hk'. apply Hal. by right.
Qed.

Lemma shape_zip_with f (a b : ndarray) n :
  shape a = shape b ->
  shape (mk_ndarray n (zip_with (zip_with f) (rows a) (rows b))) = (nrows a, n).
Proof.
  intros [= Hr _]. unfold shape, nrows in *. cbn.
  by rewrite length_zip_with, Hr, Nat.min_id.
Qed.

Lemma getitem_insert_eq {V : Type} (m : gmap string V) k v :
  getitem (<[k := v]> m) k = Ok v.
Proof. unfold getitem. by rewrite lookup_insert_eq. Qed.

Lemma getitem_insert_ne {V : Type} (m : gmap string V) k k' v :
  k <> k' -> getitem (<[k := v]> m) k' = getitem m k'.
Proof. intros. unfold getitem. by rewrite lookup_insert_ne. Qed.

(** One transcription layer can be derived once the three layers it
    reads are there. *)
Lemma transcription_layer_succeeds (s : AnnData) (velocity out : string) :
  store_wf s ->
  out <> "decay_constants" -> out <> "denoised" ->
  is_Some (layers s !! velocity) ->
  is_Some (layers s !! "decay_constants") ->
  is_Some (layers s !! "denoised") ->
  exists s', transcription_layer s velocity out = Ok s'.
Proof.
  intros W N1 N2 [v Hv] [dc Hdc] [dn Hdn].
  destruct (wf_layers _ W _ _ Hv) as [Sv _].
  destruct (wf_layers _ W _ _ Hdc) as [Sdc _].
  destruct (wf_layers _ W _ _ Hdn) as [Sdn _].
  unfold transcription_layer, get_layer.
  rewrite (proj2 (getitem_Ok _ _ _) Hv). cbn [mbind result_bind].
  rewrite (proj2 (set_layer_Ok s _ out (np_copy v)) (conj Sv eq_refl)).
  cbn [mbind result_bind layers with_layers].
  rewrite getitem_insert_eq. cbn [mbind result_bind].
  rewrite !getitem_insert_ne by done.
  rewrite (proj2 (getitem_Ok _ _ _) Hdc). cbn [mbind result_bind].
  rewrite (proj2 (getitem_Ok _ _ _) Hdn). cbn [mbind result_bind].
  unfold np_multiply, np_iadd.
  rewrite (proj2 (np_zip_Ok F32.mul dc dn _)
             (conj (eq_trans Sdc (eq_sym Sdn)) eq_refl)).
  cbn [mbind result_bind].
  assert (shape dc = shape dn) as Sdd by congruence.
  pose proof (shape_zip_with F32.mul dc dn (ncols dc) Sdd) as Sp.
  assert (shape (np_copy v)
          = shape (mk_ndarray (ncols dc)
                     (zip_with (zip_with F32.mul) (rows dc) (rows dn)))) as Svp.
  { rewrite Sp. unfold np_copy. rewrite Sv, <- Sdc. done. }
  rewrite (proj2 (np_zip_Ok F32.add (np_copy v) _ _) (conj Svp eq_refl)).
  cbn [mbind result_bind].
  eexists. apply set_layer_Ok. split; [|reflexivity].
  cbn [X with_layers]. rewrite <- Sv.
  pose proof (shape_zip_with F32.add (np_copy v) _ (ncols (np_copy v)) Svp) as St.
  exact St.
Qed.

(** X18.  On consistent inputs the packager returns: when the full data
    set has the layers, columns, embeddings and program names Step 1
    reads, in matching shapes, the counts are non-negative, and the
    products of every experiment load and list observations of the full
    data set in its order with one row each and one column per gene, no
    step raises, and the object returned is well formed. *)
Theorem consistent_inputs_give_a_result
    (data : FigureSingleCellData) (counts : ndarray) :
  inputs_consistent data counts ->
  exists out, _data_packager data = Ok out /\ store_wf out.
Proof.
  intros Hin. pose proof (ic_wf _ _ Hin) as Hwf.
  destruct (base_construction_succeeds _ _ Hin) as [s1 H1].
  pose proof (base_construction_wf _ _ Hwf H1) as W1.
  destruct (base_construction_Ok _ _ H1)
    as (counts' & cols & dc & umap & pca & col_r & col_c
        & Hc' & _ & _ & _ & _ & _ & _ & _ & _ & E1).
  assert (counts' = counts) as ->
    by (pose proof (ic_counts _ _ Hin); congruence).
  assert (X s1 = counts) as X1 by (by rewrite E1).
  assert (index (obs s1) = index (obs (all_data data))) as I1 by (by rewrite E1).
  assert (columns (obs s1) !! "Gene" = columns (obs (all_data data)) !! "Gene")
    as G1.
  { rewrite E1. cbn. unfold embedding_columns. by rewrite !lookup_insert_ne. }
  assert (Forall (Forall (fun x => F32.nonneg x = true)) (rows (X s1))) as Hpos
    by (rewrite X1; apply Hin).
  clear E1.
  destruct (layer_setup_succeeds s1 W1 Hpos) as [s3 H3].
  pose proof (layer_setup_wf _ _ W1 H3) as W3.
  destruct (layer_setup_exact s1 s3 W1 Hpos H3) as (X3 & O3 & V3 & L3).
  assert (layers_ready (obs_names (all_data data)) (ncols counts) s3) as Hready.
  { split.
    - unfold obs_names. by rewrite O3.
    - intros name Hname. eexists. split; [exact (layer_setup_layers _ _ H3 name Hname)|].
      rewrite shape_np_full. unfold shape. f_equal.
      + rewrite <- (wf_obs_index _ W3), O3. cbn. by rewrite I1.
      + rewrite X3. cbn. by rewrite X1. }
  destruct (merge_experiments_succeeds _ _ _ _ (ic_experiments _ _ Hin) s3 Hready)
    as [s4 H4].
  pose proof (merge_experiments_wf _ _ _ Hwf W3 H4) as W4.
  pose proof (merge_experiments_frame _ _ _ _ H4) as (X4 & O4 & _ & L4).
  pose proof (merge_experiments_dom _ _ _ _ H4) as D4.
  destruct (ic_gene _ _ Hin) as [gene Hg].
  assert (columns (obs s4) !! "Gene" = Some gene) as G4.
  { rewrite O4, O3. cbn. by rewrite lookup_insert_ne, G1. }
  assert (exists s5, wildtype_subset s4 = Ok s5) as [s5 H5].
  { eexists. apply wildtype_subset_Ok. exists gene. split_and!; [done| |done].
    rewrite (wf_obs _ W4 _ _ G4). apply (wf_obs_index _ W4). }
  pose proof (wildtype_subset_wf _ _ W4 H5) as W5.
  assert (forall name, name ∈ ["rapamycin_velocity"; "cell_cycle_velocity";
                                 "decay_constants"; "denoised"] ->
            is_Some (layers s5 !! name)) as Hl5.
  { intros name Hname.
    apply wildtype_subset_Ok in H5 as (gene' & _ & _ & ->). cbn.
    rewrite lookup_fmap. apply fmap_is_Some, elem_of_dom.
    rewrite D4, L3, !dom_insert_L.
    pose proof (base_construction_decay_constants _ _ H1) as (dc' & _ & Hdc').
    apply elem_of_dom_2 in Hdc'.
    rewrite !elem_of_union, !elem_of_singleton.
    rewrite !elem_of_cons, elem_of_nil in Hname.
    destruct Hname as [->|[->|[->|[->|[]]]]]; tauto. }
  destruct (transcription_layer_succeeds s5 "rapamycin_velocity"
              "rapamycin_transcription" W5) as [s5' H6a];
    [done|done|apply Hl5; rewrite !elem_of_cons; tauto..|].
  assert (store_wf s5') as W5'
    by (eapply transcription_layer_wf; [| |exact W5|exact H6a]; done).
  assert (forall name, name ∈ ["rapamycin_velocity"; "cell_cycle_velocity";
                                 "decay_constants"; "denoised"] ->
            is_Some (layers s5' !! name)) as Hl5'.
  { intros name Hname.
    apply transcription_layer_spec in H6a
      as (t & ? & ? & ? & _ & _ & _ & _ & _ & _ & _ & _ & ->); [|done..].
    cbn. rewrite lookup_insert_ne; [by apply Hl5|].
    rewrite !elem_of_cons, elem_of_nil in Hname.
    by destruct Hname as [->|[->|[->|[->|[]]]]]. }
  destruct (transcription_layer_succeeds s5' "cell_cycle_velocity"
              "cell_cycle_transcription" W5') as [s6 H6b];
    [done|done|apply Hl5'; rewrite !elem_of_cons; tauto..|].
  assert (transcription_layers s5 = Ok s6) as H6.
  { unfold transcription_layers. by rewrite H6a. }
  pose proof (transcription_layers_wf _ _ W5 H6) as W6.
  destruct (trim_features_total s6 (wf_X _ W6)) as [out H7].
  exists out. split; [|by apply (trim_features_wf _ _ W6)].
  apply data_packager_stages. by exists s1, s3, s4, s5, s6.
Qed.

Lemma scenario_consistent :
  inputs_consistent Examples.scenario Examples.scenario_counts.
Proof.
  constructor.
  - exact scenario_input_wf.
  - vm_compute; reflexivity.
  - exact scenario_nonneg.
  - reflexivity.
  - reflexivity.
  - intros name Hname. unfold var_columns in Hname.
    rewrite !elem_of_cons, elem_of_nil in Hname.
    destruct Hname as [->|[->|[->|[]]]];
      apply (bool_decide_eq_true_1 _); vm_compute; reflexivity.
  - exists (np_full (4, 3) F32.one). split; vm_compute; reflexivity.
  - intros name Hname. rewrite !elem_of_cons, elem_of_nil in Hname.
    destruct Hname as [->|[->|[]]].
    + exists (Examples.matrix 2 [[1; 2]; [3; 4]; [5; 6]; [7; 8]]%Z).
      split_and!; [vm_compute; reflexivity|by_evaluation|reflexivity|cbn; lia].
    + exists (Examples.matrix 3 [[1; 2; 0]; [3; 4; 0]; [5; 6; 0]; [7; 8; 0]]%Z).
      split_and!; [vm_compute; reflexivity|by_evaluation|reflexivity|cbn; lia].
  - exists {[ "rapa_program" := "0"; "cell_cycle_program" := "1" ]}, "0", "1".
    split_and!; try (vm_compute; reflexivity);
      apply (bool_decide_eq_true_1 _); vm_compute; reflexivity.
  - apply (bool_decide_eq_true_1 _); vm_compute; reflexivity.
  - exact scenario_aligned.
Qed.

Lemma consistent_inputs_witness :
  exists out, _data_packager Examples.scenario = Ok out /\ store_wf out.
Proof.
  exact (consistent_inputs_give_a_result Examples.scenario
           Examples.scenario_counts scenario_consistent).
Defined.
(* ================================================================== *)
(** * 44. What the packager reads, and the order it keeps *)
(* ================================================================== *)

Lemma compress_sublist {A : Type} mask (l : list A) : compress mask l `sublist_of` l.
Proof.
  revert l. induction mask as [|b mask IH]; intros [|x l]; cbn;
    try apply sublist_nil_l.
  destruct b; [by apply sublist_skip|by apply sublist_cons].
Qed.

(** X20.  The packager selects and never reorders: the observation names
    of the returned object are a sublist of the observation names of the
    full data set and its gene names a sublist of the gene names of the
    full data set; names that are unique in the full data set are
    unique in the result. *)
Theorem returned_names_are_sublists (data : FigureSingleCellData) (out : AnnData) :
  _data_packager data = Ok out ->
  obs_names out `sublist_of` obs_names (all_data data)
  /\ var_names out `sublist_of` var_names (all_data data)
  /\ (NoDup (obs_names (all_data data)) -> NoDup (obs_names out))
  /\ (NoDup (var_names (all_data data)) -> NoDup (var_names out)).
Proof.
  intros (s1 & s3 & s4 & s5 & s6 & H1 & H3 & H4 & H5 & H6 & H7)%data_packager_stages.
  destruct (stages_frame _ _ _ _ _ _ H3 H4 H5 H6) as (V6 & _ & O4 & _ & O6).
  pose proof (base_construction_obs_names _ _ H1) as N1.
  destruct (layer_setup_obs_names _ _ H3) as (kept & N3).
  apply wildtype_subset_Ok in H5 as (gene & _ & _ & E5).
  pose proof (trim_features_names _ _ H7) as [_ O7].
  assert (obs_names out `sublist_of` obs_names (all_data data)) as Hobs.
  { unfold obs_names in *. rewrite O7, O6, E5. cbn. rewrite O4, N3, N1.
    etrans; apply compress_sublist. }
  assert (var_names out `sublist_of` var_names (all_data data)) as Hvar.
  { apply base_construction_Ok in H1
      as (counts & cols & dc & umap & pca & col_r & col_c
          & _ & _ & _ & _ & _ & _ & _ & _ & _ & ->).
    cbn in V6. unfold var_names, trim_features in *.
    destruct (forallb id (has_expression s6)).
    - injection H7 as <-. by rewrite V6.
    - apply subset_var_Ok in H7 as [_ ->]. cbn. rewrite V6. cbn.
      apply compress_sublist. }
  split_and!; try done.
  - intros Hnd. by eapply sublist_NoDup.
  - intros Hnd. by eapply sublist_NoDup.
Qed.

Lemma returned_names_witness :
  obs_names Examples.scenario_out `sublist_of` obs_names (all_data Examples.scenario)
  /\ var_names Examples.scenario_out
     `sublist_of` var_names (all_data Examples.scenario)
  /\ (NoDup (obs_names (all_data Examples.scenario)) ->
      NoDup (obs_names Examples.scenario_out))
  /\ (NoDup (var_names (all_data Examples.scenario)) ->
      NoDup (var_names Examples.scenario_out)).
Proof.
  exact (returned_names_are_sublists Examples.scenario Examples.scenario_out
           scenario_runs).
Defined.

Lemma df_select_columns_ext (df1 df2 : DataFrame) names :
  (forall n, n ∈ names -> columns df1 !! n = columns df2 !! n) ->
  df_select_columns df1 names = df_select_columns df2 names.
Proof.
  induction names as [|n names IH]; intros H; [done|].
  cbn [df_select_columns]. unfold df_getitem, getitem.
  rewrite (H n) by (by left). rewrite IH; [done|]. intros; apply H. by right.
Qed.

Lemma base_construction_ext (d1 d2 : FigureSingleCellData) :
  same_inputs d1 d2 -> base_construction d1 = base_construction d2.
Proof.
  intros [Hc Hdc Ho Hvi Hv Hu Hp Hpr _ _ _].
  unfold base_construction, new_data_object, copy_program_times, get_layer,
    df_select, getitem.
  fold var_columns.
  rewrite (df_select_columns_ext _ _ _ Hv), Hc, Hdc, Ho, Hvi, Hu, Hp, Hpr.
  reflexivity.
Qed.

Lemma merge_experiment_ext (d1 d2 : FigureSingleCellData) (inf_data : AnnData)
    (k : key) :
  same_inputs d1 d2 -> k ∈ expts d1 ->
  merge_experiment d1 inf_data k = merge_experiment d2 inf_data k.
Proof.
  intros Hsame Hk. pose proof (si_decay _ _ Hsame k Hk) as Hdd.
  pose proof (si_denoised _ _ Hsame k Hk) as Hdn.
  unfold merge_experiment, get_layer, getitem.
  destruct (decay_data d1 k) as [a1|e1], (decay_data d2 k) as [a2|e2];
    cbn in Hdd; try done; [|by subst].
  destruct Hdd as (Hn & Hrv & Hcv).
  destruct (denoised_data d1 k) as [b1|e1], (denoised_data d2 k) as [b2|e2];
    cbn in Hdn; try done; cbn [mbind result_bind]; [|by subst].
  by rewrite Hn, Hdn, Hrv, Hcv.
Qed.

Lemma merge_experiments_ext (d1 d2 : FigureSingleCellData) ks :
  same_inputs d1 d2 -> (forall k, k ∈ ks -> k ∈ expts d1) ->
  forall inf_data,
    merge_experiments d1 inf_data ks = merge_experiments d2 inf_data ks.
Proof.
  intros Hsame. induction ks as [|k ks IH]; intros Hks inf_data; [done|].
  cbn [merge_experiments].
  rewrite (merge_experiment_ext d1 d2) by (done || apply Hks; by left).
  destruct (merge_experiment d2 inf_data k); [|done]. cbn [mbind result_bind].
  apply IH. intros; apply Hks. by right.
Qed.

(** X19.  The packager reads nothing but: the layers [counts] and
    [decay_constants], [obs], the index and three columns of [var], the
    embeddings [X_umap] and [X_pca] and the program names of the full
    data set; the experiment keys; the observation names and the two
    velocity layers of every decay product; the matrix of every denoised
    product.  Two inputs that agree on these give the same result or the
    same exception.  In particular the matrix [X] of the full data set
    and the observation names of the denoised products are not read. *)
Theorem the_result_depends_on_what_is_read_only (d1 d2 : FigureSingleCellData) :
  same_inputs d1 d2 -> _data_packager d1 = _data_packager d2.
Proof.
  intros Hsame. unfold _data_packager.
  rewrite (base_construction_ext d1 d2 Hsame).
  destruct (base_construction d2) as [s1|]; [|done]. cbn [mbind result_bind].
  destruct (layer_setup s1) as [s3|]; [|done]. cbn [mbind result_bind].
  rewrite (merge_experiments_ext d1 d2 (expts d1) Hsame) by done.
  by rewrite (si_expts _ _ Hsame).
Qed.

Lemma scenario_unread_same : same_inputs Examples.scenario Examples.scenario_unread.
Proof.
  constructor; try (vm_compute; reflexivity).
  - intros name Hname. unfold var_columns in Hname.
    rewrite !elem_of_cons, elem_of_nil in Hname.
    destruct Hname as [->|[->|[->|[]]]]; vm_compute; reflexivity.
  - intros k _. cbn. split_and!; vm_compute; reflexivity.
Qed.

Lemma unread_inputs_witness :
  _data_packager Examples.scenario = _data_packager Examples.scenario_unread.
Proof.
  exact (the_result_depends_on_what_is_read_only Examples.scenario
           Examples.scenario_unread scenario_unread_same).
Defined.
